(** * MyCord chat client: a shallow embedding of the client runtime

    The repository holds three variants of one terminal chat client:
    [client.c] and [clientAi.c] (line mode and a full-screen text UI) and
    [clientOp.c] (line mode only).  This file embeds the transport
    primitive, the receive loops, the display buffer, the renderer's
    window computation, the key-input loop and the shutdown path of the
    variants, and states the properties of the specification over them.

    Conventions.  A [char] is a [Byte.byte]; [int] and [ssize_t] values are
    integers of [Z] ([int] overflow is undefined behaviour in C and no run
    of feasible length reaches it); [size_t] counters are [nat].  A C string
    stored in a fixed buffer is represented by its bytes up to the
    terminator. *)

From Stdlib.Strings Require Import String.
From Stdlib.Strings Require Import Byte.
From Stdlib Require Import List ZArith NArith Lia Bool.
Import ListNotations.
Local Open Scope Z_scope.

(** ** C strings *)

Module CStr.

Definition byte := Byte.byte.

(** [(unsigned char)c] *)
Definition uchar (c : byte) : Z := Z.of_N (Byte.to_N c).

(** The bytes of [buf] read as a C string: everything before the first NUL. *)
Fixpoint c_str (buf : list byte) : list byte :=
  match buf with
  | [] => []
  | c :: rest => if Byte.eqb c x00 then [] else c :: c_str rest
  end.

Definition strlen (s : list byte) : Z := Z.of_nat (length (c_str s)).

(** The string held by [dst] after [strncpy(dst, s, n); dst[n] = 0;]. *)
Definition strncpy (s : list byte) (n : nat) : list byte := firstn n (c_str s).

Fixpoint bytes_eqb (a b : list byte) : bool :=
  match a, b with
  | [], [] => true
  | x :: a', y :: b' => Byte.eqb x y && bytes_eqb a' b'
  | _, _ => false
  end.

(** [strcmp(a, b) == 0] *)
Definition str_eq (a b : list byte) : bool := bytes_eqb (c_str a) (c_str b).

(** A string literal of the source. *)
Definition lit (s : String.string) : list byte := String.list_byte_of_string s.
Arguments lit s%_string.

(** No NUL among the bytes: the list is its own C string. *)
Definition nul_free (s : list byte) : Prop := Forall (fun c => c <> x00) s.

End CStr.

(** ** The full-read primitive ([full_read], [perform_full_read]) *)

Module Transport.
Import CStr.

(** What the socket does at successive [read] calls.  A [Chunk] is a
    non-empty run of bytes that is ready at once; the end of the list is
    the peer's close, after which every [read] returns 0. *)
Inductive read_event :=
| Chunk (b : byte) (bs : list byte)
| Eintr
| Fail.

Definition source := list read_event.

(** The outcome of one [read]: [r >= 0] bytes, or [-1] with [errno]. *)
Inductive read_ret :=
| RBytes (bs : list byte)
| RIntr
| RFail.

Definition requeue (bs : list byte) (rest : source) : source :=
  match bs with
  | [] => rest
  | b :: bs' => Chunk b bs' :: rest
  end.

(** [read(fd, p, count)] *)
Definition sys_read (src : source) (count : nat) : read_ret * source :=
  match src with
  | [] => (RBytes [], [])
  | Eintr :: rest => (RIntr, rest)
  | Fail :: rest => (RFail, rest)
  | Chunk b bs :: rest =>
      (RBytes (firstn count (b :: bs)), requeue (skipn count (b :: bs)) rest)
  end.

(** The loop of [full_read] and of [perform_full_read]: the return value,
    the bytes stored at the start of the buffer, and what is left of the
    source.  [fuel] bounds the number of iterations. *)
Fixpoint full_read_loop (fuel : nat) (src : source) (n off : nat)
    (got : list byte) : option (Z * list byte * source) :=
  match fuel with
  | O => None
  | S fuel' =>
      if (off <? n)%nat then
        match sys_read src (n - off) with
        | (RIntr, src') => full_read_loop fuel' src' n off got
        | (RFail, src') => Some (-1, got, src')
        | (RBytes [], src') => Some (Z.of_nat off, got, src')
        | (RBytes (b :: bs), src') =>
            full_read_loop fuel' src' n (off + length (b :: bs)) (got ++ b :: bs)
        end
      else Some (Z.of_nat off, got, src)
  end.

(** [clientOp.c], [full_read] *)
Definition full_read (src : source) (n : nat) : option (Z * list byte * source) :=
  full_read_loop (length src + 2) src n 0 [].

(** [client.c] and [clientAi.c], [perform_full_read]; [buf = None] is the
    null pointer. *)
Definition perform_full_read (buf : option (list byte)) (src : source) (n : nat)
    : option (Z * list byte * source) :=
  match buf with
  | None => Some (-1, [], src)
  | Some _ => full_read_loop (length src + 2) src n 0 []
  end.

(** The buffer after a read stored [data] at its start. *)
Definition store (buf data : list byte) : list byte :=
  data ++ skipn (length data) buf.

(** The bytes the source delivers before its close or first failure,
    whatever the chunking and the interruptions. *)
Fixpoint stream_bytes (src : source) : list byte :=
  match src with
  | [] => []
  | Chunk b bs :: rest => (b :: bs) ++ stream_bytes rest
  | Eintr :: rest => stream_bytes rest
  | Fail :: _ => []
  end.

(** Whether those bytes end in a failure rather than in the close. *)
Fixpoint stream_fails (src : source) : bool :=
  match src with
  | [] => false
  | Chunk _ _ :: rest => stream_fails rest
  | Eintr :: rest => stream_fails rest
  | Fail :: _ => true
  end.

(** Single-byte delivery of a list of bytes. *)
Definition trickle (bs : list byte) : source := map (fun b => Chunk b []) bs.

End Transport.

(** ** The wire record ([message_t]) *)

Module Wire.
Import CStr.

Definition LOGIN : Z := 0.
Definition LOGOUT : Z := 1.
Definition MESSAGE_SENT : Z := 2.
Definition MESSAGE_RECV : Z := 10.
Definition DISCONNECT : Z := 12.
Definition SYSTEM : Z := 13.

(** [sizeof(message_t)]: the packed record of two 32-bit words,
    [username[32]] and [message[1024]]. *)
Definition FRAME_SIZE : nat := 1064.

Definition byte_of_Z (z : Z) : byte :=
  match Byte.of_N (Z.to_N (z mod 256)) with
  | Some b => b
  | None => x00
  end.

(** The four bytes of a 32-bit word in network order, and back. *)
Definition htonl (v : Z) : list byte :=
  [byte_of_Z (v / 16777216); byte_of_Z (v / 65536); byte_of_Z (v / 256); byte_of_Z v].

Definition ntohl (bs : list byte) : Z :=
  fold_left (fun acc b => acc * 256 + uchar b) (firstn 4 bs) 0.

Definition field (buf : list byte) (off len : nat) : list byte :=
  firstn len (skipn off buf).

Definition m_type (buf : list byte) : Z := ntohl (field buf 0 4).
Definition timeStamp (buf : list byte) : Z := ntohl (field buf 4 4).
Definition username (buf : list byte) : list byte := field buf 8 32.
Definition message (buf : list byte) : list byte := field buf 40 1024.

Definition pad (s : list byte) (n : nat) : list byte :=
  s ++ repeat x00 (n - length s).

(** A zeroed record with its type, its user name copied with
    [strncpy(.., 31)] and its text copied with [strncpy(.., 1023)]. *)
Definition frame (ty : Z) (user text : list byte) : list byte :=
  htonl ty ++ htonl 0 ++ pad (strncpy user 31) 32 ++ pad (strncpy text 1023) 1024.

(** A record as a server sends it. *)
Definition server_frame (ty ts : Z) (user text : list byte) : list byte :=
  htonl ty ++ htonl ts ++ pad (strncpy user 31) 32 ++ pad (strncpy text 1023) 1024.

(** [message_t m = {0}] *)
Definition zero_frame : list byte := repeat x00 FRAME_SIZE.

(** How many of the records handed to a socket have the type [ty]. *)
Definition count_type (ty : Z) (sent : list (list byte)) : nat :=
  count_occ Z.eq_dec (map m_type sent) ty.

End Wire.

(** ** The display buffer and the renderer's window (client.c, clientAi.c) *)

Module Display.
Import CStr.

Definition TUI_MAX_LINES : nat := 600.

Record tui_line_t := {
  timebuf : list byte;
  username : list byte;
  text : list byte;
  kind : Z
}.

(** [g_lines] holds the first [g_line_count] slots of the array, so that
    [g_line_count] is its length. *)
Record display := {
  g_lines : list tui_line_t;
  g_scroll : Z;
  g_tui_dirty : bool
}.

Definition g_line_count (d : display) : Z := Z.of_nat (length (g_lines d)).

(** The slot that [tui_add_line_locked] fills: three [strncpy] with the last
    byte of each field zeroed. *)
Definition new_line (tb user txt : list byte) (k : Z) : tui_line_t :=
  {| timebuf := strncpy tb 31; username := strncpy user 31;
     text := strncpy txt 1023; kind := k |}.

(** [tui_add_line_locked]: below the capacity the line goes in the next
    slot; at the capacity [memmove] shifts slots 1..599 down by one and the
    line goes in the last slot. *)
Definition tui_add_line_locked (lines : list tui_line_t)
    (tb user txt : list byte) (k : Z) : list tui_line_t :=
  if (length lines <? TUI_MAX_LINES)%nat
  then lines ++ [new_line tb user txt k]
  else firstn (TUI_MAX_LINES - 1) (skipn 1 lines) ++ [new_line tb user txt k].

(** [tui_add_line] *)
Definition tui_add_line (d : display) (tb user txt : list byte) (k : Z) : display :=
  {| g_lines := tui_add_line_locked (g_lines d) tb user txt k;
     g_scroll := if 0 <? g_scroll d then g_scroll d + 1 else g_scroll d;
     g_tui_dirty := true |}.

(** [tui_set_dirty] *)
Definition tui_set_dirty (d : display) : display :=
  {| g_lines := g_lines d; g_scroll := g_scroll d; g_tui_dirty := true |}.

Definition set_scroll (d : display) (s : Z) : display :=
  {| g_lines := g_lines d; g_scroll := s; g_tui_dirty := g_tui_dirty d |}.

Definition clear_dirty (d : display) : display :=
  {| g_lines := g_lines d; g_scroll := g_scroll d; g_tui_dirty := false |}.

Definition empty : display :=
  {| g_lines := []; g_scroll := 0; g_tui_dirty := false |}.

(** The arguments of one [tui_add_line] call. *)
Record line_args := {
  a_time : list byte;
  a_user : list byte;
  a_text : list byte;
  a_kind : Z
}.

Definition add (d : display) (a : line_args) : display :=
  tui_add_line d (a_time a) (a_user a) (a_text a) (a_kind a).

Definition stored (a : line_args) : tui_line_t :=
  new_line (a_time a) (a_user a) (a_text a) (a_kind a).

Definition add_all (d : display) (ls : list line_args) : display :=
  fold_left add ls d.

(** Numbered sample lines, for running the buffer on concrete input. *)
Definition sample_lines (n : nat) : list line_args :=
  map (fun i => {| a_time := lit "12:00:00"; a_user := lit "bob";
                   a_text := lit "hi"; a_kind := Z.of_nat i |})
      (seq 0 n).

Definition sample_line : line_args :=
  {| a_time := lit "12:00:01"; a_user := lit "alice";
     a_text := lit "new"; a_kind := 10 |}.

(** A buffer of [n] sample lines that the user scrolled up by [s]. *)
Definition scrolled (n : nat) (s : Z) : display :=
  set_scroll (add_all empty (sample_lines n)) s.

(** [tui_render], the height of the message area from the terminal rows. *)
Definition msg_h_of_rows (rows : Z) : Z :=
  let rows := if rows <? 12 then 12 else rows in
  let msg_h := rows - 6 in
  if msg_h <? 5 then 5 else msg_h.

(** [tui_render], [start] and [end]. *)
Definition window_bounds (total msg_h scroll : Z) : Z * Z :=
  let start := total - msg_h - scroll in
  let start := if start <? 0 then 0 else start in
  let end_ := start + msg_h in
  let end_ := if end_ >? total then total else end_ in
  (start, end_).

(** [tui_render], the row loop
    [for (i = start, r = 0; r < msg_h; r++) if (i < end) { paint g_lines[i]; i++; }]:
    the indices painted, in row order. *)
Fixpoint paint_rows (rows : nat) (i end_ : Z) : list Z :=
  match rows with
  | O => []
  | S r => if i <? end_ then i :: paint_rows r (i + 1) end_
           else paint_rows r i end_
  end.

Definition painted (total msg_h scroll : Z) : list Z :=
  let (start, end_) := window_bounds total msg_h scroll in
  paint_rows (Z.to_nat msg_h) start end_.

(** The lines on screen for a message area of [msg_h] rows. *)
Definition visible (d : display) (msg_h : Z) : list (option tui_line_t) :=
  map (fun i => nth_error (g_lines d) (Z.to_nat i))
      (painted (g_line_count d) msg_h (g_scroll d)).

(** The integers of [a, b), ascending. *)
Definition zrange (a b : Z) : list Z :=
  map (fun k => a + Z.of_nat k) (seq 0 (Z.to_nat (b - a))).

(** The last [c] elements of a list. *)
Definition keep_last {A} (c : nat) (l : list A) : list A :=
  skipn (length l - c) l.

Definition clamp (len x : Z) : Z := Z.max 0 (Z.min len x).

(** The window as the specification words it:
    [[len-height-scroll, len-scroll)] clamped to [[0, len)]. *)
Definition spec_visible_window (len height scroll : Z) : list Z :=
  zrange (clamp len (len - height - scroll)) (clamp len (len - scroll)).

End Display.

(** ** The world around a client *)

Module Env.
Import CStr Transport.

(** What [getline] returns on standard input; the end of the list of
    results is the end of input. *)
Inductive getline_ret :=
| Line (l : list byte)
| LineEintr.

(** A line of output in line mode. *)
Inductive printed :=
| OutMsg (time user text : list byte)
| OutSystem (text : list byte)
| OutDisconnect (text : list byte)
| OutInfo (text : list byte)
| OutError (text : list byte).

(** Where the main thread and the receive thread stand. *)
Inductive main_pc := StartMenu | Editing | LineLoop | Exited.
Inductive rx_pc := RxStart | RxLoop | RxExited.

(** The threads that a schedule names.  [T_signal] is the delivery of
    SIGINT; [T_quote now pick] is the announcer of client.c waking at the
    time [now] with the value [pick] of [rand()]. *)
Inductive thread :=
| T_main
| T_rx
| T_signal
| T_quote (now : Z) (pick : nat).

(** The socket (what it will deliver, the records handed to [write], whether
    [shutdown] was called), the terminal (the results of successive
    [tui_try_read_byte] calls, [None] for a timeout, and timeouts for ever at
    the end of the list), standard input, the success of successive writes
    (success for ever at the end of the list), the output, and the text of
    [strftime] on [localtime] of a timestamp. *)
Record world := {
  sock_in : source;
  sock_out : list (list byte);
  sock_shut : bool;
  term_in : list (option byte);
  stdin_in : list getline_ret;
  write_ok : list bool;
  out : list printed;
  fmt_time : Z -> list byte
}.

Definition with_sock_in (x : world) (v : source) : world :=
  {| sock_in := v; sock_out := sock_out x; sock_shut := sock_shut x;
     term_in := term_in x; stdin_in := stdin_in x; write_ok := write_ok x;
     out := out x; fmt_time := fmt_time x |}.

Definition with_sock_out (x : world) (v : list (list byte)) : world :=
  {| sock_in := sock_in x; sock_out := v; sock_shut := sock_shut x;
     term_in := term_in x; stdin_in := stdin_in x; write_ok := write_ok x;
     out := out x; fmt_time := fmt_time x |}.

Definition with_sock_shut (x : world) (v : bool) : world :=
  {| sock_in := sock_in x; sock_out := sock_out x; sock_shut := v;
     term_in := term_in x; stdin_in := stdin_in x; write_ok := write_ok x;
     out := out x; fmt_time := fmt_time x |}.

Definition with_term_in (x : world) (v : list (option byte)) : world :=
  {| sock_in := sock_in x; sock_out := sock_out x;
     sock_shut := sock_shut x; term_in := v; stdin_in := stdin_in x;
     write_ok := write_ok x; out := out x; fmt_time := fmt_time x |}.

Definition with_stdin_in (x : world) (v : list getline_ret) : world :=
  {| sock_in := sock_in x; sock_out := sock_out x;
     sock_shut := sock_shut x; term_in := term_in x; stdin_in := v;
     write_ok := write_ok x; out := out x; fmt_time := fmt_time x |}.

Definition with_write_ok (x : world) (v : list bool) : world :=
  {| sock_in := sock_in x; sock_out := sock_out x;
     sock_shut := sock_shut x; term_in := term_in x;
     stdin_in := stdin_in x; write_ok := v; out := out x;
     fmt_time := fmt_time x |}.

Definition with_out (x : world) (v : list printed) : world :=
  {| sock_in := sock_in x; sock_out := sock_out x;
     sock_shut := sock_shut x; term_in := term_in x;
     stdin_in := stdin_in x; write_ok := write_ok x; out := v;
     fmt_time := fmt_time x |}.


Definition pop {A} (l : list A) : option A * list A :=
  match l with
  | [] => (None, [])
  | x :: rest => (Some x, rest)
  end.

(** [line[strcspn(line, "\n")] = 0]: the line up to its first newline. *)
Fixpoint cut_newline (l : list byte) : list byte :=
  match l with
  | [] => []
  | c :: rest => if Byte.eqb c x0a then [] else c :: cut_newline rest
  end.

Definition chomp (l : list byte) : list byte := cut_newline (c_str l).

End Env.

(** ** client.c (and clientAi.c, which shares the code embedded here up to
    the labels of its lines) *)

Module Client.
Import CStr Wire Transport Display Env.

Inductive ui_mode_t := UI_SPARTAN | UI_GRAVEMIND.

Definition HIST_MAX : nat := 64.

(** [g_input] holds the [g_input_len] bytes typed so far; [hist_idx] is the
    local of [tui_loop_send]. *)
Record edit := {
  g_input : list byte;
  g_send_hist : list (list byte);
  hist_idx : Z
}.

Definition g_input_len (e : edit) : Z := Z.of_nat (length (g_input e)).
Definition g_send_hist_len (e : edit) : Z := Z.of_nat (length (g_send_hist e)).

(** The locals of [receive_messages_thread]. *)
Record rx_locals := {
  msg : list byte;
  last_msg : list byte;
  has_last : bool
}.

Record client := {
  running : bool;
  shutdown_requested : bool;
  g_tui_enabled : bool;
  g_ui_mode : ui_mode_t;
  g_show_start_menu : bool;
  user : list byte;
  disp : display;
  ed : edit;
  rx : rx_locals;
  pc : main_pc;
  rpc : rx_pc;
  w : world
}.

Definition set_running (c : client) (v : bool) : client :=
  {| running := v; shutdown_requested := shutdown_requested c;
     g_tui_enabled := g_tui_enabled c; g_ui_mode := g_ui_mode c;
     g_show_start_menu := g_show_start_menu c; user := user c;
     disp := disp c; ed := ed c; rx := rx c; pc := pc c; rpc := rpc c;
     w := w c |}.

Definition set_shutdown_requested (c : client) (v : bool) : client :=
  {| running := running c; shutdown_requested := v;
     g_tui_enabled := g_tui_enabled c; g_ui_mode := g_ui_mode c;
     g_show_start_menu := g_show_start_menu c; user := user c;
     disp := disp c; ed := ed c; rx := rx c; pc := pc c; rpc := rpc c;
     w := w c |}.

Definition set_g_ui_mode (c : client) (v : ui_mode_t) : client :=
  {| running := running c; shutdown_requested := shutdown_requested c;
     g_tui_enabled := g_tui_enabled c; g_ui_mode := v;
     g_show_start_menu := g_show_start_menu c; user := user c;
     disp := disp c; ed := ed c; rx := rx c; pc := pc c; rpc := rpc c;
     w := w c |}.

Definition set_g_show_start_menu (c : client) (v : bool) : client :=
  {| running := running c; shutdown_requested := shutdown_requested c;
     g_tui_enabled := g_tui_enabled c; g_ui_mode := g_ui_mode c;
     g_show_start_menu := v; user := user c; disp := disp c; ed := ed c;
     rx := rx c; pc := pc c; rpc := rpc c; w := w c |}.

Definition set_disp (c : client) (v : display) : client :=
  {| running := running c; shutdown_requested := shutdown_requested c;
     g_tui_enabled := g_tui_enabled c; g_ui_mode := g_ui_mode c;
     g_show_start_menu := g_show_start_menu c; user := user c; disp := v;
     ed := ed c; rx := rx c; pc := pc c; rpc := rpc c; w := w c |}.

Definition set_ed (c : client) (v : edit) : client :=
  {| running := running c; shutdown_requested := shutdown_requested c;
     g_tui_enabled := g_tui_enabled c; g_ui_mode := g_ui_mode c;
     g_show_start_menu := g_show_start_menu c; user := user c;
     disp := disp c; ed := v; rx := rx c; pc := pc c; rpc := rpc c;
     w := w c |}.

Definition set_rx (c : client) (v : rx_locals) : client :=
  {| running := running c; shutdown_requested := shutdown_requested c;
     g_tui_enabled := g_tui_enabled c; g_ui_mode := g_ui_mode c;
     g_show_start_menu := g_show_start_menu c; user := user c;
     disp := disp c; ed := ed c; rx := v; pc := pc c; rpc := rpc c;
     w := w c |}.

Definition set_pc (c : client) (v : main_pc) : client :=
  {| running := running c; shutdown_requested := shutdown_requested c;
     g_tui_enabled := g_tui_enabled c; g_ui_mode := g_ui_mode c;
     g_show_start_menu := g_show_start_menu c; user := user c;
     disp := disp c; ed := ed c; rx := rx c; pc := v; rpc := rpc c;
     w := w c |}.

Definition set_rpc (c : client) (v : rx_pc) : client :=
  {| running := running c; shutdown_requested := shutdown_requested c;
     g_tui_enabled := g_tui_enabled c; g_ui_mode := g_ui_mode c;
     g_show_start_menu := g_show_start_menu c; user := user c;
     disp := disp c; ed := ed c; rx := rx c; pc := pc c; rpc := v;
     w := w c |}.

Definition set_w (c : client) (v : world) : client :=
  {| running := running c; shutdown_requested := shutdown_requested c;
     g_tui_enabled := g_tui_enabled c; g_ui_mode := g_ui_mode c;
     g_show_start_menu := g_show_start_menu c; user := user c;
     disp := disp c; ed := ed c; rx := rx c; pc := pc c; rpc := rpc c;
     w := v |}.


Definition add_line (c : client) (tb usr txt : list byte) (k : Z) : client :=
  set_disp c (tui_add_line (disp c) tb usr txt k).

Definition dirty (c : client) : client := set_disp c (tui_set_dirty (disp c)).

Definition print (c : client) (l : printed) : client :=
  set_w c (with_out (w c) (out (w c) ++ [l])).

(** [write(settings.socket_fd, &m, sizeof(m))]: the record is handed to the
    socket; the result says whether the call returned more than 0. *)
Definition sys_write (c : client) (m : list byte) : bool * client :=
  let (r, rest) := pop (write_ok (w c)) in
  let ok := match r with Some b => b | None => true end in
  (ok, set_w c (with_write_ok (with_sock_out (w c) (sock_out (w c) ++ [m])) rest)).

(** [tui_try_read_byte] *)
Definition read_key (c : client) : option byte * client :=
  let (r, rest) := pop (term_in (w c)) in
  (match r with Some k => k | None => None end, set_w c (with_term_in (w c) rest)).

(** [(int)ntohl(x)] *)
Definition to_int (v : Z) : Z := if v <? 2147483648 then v else v - 4294967296.

(** *** Validation and local commands *)

(** [is_ascii_printable_strict] *)
Definition is_ascii_printable_strict (s : list byte) : bool :=
  forallb (fun ch => negb (uchar ch =? 27)
                     && negb ((uchar ch <? 32) || (uchar ch >? 126)))
          (c_str s).

(** [is_local_command] *)
Definition is_local_command (s : list byte) : bool :=
  str_eq s (lit "!disconnect") || str_eq s (lit "!disconect")
  || str_eq s (lit "!gravemind") || str_eq s (lit "!spartan")
  || str_eq s (lit "!help").

(** [run_local_command] *)
Definition run_local_command (c : client) (s : list byte) : client :=
  if str_eq s (lit "!help") then
    if g_tui_enabled c
    then add_line c (lit "SYSTEM") (lit "HELP")
           (lit "Commands: !help !gravemind !spartan !disconnect") SYSTEM
    else print c (OutInfo (lit "Commands: !help !gravemind !spartan !disconnect"))
  else if str_eq s (lit "!gravemind") then
    let c := set_g_ui_mode c UI_GRAVEMIND in
    let c := if g_tui_enabled c
             then add_line c (lit "SYSTEM") (lit "GRAVEMIND")
                    (lit "Switching to Gravemind interface...") SYSTEM
             else c in
    dirty c
  else if str_eq s (lit "!spartan") then
    let c := set_g_ui_mode c UI_SPARTAN in
    let c := if g_tui_enabled c
             then add_line c (lit "SYSTEM") (lit "UNSC")
                    (lit "Switching to Spartan interface...") SYSTEM
             else c in
    dirty c
  else if str_eq s (lit "!disconnect") || str_eq s (lit "!disconect") then
    set_running c false
  else c.

(** *** The edit buffer and the send history *)

(** [tui_hist_push] *)
Definition tui_hist_push (hist : list (list byte)) (s : list byte) : list (list byte) :=
  match c_str s with
  | [] => hist
  | _ =>
      if (0 <? length hist)%nat && str_eq (last hist []) s then hist
      else if (length hist <? HIST_MAX)%nat then hist ++ [strncpy s 1023]
      else firstn (HIST_MAX - 1) (skipn 1 hist) ++ [strncpy s 1023]
  end.

Definition set_input (c : client) (s : list byte) : client :=
  set_ed c {| g_input := s; g_send_hist := g_send_hist (ed c);
              hist_idx := hist_idx (ed c) |}.

Definition set_hist_idx (c : client) (i : Z) : client :=
  set_ed c {| g_input := g_input (ed c); g_send_hist := g_send_hist (ed c);
              hist_idx := i |}.

Definition set_hist (c : client) (h : list (list byte)) : client :=
  set_ed c {| g_input := g_input (ed c); g_send_hist := h;
              hist_idx := hist_idx (ed c) |}.

(** [tui_input_clear] *)
Definition tui_input_clear (c : client) : client := set_input c [].

(** [tui_input_set] *)
Definition tui_input_set (c : client) (s : list byte) : client :=
  set_input c (strncpy s 1023).

(** A byte of the range 32..126. *)
Definition printable (ch : byte) : bool := (32 <=? uchar ch) && (uchar ch <=? 126).

Definition all_printable (s : list byte) : Prop :=
  Forall (fun ch => printable ch = true) s.

(** The edit buffer and every history entry hold bytes of 32..126 only, and
    the edit buffer fits its array. *)
Definition edit_ok (e : edit) : Prop :=
  all_printable (g_input e)
  /\ Forall all_printable (g_send_hist e)
  /\ (length (g_input e) <= 1023)%nat.

(** [g_send_hist[i]] *)
Definition hist_at (c : client) (i : Z) : list byte :=
  nth (Z.to_nat i) (g_send_hist (ed c)) [].

(** *** The main thread *)

(** The tail of [main]: the LOGOUT record is written whatever ended the
    loop, then the socket is shut down. *)
Definition main_cleanup (c : client) : client :=
  let c := set_running c false in
  let logout := frame LOGOUT (user c) (lit "User has disconnected") in
  let (_, c) := sys_write c logout in
  let c := set_w c (with_sock_shut (w c) true) in
  set_pc c Exited.

(** [tui_loop_send], the ENTER key. *)
Definition on_enter (c : client) : client :=
  if g_input_len (ed c) =? 0 then dirty c
  else if is_local_command (g_input (ed c)) then
    let c := run_local_command c (g_input (ed c)) in
    let c := tui_input_clear c in
    let c := set_hist_idx c (g_send_hist_len (ed c)) in
    dirty c
  else
    let flag := false in
    let (c, flag) :=
      if g_input_len (ed c) >? 1023
      then (add_line c (lit "SYSTEM") (lit "ERROR")
              (lit "Message is too long to send") SYSTEM, true)
      else (c, flag) in
    let flag := if g_input_len (ed c) =? 0 then true else flag in
    let (c, flag) :=
      if negb (is_ascii_printable_strict (g_input (ed c)))
      then (add_line c (lit "SYSTEM") (lit "ERROR")
              (lit "Cannot send non-ASCII characters") SYSTEM, true)
      else (c, flag) in
    let c :=
      if negb flag then
        let send := frame MESSAGE_SENT [] (g_input (ed c)) in
        let (ok, c) := sys_write c send in
        if negb ok then
          let c := add_line c (lit "SYSTEM") (lit "ERROR")
                     (lit "Write error - connection lost") SYSTEM in
          set_running c false
        else
          let c := set_hist c (tui_hist_push (g_send_hist (ed c)) (g_input (ed c))) in
          set_hist_idx c (g_send_hist_len (ed c))
      else c in
    let c := tui_input_clear c in
    dirty c.

(** [tui_loop_send], the arrow-up sequence. *)
Definition on_up (c : client) : client :=
  if g_input_len (ed c) =? 0 then
    dirty (set_disp c (set_scroll (disp c) (g_scroll (disp c) + 1)))
  else
    let c := if (g_send_hist_len (ed c) >? 0) && (hist_idx (ed c) >? 0)
             then set_hist_idx c (hist_idx (ed c) - 1) else c in
    if (hist_idx (ed c) >=? 0) && (hist_idx (ed c) <? g_send_hist_len (ed c))
    then dirty (tui_input_set c (hist_at c (hist_idx (ed c))))
    else c.

(** [tui_loop_send], the arrow-down sequence. *)
Definition on_down (c : client) : client :=
  if g_input_len (ed c) =? 0 then
    let c := if g_scroll (disp c) >? 0
             then set_disp c (set_scroll (disp c) (g_scroll (disp c) - 1))
             else c in
    dirty c
  else
    let c := if hist_idx (ed c) <? g_send_hist_len (ed c)
             then set_hist_idx c (hist_idx (ed c) + 1) else c in
    let c :=
      if hist_idx (ed c) =? g_send_hist_len (ed c) then tui_input_clear c
      else if (hist_idx (ed c) >=? 0) && (hist_idx (ed c) <? g_send_hist_len (ed c))
      then tui_input_set c (hist_at c (hist_idx (ed c)))
      else c in
    dirty c.

(** [tui_loop_send], the ESC byte: two more bytes are read, each with a
    timeout, and none of the three is put in the edit buffer. *)
Definition on_escape (c : client) : client :=
  match read_key c with
  | (None, c) => c
  | (Some s1, c) =>
      match read_key c with
      | (None, c) => c
      | (Some s2, c) =>
          if uchar s1 =? 91 then
            if uchar s2 =? 65 then on_up c
            else if uchar s2 =? 66 then on_down c
            else c
          else c
      end
  end.

(** [tui_loop_send], one key. *)
Definition on_key (c : client) (k : byte) : client :=
  if (uchar k =? 10) || (uchar k =? 13) then on_enter c
  else if (uchar k =? 127) || (uchar k =? 8) then
    if g_input_len (ed c) >? 0
    then dirty (set_input c (removelast (g_input (ed c))))
    else c
  else if uchar k =? 27 then on_escape c
  else if (uchar k >=? 32) && (uchar k <=? 126) then
    if g_input_len (ed c) <? 1023
    then dirty (set_input c (g_input (ed c) ++ [k]))
    else c
  else c.

(** [tui_loop_send], one turn of [while (settings.running)]: the redraw
    reads the state and changes the dirty flag only. *)
Definition ui_iter (c : client) : client :=
  if negb (running c) then main_cleanup c
  else
    let c := if g_tui_dirty (disp c) then set_disp c (clear_dirty (disp c)) else c in
    match read_key c with
    | (None, c) => c
    | (Some k, c) => on_key c k
    end.

(** [spartan_boot_lines] and [gravemind_boot_lines] *)
Definition boot_lines (c : client) : client :=
  match g_ui_mode c with
  | UI_GRAVEMIND =>
      let sys := lit "SYSTEM" in
      let g := lit "GRAVEMIND" in
      let c := add_line c sys g (lit ">>> NEURAL SIGNAL DETECTED") SYSTEM in
      let c := add_line c sys g (lit ">>> FLOOD SPORE INTEGRATION INITIATED") SYSTEM in
      let c := add_line c sys g (lit ">>> MEMORY BLEED CONFIRMED") SYSTEM in
      let c := add_line c sys g (lit ">>> CORRUPTION STABLE. SPREADING...") SYSTEM in
      let c := add_line c sys g (lit "I am a monument to all your sins.") SYSTEM in
      add_line c sys g (lit ">>> GRAVEMIND NEURAL NETWORK ONLINE") SYSTEM
  | UI_SPARTAN =>
      let sys := lit "SYSTEM" in
      let u := lit "UNSC" in
      let c := add_line c sys u (lit ">>> SPARTAN-III NEURAL INTERFACE INITIALIZED") SYSTEM in
      let c := add_line c sys u (lit ">>> MJOLNIR ARMOR SYSTEMS ONLINE") SYSTEM in
      let c := add_line c sys u (lit ">>> NEURAL LINK STABLE") SYSTEM in
      let c := add_line c sys (lit "CORTANA")
                 (lit "I'll be with you every step of the way.") SYSTEM in
      add_line c sys u (lit ">>> SPARTAN COMMUNICATIONS ONLINE") SYSTEM
  end.

(** [tui_loop_send] after [handle_start_menu_input] returned. *)
Definition leave_menu (c : client) : client :=
  if negb (running c) then main_cleanup c
  else
    let c := boot_lines c in
    let c := add_line c (lit "SYSTEM") (lit "SYSTEM") (lit "Connected to server") SYSTEM in
    let c := dirty c in
    let c := set_hist_idx c (g_send_hist_len (ed c)) in
    set_pc c Editing.

(** [handle_start_menu_input], one turn of its loop. *)
Definition menu_iter (c : client) : client :=
  if negb (g_show_start_menu c && running c) then leave_menu c
  else
    match read_key c with
    | (None, c) => c
    | (Some k, c) =>
        if uchar k =? 27 then
          set_g_ui_mode c (match g_ui_mode c with
                           | UI_GRAVEMIND => UI_SPARTAN
                           | UI_SPARTAN => UI_GRAVEMIND
                           end)
        else if (uchar k =? 10) || (uchar k =? 13) then
          leave_menu (dirty (set_g_show_start_menu c false))
        else if (uchar k =? 113) || (uchar k =? 81) then
          leave_menu (set_running c false)
        else c
    end.

(** [main], the line-mode loop: [getline] returned, the line is handled, and
    the loop condition is tested for the next turn. *)
Definition line_iter (c : client) : client :=
  let (r, rest) := pop (stdin_in (w c)) in
  let c := set_w c (with_stdin_in (w c) rest) in
  let again (c : client) := if running c then c else main_cleanup c in
  match r with
  | None => main_cleanup (print c (OutError (lit "EOF detected")))
  | Some LineEintr =>
      if shutdown_requested c
      then main_cleanup (print c (OutError (lit "Shutting down gracefully")))
      else again c
  | Some (Line l) =>
      let line := chomp l in
      if is_local_command line then
        let c := run_local_command c line in
        if negb (running c) then main_cleanup c else again c
      else
        let send := frame MESSAGE_SENT [] line in
        let flag := false in
        let (c, flag) :=
          if negb (is_ascii_printable_strict (Wire.message send))
          then (print c (OutError (lit "Error: Cannot send non-ASCII characters")), true)
          else (c, flag) in
        let (c, flag) :=
          if strlen (Wire.message send) >? 1023
          then (print c (OutError (lit "Error: Message too long")), true)
          else (c, flag) in
        let (c, flag) :=
          if strlen (Wire.message send) =? 0
          then (print c (OutError (lit "Error: Message too short")), true)
          else (c, flag) in
        if negb flag then
          let (ok, c) := sys_write c send in
          if negb ok then main_cleanup (print c (OutError (lit "Write error")))
          else again c
        else again c
  end.

(** [handle_signal] *)
Definition handle_signal (c : client) : client :=
  dirty (set_running (set_shutdown_requested c true) false).

(** *** The receive thread *)

(** The test of [while (settings.running)] at the end of a turn. *)
Definition rx_again (c : client) : client :=
  if running c then c else set_rpc c RxExited.

(** [receive_messages_thread] before its loop. *)
Definition rx_start (c : client) : client :=
  let c := if g_tui_enabled c
           then add_line c (lit "SYSTEM") (lit "CORTANA")
                  (lit "Type '!help' for available commands") SYSTEM
           else print c (OutInfo (lit "Type '!disconnect' to disconnect")) in
  rx_again (set_rpc c RxLoop).

(** [receive_messages_thread], what is done with a record that passed the
    duplicate guard.  In line mode [printf("%s")] reads each field up to the
    next NUL of the record. *)
Definition rx_show (c : client) : client :=
  let m := msg (rx c) in
  let timebuf := fmt_time (w c) (timeStamp m) in
  let mt := to_int (m_type m) in
  if g_tui_enabled c then
    let c :=
      if mt =? MESSAGE_RECV then
        add_line c timebuf (Wire.username m) (Wire.message m) MESSAGE_RECV
      else if mt =? SYSTEM then
        add_line c timebuf (lit "UNSC") (Wire.message m) SYSTEM
      else if mt =? DISCONNECT then
        set_running (add_line c timebuf (lit "DISCONNECT") (Wire.message m) DISCONNECT)
                    false
      else add_line c timebuf (lit "System") (Wire.message m) mt in
    rx_again c
  else if mt =? MESSAGE_RECV then
    rx_again (print c (OutMsg timebuf (c_str (skipn 8 m)) (c_str (skipn 40 m))))
  else if mt =? SYSTEM then
    rx_again (print c (OutSystem (c_str (skipn 40 m))))
  else if mt =? DISCONNECT then
    set_rpc (set_running (print c (OutDisconnect (c_str (skipn 40 m)))) false) RxExited
  else rx_again c.

(** [receive_messages_thread], one turn of its loop, from the return of
    [perform_full_read] to the next loop test.  The read stores its bytes at
    the start of [msg], which keeps the rest of its earlier content.  (The
    test [r < 0 && errno == EINTR] never holds, since the read retries on an
    interruption and fails with another error only.) *)
Definition rx_iter (c : client) : client :=
  match perform_full_read (Some (msg (rx c))) (sock_in (w c)) FRAME_SIZE with
  | None => c
  | Some (r, data, src') =>
      let c := set_w c (with_sock_in (w c) src') in
      let c := set_rx c {| msg := store (msg (rx c)) data;
                           last_msg := last_msg (rx c);
                           has_last := has_last (rx c) |} in
      if r =? 0 then
        let c := if g_tui_enabled c
                 then dirty (add_line c (lit "SYSTEM") (lit "UNSC")
                               (lit "Server has disconnected") SYSTEM)
                 else print c (OutInfo (lit "Server has disconnected")) in
        set_rpc (set_running c false) RxExited
      else if r <? 0 then
        let c := if g_tui_enabled c
                 then dirty (add_line c (lit "SYSTEM") (lit "ERROR")
                               (lit "Could not read from server") SYSTEM)
                 else print c (OutError (lit "Could not read from server")) in
        set_rpc c RxExited
      else if has_last (rx c) && bytes_eqb (msg (rx c)) (last_msg (rx c)) then
        rx_again c
      else
        let c := set_rx c {| msg := msg (rx c); last_msg := msg (rx c);
                             has_last := true |} in
        rx_show c
  end.

(** *** The announcer thread *)

Definition gravemind_quotes : list (list byte) :=
  [lit "I am a monument to all your sins.";
   lit "There is much talk, and I have listened.";
   lit "Now I shall talk, and you shall listen.";
   lit "The nodes will join. They always do.";
   lit "Your will is not your own. Not for long.";
   lit "Signal accepted. Pattern spreading.";
   lit "Do not be afraid. I am peace. I am salvation.";
   lit "We exist together now. Two corpses in one grave.";
   lit "Resignation is my virtue. Like water I ebb and flow.";
   lit "Time has taught me patience.";
   lit "Child of my enemy, why have you come?";
   lit "This one is machine and nerve, and has its mind concluded.";
   lit "Fate had us meet as foes, but this ring will make us brothers.";
   lit "I have beaten fleets of thousands! Consumed a galaxy of flesh and mind and bone!";
   lit "We trade one villain for another.";
   lit "Do I take life or give it? Who is victim and who is foe?";
   lit "I am the heart of this world. Its beat thunders through my veins.";
   lit "Your history is an appalling chronicle of betrayal."].

(** [gravemind_quote_thread], one turn of its loop after the sleep. *)
Definition quote_iter (c : client) (now : Z) (pick : nat) : client :=
  if negb (running c) then c
  else
    match g_ui_mode c with
    | UI_SPARTAN => c
    | UI_GRAVEMIND =>
        let q := nth (pick mod length gravemind_quotes) gravemind_quotes [] in
        if g_tui_enabled c && negb (g_show_start_menu c)
        then add_line c (fmt_time (w c) now) (lit "GRAVEMIND") q SYSTEM
        else c
    end.

(** *** Runs *)

Definition step (c : client) (t : thread) : client :=
  match t with
  | T_signal => handle_signal c
  | T_quote now pick => quote_iter c now pick
  | T_rx =>
      match rpc c with
      | RxStart => rx_start c
      | RxLoop => rx_iter c
      | RxExited => c
      end
  | T_main =>
      match pc c with
      | StartMenu => menu_iter c
      | Editing => ui_iter c
      | LineLoop => line_iter c
      | Exited => c
      end
  end.

Definition run (c : client) (sched : list thread) : client :=
  fold_left step sched c.

(** [main] up to the creation of the threads: the LOGIN record is written,
    and the process exits when that write fails. *)
Definition boot (tui : bool) (mode : ui_mode_t) (name : list byte) (x : world)
    : client :=
  let c := {| running := true; shutdown_requested := false;
              g_tui_enabled := tui; g_ui_mode := mode;
              g_show_start_menu := true; user := strncpy name 31;
              disp := {| g_lines := []; g_scroll := 0; g_tui_dirty := tui |};
              ed := {| g_input := []; g_send_hist := []; hist_idx := 0 |};
              rx := {| msg := zero_frame; last_msg := zero_frame;
                       has_last := false |};
              pc := if tui then StartMenu else LineLoop;
              rpc := RxStart; w := x |} in
  let (ok, c) := sys_write c (frame LOGIN name []) in
  if ok then c else set_rpc (set_pc c Exited) RxExited.

(** The records handed to the socket, by type. *)
Definition sent_types (c : client) : list Z := map m_type (sock_out (w c)).

(** The number of LOGOUT records handed to the socket so far. *)
Definition logouts (c : client) : nat := count_type LOGOUT (sock_out (w c)).

End Client.

(** ** clientOp.c *)

Module ClientOp.
Import CStr Wire Transport Env.

Definition MESSAGE_SEND : Z := 2.

(** [settings] with the two flags [shutdown_requested] and
    [got_disconnect]; the main thread is in its input loop ([LineLoop]) or
    past it ([Exited]). *)
Record client := {
  running : bool;
  got_disconnect : bool;
  shutdown_requested : bool;
  quiet : bool;
  user : list byte;
  pc : main_pc;
  rpc : rx_pc;
  w : world
}.

Definition set_running (c : client) (v : bool) : client :=
  {| running := v; got_disconnect := got_disconnect c;
     shutdown_requested := shutdown_requested c; quiet := quiet c;
     user := user c; pc := pc c; rpc := rpc c; w := w c |}.

Definition set_got_disconnect (c : client) (v : bool) : client :=
  {| running := running c; got_disconnect := v;
     shutdown_requested := shutdown_requested c; quiet := quiet c;
     user := user c; pc := pc c; rpc := rpc c; w := w c |}.

Definition set_shutdown_requested (c : client) (v : bool) : client :=
  {| running := running c; got_disconnect := got_disconnect c;
     shutdown_requested := v; quiet := quiet c; user := user c;
     pc := pc c; rpc := rpc c; w := w c |}.

Definition set_pc (c : client) (v : main_pc) : client :=
  {| running := running c; got_disconnect := got_disconnect c;
     shutdown_requested := shutdown_requested c; quiet := quiet c;
     user := user c; pc := v; rpc := rpc c; w := w c |}.

Definition set_rpc (c : client) (v : rx_pc) : client :=
  {| running := running c; got_disconnect := got_disconnect c;
     shutdown_requested := shutdown_requested c; quiet := quiet c;
     user := user c; pc := pc c; rpc := v; w := w c |}.

Definition set_w (c : client) (v : world) : client :=
  {| running := running c; got_disconnect := got_disconnect c;
     shutdown_requested := shutdown_requested c; quiet := quiet c;
     user := user c; pc := pc c; rpc := rpc c; w := v |}.


Definition print (c : client) (l : printed) : client :=
  set_w c (with_out (w c) (out (w c) ++ [l])).

(** [eprintf] *)
Definition eprintf (c : client) (m : list byte) : client := print c (OutError m).

(** [full_write]: the record is handed to the socket; the result says
    whether the transfer completed. *)
Definition full_write (c : client) (m : list byte) : bool * client :=
  let (r, rest) := pop (write_ok (w c)) in
  let ok := match r with Some b => b | None => true end in
  (ok, set_w c (with_write_ok (with_sock_out (w c) (sock_out (w c) ++ [m])) rest)).

(** [msg_valid] *)
Definition msg_valid (s : list byte) : bool :=
  let L := strlen s in
  if (L =? 0) || (L >? 1023) then false
  else forallb (fun ch => negb ((uchar ch <? 32) || (uchar ch >? 126))) (c_str s).

(** The tail of [main]: LOGOUT only if the server did not disconnect us. *)
Definition main_cleanup (c : client) : client :=
  let c := set_running c false in
  let c := if negb (got_disconnect c)
           then snd (full_write c (frame LOGOUT [] []))
           else c in
  let c := set_w c (with_sock_shut (w c) true) in
  set_pc c Exited.

(** [main], one turn of the input loop: [getline] returned, the line is
    handled, and [settings.running && !got_disconnect] is tested for the
    next turn. *)
Definition line_iter (c : client) : client :=
  let (r, rest) := pop (stdin_in (w c)) in
  let c := set_w c (with_stdin_in (w c) rest) in
  let again (c : client) :=
    if running c && negb (got_disconnect c) then c else main_cleanup c in
  match r with
  | None => main_cleanup c
  | Some LineEintr => if shutdown_requested c then main_cleanup c else again c
  | Some (Line l) =>
      let line := chomp l in
      if str_eq line (lit "!disconnect") || str_eq line (lit "!disconect") then
        main_cleanup c
      else if negb (msg_valid line) then
        let c := if strlen line =? 0 then eprintf c (lit "message too short")
                 else if strlen line >? 1023 then eprintf c (lit "message too long")
                 else eprintf c (lit "message contains non-printable ASCII") in
        again c
      else
        let (ok, c) := full_write c (frame MESSAGE_SEND [] line) in
        if negb ok then main_cleanup (eprintf c (lit "write() failed"))
        else again c
  end.

(** The test of [while (settings.running)] at the end of a turn. *)
Definition rx_again (c : client) : client :=
  if running c then c else set_rpc c RxExited.

(** [receive_thread], one turn of its loop, from the return of [full_read]
    to the next loop test.  (The test [errno == EINTR] after a failed read
    never holds, as in client.c.)  The two fields are terminated at their
    last byte before they are printed. *)
Definition rx_iter (c : client) : client :=
  match full_read (sock_in (w c)) FRAME_SIZE with
  | None => c
  | Some (r, m, src') =>
      let c := set_w c (with_sock_in (w c) src') in
      if r <? 0 then
        set_rpc (set_running (eprintf c (lit "read from server failed")) false) RxExited
      else if r =? 0 then
        set_rpc (set_running c false) RxExited
      else if negb (r =? Z.of_nat FRAME_SIZE) then
        set_rpc (set_running (eprintf c (lit "protocol short read")) false) RxExited
      else
        let mt := m_type m in
        if mt =? MESSAGE_RECV then
          rx_again (print c (OutMsg (fmt_time (w c) (timeStamp m))
                               (strncpy (Wire.username m) 31)
                               (strncpy (Wire.message m) 1023)))
        else if mt =? SYSTEM then
          rx_again (print c (OutSystem (strncpy (Wire.message m) 1023)))
        else if mt =? DISCONNECT then
          let c := print c (OutDisconnect (strncpy (Wire.message m) 1023)) in
          set_rpc (set_running (set_got_disconnect c true) false) RxExited
        else rx_again c
  end.

(** [handle_signal] *)
Definition handle_signal (c : client) : client :=
  set_running (set_shutdown_requested c true) false.

(** clientOp.c has no announcer. *)
Definition step (c : client) (t : thread) : client :=
  match t with
  | T_signal => handle_signal c
  | T_quote _ _ => c
  | T_rx =>
      match rpc c with
      | RxExited => c
      | _ => rx_iter c
      end
  | T_main =>
      match pc c with
      | Exited => c
      | _ => line_iter c
      end
  end.

Definition run (c : client) (sched : list thread) : client :=
  fold_left step sched c.

(** [main] from the connected socket to its input loop: the LOGIN record
    is written, and [main] returns 1 when that write fails or when
    [pthread_create] does ([created = false]), in both cases without a
    LOGOUT record and without a receive thread. *)
Definition boot (created : bool) (name : list byte) (x : world) : client :=
  let c := {| running := true; got_disconnect := false;
              shutdown_requested := false; quiet := false;
              user := strncpy name 31; pc := LineLoop; rpc := RxLoop;
              w := x |} in
  let (ok, c) := full_write c (frame LOGIN name []) in
  if negb ok then
    set_rpc (set_pc (eprintf c (lit "failed to send LOGIN")) Exited) RxExited
  else if negb created then
    set_rpc (set_pc (eprintf c (lit "pthread_create failed")) Exited) RxExited
  else c.

Definition sent_types (c : client) : list Z := map m_type (sock_out (w c)).

(** The number of LOGOUT records handed to the socket so far. *)
Definition logouts (c : client) : nat := count_type LOGOUT (sock_out (w c)).

End ClientOp.

(** ** Concrete runs *)

Module Scenarios.
Import CStr Wire Transport Display Env.

(** A world with the given socket input, keys and input lines, in which
    every write succeeds. *)
Definition sample_world (src : source) (keys : list (option byte))
    (lines : list getline_ret) : world :=
  {| sock_in := src; sock_out := []; sock_shut := false; term_in := keys;
     stdin_in := lines; write_ok := []; out := [];
     fmt_time := fun _ => lit "12:00:00" |}.

(** The bytes [bs] delivered at once, then the close. *)
Definition deliver (bs : list byte) : source := requeue bs [].

Definition disconnect_frame : list byte :=
  server_frame DISCONNECT 1700000000 [] (lit "kicked").

Definition hello_frame : list byte :=
  server_frame MESSAGE_RECV 1700000000 (lit "bob") (lit "hello").

(** The first 11 bytes of [hello_frame]: its type, its timestamp and the
    three letters of the user name. *)
Definition partial_frame : list byte := firstn 11 hello_frame.

(** A line of 1024 letters. *)
Definition long_line : list byte := repeat x61 1024 ++ [x0a].

(** client.c in TUI mode: ENTER leaves the start menu, the server sends
    DISCONNECT, the input loop sees [running] cleared and [main] finishes. *)
Definition tui_server_disconnect : Client.client :=
  Client.run
    (Client.boot true Client.UI_SPARTAN (lit "alice")
       (sample_world (deliver disconnect_frame) [Some x0d] []))
    [T_rx; T_main; T_rx; T_main].

(** clientOp.c with the same server; the user then types a line, which
    wakes the input loop. *)
Definition op_server_disconnect : ClientOp.client :=
  ClientOp.run
    (ClientOp.boot true (lit "alice")
       (sample_world (deliver disconnect_frame) [] [Line (lit "!disconnect")]))
    [T_rx; T_main].

(** client.c in TUI mode: the server sends 11 bytes and closes. *)
Definition tui_short_read : Client.client :=
  Client.run
    (Client.boot true Client.UI_SPARTAN (lit "alice")
       (sample_world (deliver partial_frame) [] []))
    [T_rx; T_rx].

(** clientOp.c with the same server. *)
Definition op_short_read : ClientOp.client :=
  ClientOp.run
    (ClientOp.boot true (lit "alice") (sample_world (deliver partial_frame) [] []))
    [T_rx].

(** client.c in line mode: the user enters a line of 1024 letters. *)
Definition line_long_message : Client.client :=
  Client.run
    (Client.boot false Client.UI_SPARTAN (lit "alice")
       (sample_world [] [] [Line long_line; Line (lit "next")]))
    [T_main].

(** clientOp.c with the same input. *)
Definition op_long_message : ClientOp.client :=
  ClientOp.run
    (ClientOp.boot true (lit "alice")
       (sample_world [] [] [Line long_line; Line (lit "next")]))
    [T_main].

(** clientOp.c: the server sends the same record twice. *)
Definition op_duplicate : ClientOp.client :=
  ClientOp.run
    (ClientOp.boot true (lit "alice")
       (sample_world (deliver (hello_frame ++ hello_frame)) [] []))
    [T_rx; T_rx].

(** client.c in line mode and in TUI mode with the same server. *)
Definition line_duplicate : Client.client :=
  Client.run
    (Client.boot false Client.UI_SPARTAN (lit "alice")
       (sample_world (deliver (hello_frame ++ hello_frame)) [] []))
    [T_rx; T_rx; T_rx].

Definition tui_duplicate : Client.client :=
  Client.run
    (Client.boot true Client.UI_SPARTAN (lit "alice")
       (sample_world (deliver (hello_frame ++ hello_frame)) [] []))
    [T_rx; T_rx; T_rx].

(** client.c in TUI mode: past the start menu the user typed "hi"; the
    ENTER key is next. *)
Definition tui_typed : Client.client :=
  Client.run
    (Client.boot true Client.UI_SPARTAN (lit "alice")
       (sample_world [] [Some x0d; Some x68; Some x69; Some x0d] []))
    [T_main; T_main; T_main].

End Scenarios.

(** ** The full-write primitive of clientOp.c *)

Module TransportOut.
Import CStr.

(** What the socket does at successive [write] calls: it takes up to [k]
    bytes, or the call is interrupted, or it fails.  At the end of the list
    the socket takes whatever it is given. *)
Inductive write_event :=
| Accept (k : nat)
| WEintr
| WFail.

Definition sink := list write_event.

(** The outcome of one [write]: [w >= 0] bytes taken, or [-1] with [errno]. *)
Inductive write_ret :=
| WBytes (w : nat)
| WIntr
| WErr.

(** [write(fd, p, count)] *)
Definition sys_write_raw (snk : sink) (count : nat) : write_ret * sink :=
  match snk with
  | [] => (WBytes count, [])
  | Accept k :: rest => (WBytes (Nat.min k count), rest)
  | WEintr :: rest => (WIntr, rest)
  | WFail :: rest => (WErr, rest)
  end.

(** The loop of [full_write]: the return value, the bytes that reached the
    socket, and what is left of the sink. *)
Fixpoint full_write_loop (fuel : nat) (snk : sink) (buf : list byte)
    (n off : nat) (wire : list byte) : option (Z * list byte * sink) :=
  match fuel with
  | O => None
  | S fuel' =>
      if (off <? n)%nat then
        match sys_write_raw snk (n - off) with
        | (WIntr, snk') => full_write_loop fuel' snk' buf n off wire
        | (WErr, snk') => Some (-1, wire, snk')
        | (WBytes O, snk') => Some (-1, wire, snk')
        | (WBytes (S w), snk') =>
            full_write_loop fuel' snk' buf n (off + S w)
              (wire ++ firstn (S w) (skipn off buf))
        end
      else Some (0, wire, snk)
  end.

(** [full_write] *)
Definition full_write (snk : sink) (buf : list byte) (n : nat)
    : option (Z * list byte * sink) :=
  full_write_loop (length snk + 2) snk buf n 0 [].

(** A sink that never fails and never takes nothing. *)
Definition willing (snk : sink) : Prop :=
  Forall (fun e => e <> WFail /\ e <> Accept 0) snk.

End TransportOut.

(** ** Bounds that client.c relies on *)

Module Bounds.
Import CStr Display Client.

(** No entry of the history equals the one before it. *)
Fixpoint no_repeat (h : list (list byte)) : Prop :=
  match h with
  | a :: (b :: _) as rest => a <> b /\ no_repeat rest
  | _ => True
  end.

(** The history fits its array, the history cursor is an index of it or one
    past its end, and no entry repeats the one before it. *)
Definition hist_ok (e : edit) : Prop :=
  (length (g_send_hist e) <= HIST_MAX)%nat
  /\ 0 <= hist_idx e <= g_send_hist_len e
  /\ no_repeat (g_send_hist e).

(** The lines fit their array and the scroll offset is not negative. *)
Definition disp_ok (d : display) : Prop :=
  (length (g_lines d) <= TUI_MAX_LINES)%nat /\ 0 <= g_scroll d.

End Bounds.

(** ** More concrete states *)

Module Samples.
Import CStr Wire Transport Display Env Scenarios.

(** client.c in TUI mode, past the start menu, with [!help] typed. *)
Definition tui_typed_help : Client.client :=
  Client.run
    (Client.boot true Client.UI_SPARTAN (lit "alice")
       (sample_world [] [Some x0d; Some x21; Some x68; Some x65; Some x6c;
                         Some x70; Some x0d] []))
    [T_main; T_main; T_main; T_main; T_main; T_main].

(** client.c in line mode, with the line [!help] waiting. *)
Definition line_help : Client.client :=
  Client.boot false Client.UI_SPARTAN (lit "alice")
    (sample_world [] [] [Line (lit "!help" ++ [x0a])]).

(** client.c in line mode when [getline] is interrupted. *)
Definition line_interrupted : Client.client :=
  Client.boot false Client.UI_SPARTAN (lit "alice")
    (sample_world [] [] [LineEintr]).

(** A record that arrives in two pieces around an interrupted read. *)
Definition hello_in_pieces : source :=
  deliver (firstn 100 hello_frame) ++ [Eintr] ++ deliver (skipn 100 hello_frame).

(** client.c in TUI mode, its receive thread in its loop, that record on
    its way. *)
Definition tui_receiving : Client.client :=
  Client.step
    (Client.boot true Client.UI_SPARTAN (lit "alice")
       (sample_world hello_in_pieces [] []))
    T_rx.

(** client.c in TUI mode, its receive thread in its loop, when the socket
    fails after three bytes. *)
Definition tui_read_failing : Client.client :=
  Client.step
    (Client.boot true Client.UI_SPARTAN (lit "alice")
       (sample_world [Chunk x00 [x00; x00]; Fail] [] []))
    T_rx.

(** clientOp.c with a valid line waiting. *)
Definition op_line_valid : ClientOp.client :=
  ClientOp.boot true (lit "alice")
    (sample_world [] [] [Line (lit "hello world" ++ [x0a])]).

(** clientOp.c with an empty line waiting. *)
Definition op_line_empty : ClientOp.client :=
  ClientOp.boot true (lit "alice") (sample_world [] [] [Line [x0a]]).

(** clientOp.c with [!disconnect] waiting. *)
Definition op_line_disconnect : ClientOp.client :=
  ClientOp.boot true (lit "alice")
    (sample_world [] [] [Line (lit "!disconnect" ++ [x0a])]).

(** clientOp.c when the server sends 11 bytes and closes. *)
Definition op_short : ClientOp.client :=
  ClientOp.boot true (lit "alice") (sample_world (deliver partial_frame) [] []).

(** A client at which the page-up and the page-down sequences wait
    (after their ESC bytes). *)
Definition ai_paging : Client.client :=
  Client.boot true Client.UI_SPARTAN (lit "alice")
    (sample_world []
       [Some x5b; Some x35; Some x7e; Some x5b; Some x36; Some x7e; Some x61]
       []).

(** client.c in TUI mode, its receive thread in its loop, when the server
    sends the same record three times. *)
Definition tui_thrice : Client.client :=
  Client.step
    (Client.boot true Client.UI_SPARTAN (lit "alice")
       (sample_world
          (deliver (hello_frame ++ firstn 500 hello_frame)
           ++ [Eintr]
           ++ deliver (skipn 500 hello_frame ++ hello_frame))
          [] []))
    T_rx.

(** A record as it may come off the wire, with no NUL in its user-name
    field: type, timestamp, 32 letters [u], then the text [hello]. *)
Definition raw_frame (ty : Z) : list byte :=
  htonl ty ++ htonl 1700000000 ++ repeat x75 32
  ++ lit "hello" ++ repeat x00 1019.

(** A DISCONNECT record whose text field holds 1024 letters and no NUL. *)
Definition raw_disconnect : list byte :=
  htonl DISCONNECT ++ htonl 1700000000 ++ repeat x00 32 ++ repeat x78 1024.

(** clientOp.c when the server sends such records. *)
Definition op_receiving_raw : ClientOp.client :=
  ClientOp.boot true (lit "alice")
    (sample_world (deliver (raw_frame MESSAGE_RECV ++ raw_disconnect)) [] []).

Definition op_disconnecting_raw : ClientOp.client :=
  ClientOp.boot true (lit "alice")
    (sample_world (deliver raw_disconnect) [] [Line (lit "hello" ++ [x0a])]).

End Samples.

(** ** The records of a session, by type *)

Module Protocol.
Import Wire.

(** What one turn of the main thread may hand to the socket: [k] message
    records of the type [msg_ty], then the LOGOUT record when [closed]. *)
Definition turn (msg_ty : Z) (k : nat) (closed : bool) : list Z :=
  repeat msg_ty k ++ (if closed then [LOGOUT] else []).

(** A session: the LOGIN record first. *)
Definition session (msg_ty : Z) (k : nat) (closed : bool) : list Z :=
  LOGIN :: turn msg_ty k closed.

End Protocol.

(** ** Start-up and output helpers *)

(** [<ctype.h>] in the "C" locale, which the programs never leave. *)
Module Ctype.

Definition isdigit (c : Z) : bool := (48 <=? c) && (c <=? 57).
Definition isupper (c : Z) : bool := (65 <=? c) && (c <=? 90).
Definition islower (c : Z) : bool := (97 <=? c) && (c <=? 122).
Definition isalnum (c : Z) : bool := isdigit c || isupper c || islower c.
Definition tolower (c : Z) : Z := if isupper c then c + 32 else c.

End Ctype.

(** The user name (clientOp.c [username_valid], [get_username]; client.c
    [get_username]). *)
Module Identity.
Import CStr Env Ctype.

(** What [fgets(buf, size, fp)] stores when the stream still holds
    [stream]: its bytes up to and including the first newline, at most
    [size - 1] of them. *)
Fixpoint fgets_take (n : nat) (stream : list byte) : list byte :=
  match n, stream with
  | S n', ch :: rest =>
      if Byte.eqb ch x0a then [ch] else ch :: fgets_take n' rest
  | _, _ => []
  end.

(** The first line of a stream as a C string: its bytes before the first
    newline or NUL. *)
Fixpoint first_line (stream : list byte) : list byte :=
  match stream with
  | [] => []
  | ch :: rest =>
      if Byte.eqb ch x0a || Byte.eqb ch x00 then [] else ch :: first_line rest
  end.

(** [fgets]: [None] is the null pointer, at the end of the stream. *)
Definition fgets (size : nat) (stream : list byte) : option (list byte) :=
  match stream with
  | [] => None
  | _ => Some (fgets_take (size - 1) stream)
  end.

Definition name_char (ch : byte) : bool :=
  isalnum (uchar ch) || (uchar ch =? 95) || (uchar ch =? 45) || (uchar ch =? 46).

(** clientOp.c, [username_valid] (its argument is never null). *)
Definition username_valid (u : list byte) : bool :=
  match c_str u with
  | [] => false
  | s => forallb name_char s
  end.

(** clientOp.c, [get_username]: [whoami] is the output of the command
    ([None] when [popen] fails), [env_user] the value of [USER]; the result
    is [settings.username] when the function returns 0, and [None] when it
    returns -1. *)
Definition op_get_username (whoami env_user : option (list byte))
    : option (list byte) :=
  let username : list byte := [] in
  let username :=
    match whoami with
    | Some stream =>
        match fgets 64 stream with
        | Some buf => strncpy (chomp buf) 31
        | None => username
        end
    | None => username
    end in
  let username :=
    match username with
    | [] =>
        match env_user with
        | Some u =>
            match c_str u with
            | [] => username
            | _ => strncpy u 31
            end
        | None => username
        end
    | _ => username
    end in
  if username_valid username then Some username else None.

(** client.c and clientAi.c, [get_username]: [None] is [exit(1)]. *)
Definition get_username (whoami : option (list byte)) : option (list byte) :=
  match whoami with
  | None => None
  | Some stream =>
      match fgets 32 stream with
      | Some buffer => Some (cut_newline (strncpy buffer 31))
      | None => None
      end
  end.

End Identity.

(** clientOp.c, [process_args]. *)
Module Args.
Import CStr.

Section Libc.

(** An IPv4 address, and the three library calls: [atoi], [inet_pton]
    ([Some] when it returns 1) and [gethostbyname] ([Some] with the first
    address when the host is found with an IPv4 address). *)
Variable addr : Type.
Variable atoi : list byte -> Z.
Variable inet_pton : list byte -> option addr.
Variable gethostbyname : list byte -> option addr.

(** The fields of [settings] that the arguments set; the port is kept in
    host order. *)
Record server := {
  sin_port : Z;
  sin_addr : addr;
  quiet : bool
}.

(** How [process_args] ends: [exit(0)] after the help text, [-1] after an
    error message, or 0 with the settings and the two flags of the loop. *)
Inductive outcome :=
| Help
| Bad (msg : list byte)
| Parsed (s : server) (ip_set domain_set : bool).

Fixpoint process_args_loop (args : list (list byte)) (s : server)
    (ip_set domain_set : bool) : outcome :=
  match args with
  | [] => Parsed s ip_set domain_set
  | a :: rest =>
      if str_eq a (lit "--help") || str_eq a (lit "-h") then Help
      else if str_eq a (lit "--quiet") then
        process_args_loop rest
          {| sin_port := sin_port s; sin_addr := sin_addr s; quiet := true |}
          ip_set domain_set
      else if str_eq a (lit "--port") then
        match rest with
        | [] => Bad (lit "--port requires a value")
        | v :: rest' =>
            let port := atoi v in
            if (port <=? 0) || (port >? 65535) then Bad (lit "invalid port")
            else
              process_args_loop rest'
                {| sin_port := port; sin_addr := sin_addr s; quiet := quiet s |}
                ip_set domain_set
        end
      else if str_eq a (lit "--ip") then
        match rest with
        | [] => Bad (lit "--ip requires a value")
        | v :: rest' =>
            if domain_set then Bad (lit "cannot use --ip and --domain together")
            else
              match inet_pton v with
              | None => Bad (lit "invalid IPv4 address")
              | Some ip =>
                  process_args_loop rest'
                    {| sin_port := sin_port s; sin_addr := ip; quiet := quiet s |}
                    true domain_set
              end
        end
      else if str_eq a (lit "--domain") then
        match rest with
        | [] => Bad (lit "--domain requires a value")
        | v :: rest' =>
            if ip_set then Bad (lit "cannot use --ip and --domain together")
            else
              match gethostbyname v with
              | None => Bad (lit "DNS lookup failed (no IPv4 found)")
              | Some ip =>
                  process_args_loop rest'
                    {| sin_port := sin_port s; sin_addr := ip; quiet := quiet s |}
                    ip_set true
              end
        end
      else Bad (lit "unknown argument (use --help)")
  end.

(** [argv[0]] is skipped. *)
Definition process_args (argv : list (list byte)) (s : server) : outcome :=
  process_args_loop (tl argv) s false false.

(** The option [flag] with the value [v] stands in [args] where the loop
    reads an option: the arguments before it are read to their end
    without an error, and the two follow. *)
Definition option_at (args : list (list byte)) (s0 : server)
    (flag v : list byte) : Prop :=
  exists pre post s1 i1 d1,
    args = pre ++ flag :: v :: post
    /\ process_args_loop pre s0 false false = Parsed s1 i1 d1.

(** What holds of the settings once the loop has read [args]: the port is
    the initial one or [atoi] of the value of a [--port] option, and in
    range; the two flags are not both set; and the address is the one that
    the flag that is set stands for, looked up from the value of its
    option. *)
Definition args_ok (args : list (list byte)) (s0 s : server)
    (ip_set domain_set : bool) : Prop :=
  (sin_port s = sin_port s0
   \/ exists flag v,
        option_at args s0 flag v /\ str_eq flag (lit "--port") = true
        /\ sin_port s = atoi v /\ 1 <= atoi v <= 65535)
  /\ ip_set && domain_set = false
  /\ (ip_set = false -> domain_set = false -> sin_addr s = sin_addr s0)
  /\ (ip_set = true ->
      exists flag v,
        option_at args s0 flag v /\ str_eq flag (lit "--ip") = true
        /\ inet_pton v = Some (sin_addr s))
  /\ (domain_set = true ->
      exists flag v,
        option_at args s0 flag v /\ str_eq flag (lit "--domain") = true
        /\ gethostbyname v = Some (sin_addr s)).

End Libc.

Arguments Help {addr}.
Arguments Bad {addr} msg.
Arguments Parsed {addr} s ip_set domain_set.
Arguments sin_port {addr} s.
Arguments sin_addr {addr} s.
Arguments quiet {addr} s.

(** Library calls to run the parser with: [atoi] on a string of digits,
    and a resolver that knows one address and one host. *)
Fixpoint digits_from (acc : Z) (s : list byte) : Z :=
  match s with
  | [] => acc
  | ch :: rest =>
      if Ctype.isdigit (uchar ch) then digits_from (acc * 10 + (uchar ch - 48)) rest
      else acc
  end.

Definition sample_atoi (s : list byte) : Z := digits_from 0 (c_str s).

Definition sample_inet_pton (s : list byte) : option (list byte) :=
  if str_eq s (lit "10.0.0.1") then Some (lit "10.0.0.1") else None.

Definition sample_gethostbyname (s : list byte) : option (list byte) :=
  if str_eq s (lit "mycord.example") then Some (lit "192.0.2.7") else None.

Definition sample_server : server (list byte) :=
  {| sin_port := 8080; sin_addr := lit "127.0.0.1"; quiet := false |}.

Definition sample_argv : list (list byte) :=
  [lit "client"; lit "--port"; lit "9000"; lit "--ip"; lit "10.0.0.1";
   lit "--quiet"].

End Args.

(** Mentions of the user in a received text (clientOp.c
    [print_with_mentions], client.c [highlighted_username]). *)
Module Mentions.
Import CStr.

Fixpoint is_prefix (needle hay : list byte) : bool :=
  match needle, hay with
  | [], _ => true
  | n :: needle', h :: hay' => Byte.eqb n h && is_prefix needle' hay'
  | _ :: _, [] => false
  end.

(** [strstr(p, needle)]: the bytes of [p] before the first occurrence of
    [needle], and [p] from that occurrence on. *)
Fixpoint strstr (p needle : list byte) : option (list byte * list byte) :=
  if is_prefix needle p then Some ([], p)
  else
    match p with
    | [] => None
    | ch :: rest =>
        match strstr rest needle with
        | Some (before, m) => Some (ch :: before, m)
        | None => None
        end
    end.

(** What goes to standard output: text as it is, or a mention (the bell,
    the red colour, the name, the colour reset). *)
Inductive piece :=
| Raw (s : list byte)
| Alert (name : list byte).

Definition COLOR_RED : list byte := x1b :: lit "[31m".
Definition COLOR_RESET : list byte := x1b :: lit "[0m".

Definition render (ps : list piece) : list byte :=
  concat (map (fun p => match p with
                        | Raw s => s
                        | Alert name => [x07] ++ COLOR_RED ++ name ++ COLOR_RESET
                        end) ps).

(** The output without the bell and the colours. *)
Definition plain (ps : list piece) : list byte :=
  concat (map (fun p => match p with Raw s => s | Alert name => name end) ps).

(** The output with each mention put back to the text [needle] that was
    found. *)
Definition unmark (needle : list byte) (ps : list piece) : list byte :=
  concat (map (fun p => match p with Raw s => s | Alert _ => needle end) ps).

(** [snprintf(buf, size, "@%s", username)] *)
Definition at_name (size : nat) (username : list byte) : list byte :=
  firstn (size - 1) (x40 :: c_str username).

(** The loop of both functions: [needle] is searched, [shown] is printed
    in its place. *)
Fixpoint mention_loop (fuel : nat) (p needle shown : list byte)
    : option (list piece) :=
  match fuel with
  | O => None
  | S fuel' =>
      match strstr p needle with
      | None => Some [Raw p]
      | Some (before, m) =>
          match mention_loop fuel' (skipn (length needle) m) needle shown with
          | Some ps => Some (Raw before :: Alert shown :: ps)
          | None => None
          end
      end
  end.

(** clientOp.c, [print_with_mentions]: the needle is printed. *)
Definition print_with_mentions (msg username : list byte) : option (list piece) :=
  let needle := at_name 64 username in
  mention_loop (length (c_str msg) + 1) (c_str msg) needle needle.

(** client.c and clientAi.c, [highlighted_username]: the needle is cut to
    the 32 bytes of [user_buf]; [@] and the whole name are printed. *)
Definition highlighted_username (message username : list byte)
    : option (list piece) :=
  let user_buf := at_name 32 username in
  mention_loop (length (c_str message) + 1) (c_str message) user_buf
    (x40 :: c_str username).

End Mentions.

(** client.c and clientAi.c, [gravemind_filter]. *)
Module Gravemind.
Import CStr Ctype Wire.

(** The loop from the input position reached with [j] bytes written;
    [rand n] is the value of the [n]-th call of [rand()], and [calls]
    counts the calls made so far. *)
Fixpoint gravemind_filter_loop (input : list byte) (j max : nat)
    (rand : nat -> nat) (calls : nat) : list byte :=
  match input with
  | [] => []
  | ch :: rest =>
      if (j + 1 <? max)%nat then
        let c := byte_of_Z (tolower (uchar ch)) in
        let j := (j + 1)%nat in
        if isalnum (uchar c) then
          if (rand calls mod 6 =? 0)%nat && (j + 1 <? max)%nat
          then c :: x2e :: gravemind_filter_loop rest (j + 1) max rand (calls + 1)
          else c :: gravemind_filter_loop rest j max rand (calls + 1)
        else c :: gravemind_filter_loop rest j max rand calls
      else []
  end.

(** The string left in [out]. *)
Definition gravemind_filter (input : list byte) (max : nat) (rand : nat -> nat)
    : list byte :=
  gravemind_filter_loop (c_str input) 0 max rand 0.

End Gravemind.

(** The terminal modes (client.c and clientAi.c, [tui_raw_enable] and
    [tui_raw_disable]); the calls of [tcgetattr] and [tcsetattr] are taken
    to succeed, as the code takes them. *)
Module RawMode.
Import CStr.

Section Flags.

(** The masks of [<termios.h>]. *)
Variables ECHO ICANON IXON ICRNL OPOST : Z.

Record termios := {
  c_iflag : Z;
  c_oflag : Z;
  c_cflag : Z;
  c_lflag : Z;
  VMIN : Z;
  VTIME : Z
}.

(** The terminal's modes, the two globals, the number of [atexit]
    registrations, and what was written to the terminal. *)
Record tty_state := {
  tty : termios;
  g_orig_termios : termios;
  g_raw_enabled : bool;
  at_exit : nat;
  written : list (list byte)
}.

Definition ANSI_HIDE : list byte := x1b :: lit "[?25l".
Definition ANSI_SHOW : list byte := x1b :: lit "[?25h".

(** [flags &= (tcflag_t)~mask] on the 32 bits of [tcflag_t]. *)
Definition clear_bits (flags mask : Z) : Z :=
  Z.land flags (Z.land (Z.lnot mask) 4294967295).

Definition tui_raw_disable (s : tty_state) : tty_state :=
  if g_raw_enabled s then
    {| tty := g_orig_termios s; g_orig_termios := g_orig_termios s;
       g_raw_enabled := false; at_exit := at_exit s;
       written := written s ++ [ANSI_SHOW] |}
  else s.

Definition tui_raw_enable (s : tty_state) : tty_state :=
  if g_raw_enabled s then s
  else
    let orig := tty s in
    let raw :=
      {| c_iflag := clear_bits (c_iflag orig) (Z.lor IXON ICRNL);
         c_oflag := clear_bits (c_oflag orig) OPOST;
         c_cflag := c_cflag orig;
         c_lflag := clear_bits (c_lflag orig) (Z.lor ECHO ICANON);
         VMIN := 1; VTIME := 0 |} in
    {| tty := raw; g_orig_termios := orig; g_raw_enabled := true;
       at_exit := S (at_exit s); written := written s ++ [ANSI_HIDE] |}.

End Flags.

(** A terminal in its usual line mode, with the masks of Linux: ECHO 0o10,
    ICANON 0o2, IXON 0o2000, ICRNL 0o400, OPOST 0o1. *)
Definition cooked : tty_state :=
  {| tty := {| c_iflag := 17664; c_oflag := 5; c_cflag := 191;
               c_lflag := 35387; VMIN := 1; VTIME := 0 |};
     g_orig_termios := {| c_iflag := 0; c_oflag := 0; c_cflag := 0;
                          c_lflag := 0; VMIN := 0; VTIME := 0 |};
     g_raw_enabled := false; at_exit := 0; written := [] |}.

Definition linux_raw_enable : tty_state -> tty_state :=
  tui_raw_enable 8 2 1024 256 1.

End RawMode.

(** clientAi.c, [tui_loop_send]: the ESC byte, with the page keys that
    client.c does not have. *)
Module ClientAi.
Import CStr Display Env Client.

Definition on_escape (c : client) : client :=
  match read_key c with
  | (None, c) => c
  | (Some s1, c) =>
      match read_key c with
      | (None, c) => c
      | (Some s2, c) =>
          if uchar s1 =? 91 then
            if uchar s2 =? 65 then on_up c
            else if uchar s2 =? 66 then on_down c
            else if uchar s2 =? 53 then
              let (_, c) := read_key c in
              dirty (set_disp c (set_scroll (disp c) (g_scroll (disp c) + 5)))
            else if uchar s2 =? 54 then
              let (_, c) := read_key c in
              let c := if g_scroll (disp c) >? 5
                       then set_disp c (set_scroll (disp c) (g_scroll (disp c) - 5))
                       else set_disp c (set_scroll (disp c) 0) in
              dirty c
            else c
          else c
      end
  end.

End ClientAi.

(** ** Keys of more than three bytes, and what the display shows *)

Module Keys.
Import CStr Wire Transport Display Env Client Scenarios.

(** ENTER leaves the start menu; then the page-up key, which a terminal
    sends as ESC [ 5 ~, and ENTER. *)
Definition page_up_keys : list (option byte) :=
  [Some x0d; Some x1b; Some x5b; Some x35; Some x7e; Some x0d].

Definition past_menu : client :=
  run (boot true UI_SPARTAN (lit "alice") (sample_world [] page_up_keys []))
      [T_main].

(** client.c: the turn that reads ESC and the two bytes after it, and the
    turn that reads the next byte. *)
Definition tui_page_up : client := run past_menu [T_main; T_main].

(** client.c: the ENTER after it. *)
Definition tui_page_up_sent : client := step tui_page_up T_main.

(** clientAi.c at the same keys: its input loop has read the ESC byte and
    runs its handler. *)
Definition ai_page_up : client :=
  ClientAi.on_escape (snd (read_key past_menu)).

End Keys.

Module Echo.
Import CStr Wire Transport Display Env Client Scenarios.

(** The texts of the lines that client.c adds on its own account: the boot
    lines, the notices of the commands, the error lines of the input loop
    and of the receive thread, and the announcer's quotes. *)
Definition client_texts : list (list byte) :=
  [lit ">>> NEURAL SIGNAL DETECTED";
   lit ">>> FLOOD SPORE INTEGRATION INITIATED";
   lit ">>> MEMORY BLEED CONFIRMED";
   lit ">>> CORRUPTION STABLE. SPREADING...";
   lit "I am a monument to all your sins.";
   lit ">>> GRAVEMIND NEURAL NETWORK ONLINE";
   lit ">>> SPARTAN-III NEURAL INTERFACE INITIALIZED";
   lit ">>> MJOLNIR ARMOR SYSTEMS ONLINE";
   lit ">>> NEURAL LINK STABLE";
   lit "I'll be with you every step of the way.";
   lit ">>> SPARTAN COMMUNICATIONS ONLINE";
   lit "Connected to server";
   lit "Commands: !help !gravemind !spartan !disconnect";
   lit "Switching to Gravemind interface...";
   lit "Switching to Spartan interface...";
   lit "Message is too long to send";
   lit "Cannot send non-ASCII characters";
   lit "Write error - connection lost";
   lit "Type '!help' for available commands";
   lit "Server has disconnected";
   lit "Could not read from server"]
  ++ gravemind_quotes.

(** A text as [tui_add_line] stores one of them. *)
Definition client_text (t : list byte) : Prop :=
  exists txt, In txt client_texts /\ t = strncpy txt 1023.

(** Every line of [d'] is a line of [d], or has a text of the kind [P]. *)
Definition adds_only (P : list byte -> Prop) (d d' : display) : Prop :=
  forall l, In l (g_lines d') -> In l (g_lines d) \/ P (text l).

(** The user sends "hi"; the server answers with one record of the type
    [ty] and the same text, and with no other record. *)
Definition notice (ty : Z) : list byte :=
  server_frame ty 1700000000 [] (lit "hi").

Definition tui_echo (ty : Z) : client :=
  run (boot true UI_SPARTAN (lit "alice")
         (sample_world (deliver (notice ty))
            [Some x0d; Some x68; Some x69; Some x0d] []))
      [T_main; T_main; T_main; T_main; T_rx; T_rx].

End Echo.

(** * Properties *)

Module CStrFacts.
Import CStr.

Lemma bytes_eqb_eq a : forall b, bytes_eqb a b = true <-> a = b.
Proof.
  induction a as [|x a IH]; destruct b as [|y b]; simpl; split;
    try congruence; try discriminate.
  - rewrite andb_true_iff, IH. intros [E ->].
    apply Byte.byte_dec_bl in E. now subst.
  - intros [= -> ->]. rewrite andb_true_iff, IH.
    split; [apply Byte.byte_dec_lb|]; reflexivity.
Qed.

Lemma c_str_nul_free s : nul_free s -> c_str s = s.
Proof.
  induction 1 as [|c s Hc _ IH]; simpl; [reflexivity|].
  destruct (Byte.eqb c x00) eqn:E.
  - apply Byte.byte_dec_bl in E. contradiction.
  - now rewrite IH.
Qed.

Lemma c_str_is_nul_free s : nul_free (c_str s).
Proof.
  induction s as [|c s IH]; simpl; [constructor|].
  destruct (Byte.eqb c x00) eqn:E; constructor; [|exact IH].
  intros ->. discriminate.
Qed.

Lemma c_str_idem s : c_str (c_str s) = c_str s.
Proof. apply c_str_nul_free, c_str_is_nul_free. Qed.

Lemma c_str_length s : (length (c_str s) <= length s)%nat.
Proof.
  induction s as [|c s IH]; simpl; [lia|].
  destruct (Byte.eqb c x00); simpl; lia.
Qed.

Lemma strncpy_length s n : (length (strncpy s n) <= n)%nat.
Proof. unfold strncpy. rewrite length_firstn. lia. Qed.

End CStrFacts.

Module TransportFacts.
Import CStr Transport.

(** What the loop returns from any point of its run, in terms of the bytes
    the source still has to give. *)
Lemma full_read_loop_spec src :
  forall fuel n off got,
    (off <= n)%nat -> (length src + 2 <= fuel)%nat ->
    exists src',
      full_read_loop fuel src n off got
      = Some (if (n - off <=? length (stream_bytes src))%nat then Z.of_nat n
              else if stream_fails src then -1
              else Z.of_nat (off + length (stream_bytes src)),
              got ++ firstn (n - off) (stream_bytes src),
              src')
      /\ ((length (stream_bytes src) < n - off)%nat ->
          stream_fails src = false -> src' = []).
Proof.
  induction src as [|ev rest IH]; intros fuel n off got Hoff Hfuel;
    (destruct fuel as [|fuel]; [simpl in Hfuel; lia|]);
    cbn [full_read_loop]; destruct (Nat.ltb_spec off n) as [Hlt|Hge].
  - (* closed source, bytes still wanted *)
    exists []. cbn. destruct (Nat.leb_spec (n - off) 0); [lia|].
    rewrite firstn_nil, app_nil_r, Nat.add_0_r. auto.
  - exists []. cbn. replace (n - off)%nat with 0%nat by lia.
    cbn. rewrite app_nil_r. replace off with n by lia. split; [reflexivity|lia].
  - destruct ev as [b bs| |].
    + (* a chunk is ready *)
      cbn [sys_read stream_bytes stream_fails].
      set (need := (n - off)%nat) in *.
      assert (Hd : exists d, firstn need (b :: bs) = b :: d).
      { destruct need eqn:E; [lia|]. eexists. reflexivity. }
      destruct Hd as [d Hd]. rewrite Hd. cbv beta iota. rewrite <- Hd.
      rewrite firstn_app, length_app.
      destruct (Nat.le_gt_cases (length (b :: bs)) need) as [Hall|Hpart].
      * (* taken whole *)
        rewrite (firstn_all2 (b :: bs) Hall).
        rewrite (skipn_all2 (b :: bs) Hall).
        cbn [requeue].
        destruct (IH fuel n (off + length (b :: bs))%nat (got ++ b :: bs))
          as (src' & Heq & Hend); [lia | simpl in Hfuel; lia |].
        exists src'. rewrite Heq.
        replace (n - (off + length (b :: bs)))%nat
          with (need - length (b :: bs))%nat by lia.
        split.
        -- rewrite <- app_assoc. f_equal. f_equal. f_equal.
           destruct (Nat.leb_spec (need - length (b :: bs)) (length (stream_bytes rest)));
             destruct (Nat.leb_spec need (length (b :: bs) + length (stream_bytes rest)));
             try lia; try reflexivity.
           destruct (stream_fails rest); [reflexivity|].
           f_equal. lia.
        -- intros Hshort Hnf. apply Hend; [lia | exact Hnf].
      * (* taken in part: the count is reached *)
        destruct (skipn need (b :: bs)) as [|b' bs'] eqn:Hs.
        { apply (f_equal (@length _)) in Hs. rewrite length_skipn in Hs.
          cbn [length] in Hs, Hpart. lia. }
        cbn [requeue].
        assert (Hlen : length (firstn need (b :: bs)) = need)
          by (rewrite length_firstn; lia).
        destruct fuel as [|fuel]; [simpl in Hfuel; lia|].
        cbn [full_read_loop]. rewrite Hlen.
        destruct (Nat.ltb_spec (off + need) n) as [Hbad|_]; [lia|].
        replace (off + need)%nat with n by lia.
        exists (Chunk b' bs' :: rest). split.
        -- replace (need - length (b :: bs))%nat with 0%nat by lia.
           cbn [firstn]. rewrite app_nil_r.
           destruct (Nat.leb_spec need (length (b :: bs) + length (stream_bytes rest)));
             [reflexivity|lia].
        -- intros Hshort. lia.
    + (* interrupted: the same read again *)
      cbn [sys_read stream_bytes stream_fails].
      destruct (IH fuel n off got) as (src' & Heq & Hend);
        [lia | simpl in Hfuel; lia |].
      exists src'. split; assumption.
    + (* failed *)
      cbn [sys_read stream_bytes stream_fails].
      exists rest. cbn. destruct (Nat.leb_spec (n - off) 0); [lia|].
      rewrite firstn_nil, app_nil_r. split; [reflexivity|discriminate].
  - (* the count is reached *)
    exists (ev :: rest). replace (n - off)%nat with 0%nat by lia.
    cbn [firstn Nat.leb]. rewrite app_nil_r. replace off with n by lia.
    split; [reflexivity|lia].
Qed.

Lemma full_read_outcome (src : source) (n : nat) :
  exists src',
    full_read src n
    = Some (if (n <=? length (stream_bytes src))%nat then Z.of_nat n
            else if stream_fails src then -1
            else Z.of_nat (length (stream_bytes src)),
            firstn n (stream_bytes src), src')
    /\ ((length (stream_bytes src) < n)%nat -> stream_fails src = false -> src' = []).
Proof.
  destruct (full_read_loop_spec src (length src + 2) n 0 []) as (src' & Heq & Hend);
    [lia | lia |].
  rewrite Nat.sub_0_r in Heq, Hend. cbn [app Nat.add] in Heq.
  exists src'. split; assumption.
Qed.

(** C8.  For every count [n] and every source, however it cuts its bytes
    into chunks and however often a read is interrupted, the full-read
    primitive ([full_read] of clientOp.c, [perform_full_read] of client.c on
    a buffer) returns: it gives back [n] and the first [n] bytes as soon as
    the source has that many before its close or failure, and it gives back
    [n] in no other case; it gives a count below [n] only when the source
    closed, and then all the bytes that came; and it gives [-1] only when a
    read failed with an error other than an interruption. *)
Theorem full_read_exact (src : source) (n : nat) :
  exists r bs src',
    full_read src n = Some (r, bs, src')
    /\ (forall buf, perform_full_read (Some buf) src n = Some (r, bs, src'))
    /\ ((n <= length (stream_bytes src))%nat ->
        r = Z.of_nat n /\ bs = firstn n (stream_bytes src))
    /\ (r = Z.of_nat n ->
        (n <= length (stream_bytes src))%nat
        /\ bs = firstn n (stream_bytes src) /\ length bs = n)
    /\ (0 <= r < Z.of_nat n ->
        stream_fails src = false /\ bs = stream_bytes src
        /\ r = Z.of_nat (length bs) /\ src' = [])
    /\ (r < 0 ->
        r = -1 /\ stream_fails src = true
        /\ (length (stream_bytes src) < n)%nat)
    /\ (r = Z.of_nat n \/ 0 <= r < Z.of_nat n \/ r = -1).
Proof.
  destruct (full_read_outcome src n) as (src' & Heq & Hend).
  eexists _, _, src'. split; [exact Heq|].
  split; [intros buf; exact Heq|].
  destruct (Nat.leb_spec n (length (stream_bytes src))) as [Hle|Hgt].
  - split; [auto|]. split.
    + intros _. split; [exact Hle|]. split; [reflexivity|].
      rewrite length_firstn. lia.
    + split; [intros; lia|]. split; [intros; lia|]. now left.
  - destruct (stream_fails src) eqn:Hf.
    + split; [intros; lia|]. split; [intros; lia|].
      split; [intros; lia|]. split; [intros _; auto|]. right. now right.
    + split; [intros; lia|]. split; [intros; lia|]. split.
      * intros _. rewrite (firstn_all2 (stream_bytes src)) by lia.
        repeat split; auto.
      * split; [intros; lia|]. right. left. lia.
Qed.

(** The chunking and the interruptions do not show in the result. *)
Lemma full_read_chunking (src1 src2 : source) (n : nat) :
  stream_bytes src1 = stream_bytes src2 ->
  stream_fails src1 = stream_fails src2 ->
  option_map fst (full_read src1 n) = option_map fst (full_read src2 n).
Proof.
  intros Hb Hf.
  destruct (full_read_outcome src1 n) as (s1 & -> & _).
  destruct (full_read_outcome src2 n) as (s2 & -> & _).
  cbn. now rewrite Hb, Hf.
Qed.

Lemma stream_bytes_trickle bs : stream_bytes (trickle bs) = bs.
Proof.
  induction bs as [|b bs IH]; [reflexivity|].
  change (b :: stream_bytes (trickle bs) = b :: bs). now rewrite IH.
Qed.

Lemma stream_fails_trickle bs : stream_fails (trickle bs) = false.
Proof. induction bs as [|b bs IH]; cbn; [reflexivity|exact IH]. Qed.

(** Bytes that arrive one at a time: [n] of them are returned. *)
Lemma full_read_trickle (bs : list byte) (n : nat) :
  (n <= length bs)%nat ->
  option_map fst (full_read (trickle bs) n) = Some (Z.of_nat n, firstn n bs).
Proof.
  intros Hn. destruct (full_read_outcome (trickle bs) n) as (s & -> & _).
  rewrite stream_bytes_trickle. cbn [option_map fst].
  destruct (Nat.leb_spec n (length bs)); [reflexivity|lia].
Qed.

Example full_read_interrupted :
  full_read [Chunk x61 []; Eintr; Chunk x62 [x63; x64]; Eintr] 3
  = Some (3, [x61; x62; x63], [Chunk x64 []; Eintr]).
Proof. reflexivity. Qed.

Example full_read_short :
  full_read [Chunk x61 [x62]; Eintr] 3 = Some (2, [x61; x62], []).
Proof. reflexivity. Qed.

Example full_read_error :
  full_read [Chunk x61 [x62]; Fail; Chunk x63 []] 3
  = Some (-1, [x61; x62], [Chunk x63 []]).
Proof. reflexivity. Qed.

End TransportFacts.

Module DisplayFacts.
Import CStr Display.

Lemma keep_last_short {A} c (l : list A) :
  (length l <= c)%nat -> keep_last c l = l.
Proof.
  intros H. unfold keep_last. now replace (length l - c)%nat with 0%nat by lia.
Qed.

Lemma keep_last_length {A} c (l : list A) :
  length (keep_last c l) = Nat.min c (length l).
Proof. unfold keep_last. rewrite length_skipn. lia. Qed.

Lemma skipn_app_le {A} (l m : list A) j :
  (j <= length l)%nat -> skipn j l ++ m = skipn j (l ++ m).
Proof.
  intros H. rewrite skipn_app.
  now replace (j - length l)%nat with 0%nat by lia.
Qed.

Lemma keep_last_app {A} c (l m : list A) :
  keep_last c (keep_last c l ++ m) = keep_last c (l ++ m).
Proof.
  unfold keep_last at 2.
  rewrite (skipn_app_le l m (length l - c)) by lia.
  unfold keep_last. rewrite skipn_skipn. f_equal.
  rewrite length_skipn, !length_app. lia.
Qed.

(** One append keeps the newest [TUI_MAX_LINES] lines. *)
Lemma tui_add_line_locked_keep_last lines tb user txt k :
  (length lines <= TUI_MAX_LINES)%nat ->
  tui_add_line_locked lines tb user txt k
  = keep_last TUI_MAX_LINES (lines ++ [new_line tb user txt k]).
Proof.
  intros Hlen. unfold tui_add_line_locked.
  destruct (Nat.ltb_spec (length lines) TUI_MAX_LINES) as [Hlt|Hge].
  - symmetry. apply keep_last_short. rewrite length_app. simpl. lia.
  - unfold keep_last. rewrite length_app. cbn [length].
    replace (length lines + 1 - TUI_MAX_LINES)%nat with 1%nat by lia.
    rewrite skipn_app.
    replace (1 - length lines)%nat with 0%nat
      by (unfold TUI_MAX_LINES in *; lia).
    rewrite skipn_0. f_equal. apply firstn_all2.
    rewrite length_skipn. lia.
Qed.

Lemma tui_add_line_locked_bound lines tb user txt k :
  (length (tui_add_line_locked lines tb user txt k) <= TUI_MAX_LINES)%nat.
Proof.
  unfold tui_add_line_locked.
  destruct (Nat.ltb_spec (length lines) TUI_MAX_LINES) as [Hlt|Hge];
    rewrite length_app; cbn [length].
  - lia.
  - rewrite length_firstn. unfold TUI_MAX_LINES. lia.
Qed.

Lemma add_all_lines ls : forall d,
  (length (g_lines d) <= TUI_MAX_LINES)%nat ->
  g_lines (add_all d ls)
  = keep_last TUI_MAX_LINES (g_lines d ++ map stored ls).
Proof.
  induction ls as [|a ls IH]; intros d Hd.
  - cbn. rewrite app_nil_r. symmetry. now apply keep_last_short.
  - cbn [add_all fold_left map]. fold (add_all (add d a) ls).
    rewrite IH by apply tui_add_line_locked_bound.
    cbn [add tui_add_line g_lines].
    rewrite tui_add_line_locked_keep_last by exact Hd.
    fold (stored a). rewrite keep_last_app, <- app_assoc. reflexivity.
Qed.

Lemma add_all_bound ls d :
  (length (g_lines d) <= TUI_MAX_LINES)%nat ->
  (length (g_lines (add_all d ls)) <= TUI_MAX_LINES)%nat.
Proof.
  intros Hd. rewrite add_all_lines by exact Hd. rewrite keep_last_length. lia.
Qed.

(** C6.  Appending [TUI_MAX_LINES + k] lines ([k >= 1]) to the empty display
    buffer leaves exactly the last [TUI_MAX_LINES] of them, in arrival
    order with the oldest survivor first: slot by slot, the time of the
    line up to its first NUL and cut to 31 bytes, its user name likewise,
    its text up to its first NUL and cut to 1023 bytes, and its kind -- so
    that lines whose strings fit the fields are there as they were
    given; and after each of the appends the buffer holds at most
    [TUI_MAX_LINES] lines. *)
Theorem eviction_keeps_newest (k : nat) (ls : list line_args) :
  (1 <= k)%nat ->
  length ls = (TUI_MAX_LINES + k)%nat ->
  g_lines (add_all empty ls)
  = map (fun a => {| timebuf := firstn 31 (c_str (a_time a));
                     username := firstn 31 (c_str (a_user a));
                     text := firstn 1023 (c_str (a_text a));
                     kind := a_kind a |})
        (skipn k ls)
  /\ (Forall (fun a => nul_free (a_time a) /\ (length (a_time a) <= 31)%nat
                       /\ nul_free (a_user a) /\ (length (a_user a) <= 31)%nat
                       /\ nul_free (a_text a) /\ (length (a_text a) <= 1023)%nat)
             ls ->
      g_lines (add_all empty ls)
      = map (fun a => {| timebuf := a_time a; username := a_user a;
                         text := a_text a; kind := a_kind a |})
            (skipn k ls))
  /\ length (g_lines (add_all empty ls)) = TUI_MAX_LINES
  /\ forall j, (length (g_lines (add_all empty (firstn j ls))) <= TUI_MAX_LINES)%nat.
Proof.
  intros Hk Hlen.
  assert (Hall : g_lines (add_all empty ls) = map stored (skipn k ls)).
  { rewrite add_all_lines by (cbn; lia). cbn [empty g_lines app].
    unfold keep_last. rewrite length_map, Hlen.
    replace (TUI_MAX_LINES + k - TUI_MAX_LINES)%nat with k by lia.
    apply skipn_map. }
  split; [exact Hall|]. split; [|split].
  - intros Hfit. rewrite Hall. apply map_ext_in. intros a Ha.
    assert (Hin : In a ls).
    { rewrite <- (firstn_skipn k ls). apply in_or_app. now right. }
    rewrite Forall_forall in Hfit.
    destruct (Hfit a Hin) as (N1 & L1 & N2 & L2 & N3 & L3).
    unfold stored, new_line, strncpy.
    rewrite (CStrFacts.c_str_nul_free _ N1), (CStrFacts.c_str_nul_free _ N2),
      (CStrFacts.c_str_nul_free _ N3).
    rewrite !firstn_all2 by assumption. reflexivity.
  - rewrite Hall, length_map, length_skipn, Hlen. lia.
  - intros j. apply add_all_bound. cbn. lia.
Qed.

Lemma eviction_keeps_newest_witness :
  (1 <= 1)%nat
  /\ length (sample_lines 601) = (TUI_MAX_LINES + 1)%nat
  /\ g_lines (add_all empty (sample_lines 601))
     = map (fun a => {| timebuf := a_time a; username := a_user a;
                        text := a_text a; kind := a_kind a |})
           (skipn 1 (sample_lines 601)).
Proof.
  split; [lia|]. split; [reflexivity|].
  destruct (eviction_keeps_newest 1 (sample_lines 601)) as (_ & Hfit & _);
    [lia | reflexivity |].
  apply Hfit. unfold sample_lines. apply Forall_forall. intros a Ha.
  apply in_map_iff in Ha. destruct Ha as (i & <- & _).
  cbn [a_time a_user a_text].
  repeat split; try (repeat constructor; discriminate); cbn; lia.
Defined.

(** *** The renderer's window *)

Lemma zrange_nil a b : b <= a -> zrange a b = [].
Proof.
  intros H. unfold zrange. now replace (Z.to_nat (b - a)) with 0%nat by lia.
Qed.

Lemma zrange_cons a b : a < b -> zrange a b = a :: zrange (a + 1) b.
Proof.
  intros H. unfold zrange.
  replace (Z.to_nat (b - a)) with (S (Z.to_nat (b - (a + 1)))) by lia.
  cbn [seq map]. f_equal; [lia|].
  rewrite <- seq_shift, map_map. apply map_ext. intros k. lia.
Qed.

Lemma zrange_length a b : length (zrange a b) = Z.to_nat (b - a).
Proof. unfold zrange. now rewrite length_map, length_seq. Qed.

Lemma zrange_shift a b n :
  zrange (a + n) (b + n) = map (fun i => i + n) (zrange a b).
Proof.
  unfold zrange. rewrite map_map.
  replace (b + n - (a + n)) with (b - a) by lia.
  apply map_ext. intros k. lia.
Qed.

Lemma zrange_bounds a b i : In i (zrange a b) -> a <= i < b.
Proof.
  unfold zrange. rewrite in_map_iff. intros (k & <- & Hk).
  apply in_seq in Hk. lia.
Qed.

(** The row loop paints the indices from [i] up to [end_], when the rows
    suffice. *)
Lemma paint_rows_zrange rows : forall i end_,
  i <= end_ -> end_ - i <= Z.of_nat rows ->
  paint_rows rows i end_ = zrange i end_.
Proof.
  induction rows as [|r IH]; intros i e Hie Hrows; cbn [paint_rows].
  - symmetry. apply zrange_nil. lia.
  - destruct (Z.ltb_spec i e) as [Hlt|Hge].
    + rewrite zrange_cons by exact Hlt. f_equal. apply IH; lia.
    + rewrite IH by lia. reflexivity.
Qed.

Lemma painted_zrange len h s :
  0 <= len -> 0 <= s -> 0 <= h ->
  painted len h s
  = zrange (Z.max 0 (len - h - s)) (Z.min len (Z.max 0 (len - h - s) + h)).
Proof.
  intros Hlen Hs Hh. unfold painted, window_bounds.
  destruct (Z.ltb_spec (len - h - s) 0) as [Hneg|Hpos].
  - replace (Z.max 0 (len - h - s)) with 0 by lia.
    destruct (Z.gtb_spec (0 + h) len) as [Hbig|Hsmall].
    + rewrite paint_rows_zrange by lia. f_equal. lia.
    + rewrite paint_rows_zrange by lia. f_equal. lia.
  - replace (Z.max 0 (len - h - s)) with (len - h - s) by lia.
    destruct (Z.gtb_spec (len - h - s + h) len) as [Hbig|Hsmall].
    + rewrite paint_rows_zrange by lia. f_equal. lia.
    + rewrite paint_rows_zrange by lia. f_equal. lia.
Qed.

(** C2, as the code has it.  For a buffer of [len] lines, a scroll offset
    [s >= 0] and a message area of [h >= 1] rows, the renderer paints
    exactly the indices from [start = max 0 (len - h - s)] up to
    [min len (start + h)], in buffer order and at most [h] of them.  This is
    the interval [[len-h-s, len-s)] clamped to [[0, len)] exactly when the
    view is at the bottom ([s = 0]), or the window's start is not clamped
    ([h + s <= len]), or the buffer is empty. *)
Theorem painted_window (len h s : Z) :
  0 <= len -> 0 <= s -> 1 <= h ->
  painted len h s
  = zrange (Z.max 0 (len - h - s)) (Z.min len (Z.max 0 (len - h - s) + h))
  /\ Z.of_nat (length (painted len h s)) <= h
  /\ (painted len h s = spec_visible_window len h s
      <-> s = 0 \/ h + s <= len \/ len = 0).
Proof.
  intros Hlen Hs Hh.
  pose proof (painted_zrange len h s Hlen Hs ltac:(lia)) as Hp.
  split; [exact Hp|]. split.
  - rewrite Hp, zrange_length. lia.
  - rewrite Hp. unfold spec_visible_window, clamp. split.
    + intros Heq. apply (f_equal (@length _)) in Heq.
      rewrite !zrange_length in Heq. lia.
    + intros Hcase. f_equal; lia.
Qed.

(** The message area has six rows at least: a terminal of 12 rows or fewer
    gives 6, a taller one its rows less 6. *)
Lemma msg_h_of_rows_min rows : 6 <= msg_h_of_rows rows.
Proof.
  unfold msg_h_of_rows.
  destruct (Z.ltb_spec rows 12);
    repeat match goal with
      | |- context [if ?b then _ else _] => destruct b eqn:?
      end;
    try lia;
    match goal with
    | H : (_ <? _) = true |- _ => apply Z.ltb_lt in H; lia
    end.
Qed.

Lemma painted_window_witness :
  0 <= 10 /\ 0 <= 2 /\ 1 <= 6
  /\ painted 10 6 2 = zrange (Z.max 0 (10 - 6 - 2)) (Z.min 10 (Z.max 0 (10 - 6 - 2) + 6)).
Proof.
  split; [lia|]. split; [lia|]. split; [lia|].
  apply (painted_window 10 6 2); lia.
Defined.

(** C2, as stated, fails: with 10 lines, the 6 rows of a 12-row terminal and
    a scroll offset of 8 the renderer paints the six oldest lines, where the
    clamped interval [[10-6-8, 10-8)] holds the two oldest only. *)
Lemma painted_window_counterexample :
  msg_h_of_rows 12 = 6
  /\ painted 10 6 8 = [0; 1; 2; 3; 4; 5]
  /\ spec_visible_window 10 6 8 = [0; 1]
  /\ painted 10 6 8 <> spec_visible_window 10 6 8.
Proof.
  split; [reflexivity|]. split; [reflexivity|]. split; [reflexivity|].
  discriminate.
Qed.

(** *** Scroll pinning *)

Lemma visible_zrange d h :
  0 <= g_scroll d -> 0 <= h ->
  visible d h
  = map (fun i => nth_error (g_lines d) (Z.to_nat i))
        (zrange (Z.max 0 (g_line_count d - h - g_scroll d))
                (Z.min (g_line_count d)
                       (Z.max 0 (g_line_count d - h - g_scroll d) + h))).
Proof.
  intros Hs Hh. unfold visible.
  rewrite painted_zrange; [reflexivity| unfold g_line_count; lia | lia | lia].
Qed.

(** C7, as the code has it.  Appending a line leaves a scroll offset of 0 at
    0 and moves an offset [s > 0] to [s + 1]; and when [s > 0] the lines on
    screen are the same before and after, provided the window was full
    ([h <= len]) while the buffer is below its capacity, and provided the
    oldest line on screen is not the one that the append evicts
    ([h + s < len]) when the buffer is at its capacity. *)
Theorem scroll_pin (d : display) (a : line_args) (h : Z) :
  1 <= h ->
  (length (g_lines d) <= TUI_MAX_LINES)%nat ->
  (g_scroll d = 0 -> g_scroll (add d a) = 0)
  /\ (0 < g_scroll d -> g_scroll (add d a) = g_scroll d + 1)
  /\ (0 < g_scroll d ->
      ((length (g_lines d) < TUI_MAX_LINES)%nat -> h <= g_line_count d) ->
      (length (g_lines d) = TUI_MAX_LINES -> h + g_scroll d < g_line_count d) ->
      visible (add d a) h = visible d h).
Proof.
  intros Hh Hcap. split; [|split].
  - intros H0. cbn. now rewrite H0.
  - intros Hs. cbn. destruct (Z.ltb_spec 0 (g_scroll d)); lia.
  - intros Hs Hroom Hfull.
    assert (Hs' : g_scroll (add d a) = g_scroll d + 1).
    { cbn. destruct (Z.ltb_spec 0 (g_scroll d)); lia. }
    rewrite !visible_zrange by lia. rewrite Hs'.
    unfold g_line_count in *. cbn [add tui_add_line g_lines].
    unfold tui_add_line_locked.
    destruct (Nat.ltb_spec (length (g_lines d)) TUI_MAX_LINES) as [Hlt|Hge].
    + (* room left: the same indices, the same slots *)
      specialize (Hroom Hlt).
      rewrite length_app. cbn [length].
      replace (Z.max 0 (Z.of_nat (length (g_lines d) + 1) - h - (g_scroll d + 1)))
        with (Z.max 0 (Z.of_nat (length (g_lines d)) - h - g_scroll d)) by lia.
      replace (Z.min (Z.of_nat (length (g_lines d) + 1))
                 (Z.max 0 (Z.of_nat (length (g_lines d)) - h - g_scroll d) + h))
        with (Z.min (Z.of_nat (length (g_lines d)))
                 (Z.max 0 (Z.of_nat (length (g_lines d)) - h - g_scroll d) + h))
        by lia.
      apply map_ext_in. intros i Hi. apply zrange_bounds in Hi.
      apply nth_error_app1. lia.
    + (* at capacity: every line moved down one slot *)
      assert (Hlen : length (g_lines d) = TUI_MAX_LINES) by lia.
      specialize (Hfull Hlen).
      assert (Hkeep : length (firstn (TUI_MAX_LINES - 1) (skipn 1 (g_lines d)))
                      = (TUI_MAX_LINES - 1)%nat).
      { rewrite length_firstn, length_skipn. lia. }
      rewrite length_app, Hkeep. cbn [length].
      replace (Z.of_nat (TUI_MAX_LINES - 1 + 1))
        with (Z.of_nat (length (g_lines d))) by lia.
      set (len := Z.of_nat (length (g_lines d))) in *.
      replace (Z.max 0 (len - h - (g_scroll d + 1)))
        with (Z.max 0 (len - h - g_scroll d) + -1) by lia.
      replace (Z.min len (Z.max 0 (len - h - g_scroll d) + -1 + h))
        with (Z.min len (Z.max 0 (len - h - g_scroll d) + h) + -1) by lia.
      rewrite zrange_shift, map_map.
      apply map_ext_in. intros i Hi. apply zrange_bounds in Hi.
      rewrite nth_error_app1 by (rewrite Hkeep; lia).
      rewrite nth_error_firstn.
      destruct (Nat.ltb_spec (Z.to_nat (i + -1)) (TUI_MAX_LINES - 1)); [|lia].
      rewrite nth_error_skipn. f_equal. lia.
Qed.

(** Ten lines scrolled up by 8 on the 6 rows of a 12-row terminal: the
    window starts at the oldest line, and stays as it is. *)
Lemma scroll_pin_witness :
  1 <= 6
  /\ (length (g_lines (scrolled 10 8)) <= TUI_MAX_LINES)%nat
  /\ g_scroll (add (scrolled 10 8) sample_line) = 9
  /\ visible (add (scrolled 10 8) sample_line) 6 = visible (scrolled 10 8) 6.
Proof.
  assert (Hcap : (length (g_lines (scrolled 10 8)) <= TUI_MAX_LINES)%nat)
    by (apply Nat.leb_le; reflexivity).
  destruct (scroll_pin (scrolled 10 8) sample_line 6 ltac:(lia) Hcap)
    as (_ & Hmove & Hsame).
  split; [lia|]. split; [exact Hcap|]. split.
  - apply Hmove. reflexivity.
  - apply Hsame;
      [reflexivity | intros _; vm_compute; discriminate | intros E; discriminate E].
Defined.

(** C7, as stated, fails: with three lines in the buffer, a scroll offset of
    1 and the 6 rows of a 12-row terminal, the window shows lines 0..2
    before the append and lines 0..3, the new line included, after it. *)
Lemma scroll_pin_counterexample :
  0 < g_scroll (scrolled 3 1)
  /\ g_scroll (add (scrolled 3 1) sample_line) = 2
  /\ painted (g_line_count (scrolled 3 1)) 6 (g_scroll (scrolled 3 1)) = [0; 1; 2]
  /\ painted (g_line_count (add (scrolled 3 1) sample_line)) 6
             (g_scroll (add (scrolled 3 1) sample_line)) = [0; 1; 2; 3]
  /\ visible (add (scrolled 3 1) sample_line) 6 <> visible (scrolled 3 1) 6.
Proof.
  split; [reflexivity|]. split; [reflexivity|].
  split; [reflexivity|]. split; [reflexivity|].
  intros E. apply (f_equal (@length _)) in E. discriminate E.
Qed.

(** The same at capacity: the oldest line on screen is the one evicted. *)
Lemma scroll_pin_eviction_example :
  nth_error (visible (scrolled 600 594) 6) 0
  <> nth_error (visible (add (scrolled 600 594) sample_line) 6) 0.
Proof. vm_compute. intros E. discriminate E. Qed.

End DisplayFacts.

Module WireFacts.
Import CStr Wire.

(** The type word of the records the clients build. *)
Lemma m_type_frame ty usr txt :
  In ty [LOGIN; LOGOUT; MESSAGE_SENT] -> m_type (frame ty usr txt) = ty.
Proof.
  intros [<-|[<-|[<-|[]]]]; reflexivity.
Qed.

Lemma m_type_server_frame ty ts usr txt :
  In ty [MESSAGE_RECV; DISCONNECT; SYSTEM] ->
  m_type (server_frame ty ts usr txt) = ty.
Proof.
  intros [<-|[<-|[<-|[]]]]; reflexivity.
Qed.

End WireFacts.

Module ClientOpFacts.
Import CStr Wire Transport Env ClientOp WireFacts.

Lemma count_type_snoc ty sent m :
  count_type ty (sent ++ [m])
  = (count_type ty sent + if Z.eq_dec (m_type m) ty then 1 else 0)%nat.
Proof.
  unfold count_type. rewrite map_app, count_occ_app. cbn.
  destruct (Z.eq_dec (m_type m) ty); reflexivity.
Qed.

Lemma logouts_full_write c m :
  logouts (snd (full_write c m))
  = (logouts c + if Z.eq_dec (m_type m) LOGOUT then 1 else 0)%nat.
Proof.
  unfold full_write, logouts. destruct (pop (write_ok (w c))) as [r rest].
  cbn. apply count_type_snoc.
Qed.

Lemma got_disconnect_full_write c m :
  got_disconnect (snd (full_write c m)) = got_disconnect c.
Proof.
  unfold full_write. destruct (pop (write_ok (w c))) as [r rest]. reflexivity.
Qed.

(** After the server's DISCONNECT the tail of [main] writes nothing. *)
Lemma main_cleanup_after_disconnect c :
  got_disconnect c = true ->
  got_disconnect (main_cleanup c) = true
  /\ sock_out (w (main_cleanup c)) = sock_out (w c).
Proof.
  intros H. unfold main_cleanup. cbn. rewrite H. cbn. auto.
Qed.

(** Without it the tail of [main] writes one LOGOUT record and shuts the
    socket down. *)
Lemma main_cleanup_logout c :
  got_disconnect c = false ->
  sock_out (w (main_cleanup c)) = sock_out (w c) ++ [frame LOGOUT [] []]
  /\ sock_shut (w (main_cleanup c)) = true
  /\ pc (main_cleanup c) = Exited
  /\ running (main_cleanup c) = false.
Proof.
  intros H. unfold main_cleanup. cbn. rewrite H. cbn.
  unfold full_write. cbn. destruct (pop (write_ok (w c))) as [r rest].
  cbn. auto.
Qed.

Lemma cleanup_keeps c c0 :
  got_disconnect c = true -> logouts c = logouts c0 ->
  got_disconnect (main_cleanup c) = true /\ logouts (main_cleanup c) = logouts c0.
Proof.
  intros H E. destruct (main_cleanup_after_disconnect c H) as [Hg Hs].
  split; [exact Hg|]. rewrite <- E. unfold logouts. now rewrite Hs.
Qed.

Lemma again_keeps c c0 :
  got_disconnect c = true -> logouts c = logouts c0 ->
  got_disconnect (if running c && negb (got_disconnect c) then c else main_cleanup c)
  = true
  /\ logouts (if running c && negb (got_disconnect c) then c else main_cleanup c)
     = logouts c0.
Proof.
  intros H E. rewrite H, andb_false_r. now apply cleanup_keeps.
Qed.

Lemma full_write_keeps c c0 m ok c' :
  got_disconnect c = true -> logouts c = logouts c0 ->
  m_type m <> LOGOUT ->
  full_write c m = (ok, c') ->
  got_disconnect c' = true /\ logouts c' = logouts c0.
Proof.
  intros H E Hm Hw. change c' with (snd (ok, c')). rewrite <- Hw.
  rewrite got_disconnect_full_write, logouts_full_write.
  destruct (Z.eq_dec (m_type m) LOGOUT); [contradiction|].
  split; [exact H|lia].
Qed.

(** One step of any thread after the server's DISCONNECT: the flag stays
    set and no LOGOUT record is written. *)
Lemma step_after_disconnect c t :
  got_disconnect c = true ->
  got_disconnect (step c t) = true /\ logouts (step c t) = logouts c.
Proof.
  intros H. destruct t; unfold step.
  - (* the main thread *)
    destruct (pc c); try (split; [exact H|reflexivity]);
      unfold line_iter;
      destruct (pop (stdin_in (w c))) as [[[l|]|] rest];
      set (c1 := set_w c (with_stdin_in (w c) rest));
      assert (H1 : got_disconnect c1 = true) by exact H;
      assert (E1 : logouts c1 = logouts c) by reflexivity;
      clearbody c1;
      try (apply cleanup_keeps; assumption);
      try (destruct (shutdown_requested c1);
           [apply cleanup_keeps|apply again_keeps]; assumption);
      (destruct (_ || _); [apply cleanup_keeps; assumption|]);
      (destruct (negb (msg_valid (chomp l)));
       [ destruct (strlen (chomp l) =? 0);
         [|destruct (strlen (chomp l) >? 1023)];
         apply again_keeps; assumption |]);
      destruct (full_write c1 (frame MESSAGE_SEND [] (chomp l))) as [ok c2] eqn:Ew;
      (destruct (full_write_keeps c1 c _ ok c2 H1 E1
                  ltac:(rewrite (m_type_frame MESSAGE_SEND) by (cbn; auto); discriminate)
                  Ew) as [H2 E2]);
      (destruct ok; cbn [negb];
       [apply again_keeps|apply cleanup_keeps]; assumption).
  - (* the receive thread *)
    destruct (rpc c); try (split; [exact H|reflexivity]);
      unfold rx_iter, rx_again;
      destruct (full_read (sock_in (w c)) FRAME_SIZE) as [[[r m] src']|];
      try (split; [exact H|reflexivity]);
      repeat match goal with
        | |- context [if ?b then _ else _] =>
            lazymatch b with
            | context [if _ then _ else _] => fail
            | _ => destruct b eqn:?
            end
        end;
      try (split; [exact H|reflexivity]);
      try (split; reflexivity).
  - (* a signal *)
    split; [exact H|reflexivity].
  - split; [exact H|reflexivity].
Qed.

(** clientOp.c, server-sent DISCONNECT: once the receive thread has set
    [got_disconnect], no schedule of the threads makes the client write a
    LOGOUT record. *)
Lemma op_no_logout_after_disconnect sched : forall c,
  got_disconnect c = true -> logouts (run c sched) = logouts c.
Proof.
  induction sched as [|t sched IH]; intros c H; [reflexivity|].
  cbn [run fold_left]. fold (run (step c t) sched).
  destruct (step_after_disconnect c t H) as [H' E].
  now rewrite IH, E.
Qed.

(** The receive thread sets the flag when it reads a DISCONNECT record. *)
Lemma op_disconnect_sets_flag c m src' :
  rpc c <> RxExited ->
  full_read (sock_in (w c)) FRAME_SIZE = Some (Z.of_nat FRAME_SIZE, m, src') ->
  m_type m = DISCONNECT ->
  got_disconnect (step c T_rx) = true
  /\ running (step c T_rx) = false
  /\ sock_out (w (step c T_rx)) = sock_out (w c).
Proof.
  intros Hpc Hread Hty.
  assert (Hstep : step c T_rx = rx_iter c) by (cbn; destruct (rpc c); congruence).
  rewrite Hstep. unfold rx_iter. rewrite Hread, Hty. cbn. auto.
Qed.

(** Past its loop the main thread writes nothing more, and the other
    threads never write. *)
Lemma step_exited c t :
  pc c = Exited ->
  pc (step c t) = Exited /\ sock_out (w (step c t)) = sock_out (w c).
Proof.
  intros H. destruct t; unfold step.
  - rewrite H. auto.
  - destruct (rpc c); auto; unfold rx_iter, rx_again;
      destruct (full_read (sock_in (w c)) FRAME_SIZE) as [[[r m] src']|]; auto;
      repeat match goal with
        | |- context [if ?b then _ else _] =>
            lazymatch b with
            | context [if _ then _ else _] => fail
            | _ => destruct b
            end
        end; auto.
  - auto.
  - auto.
Qed.

Lemma run_exited sched : forall c,
  pc c = Exited -> sock_out (w (run c sched)) = sock_out (w c).
Proof.
  induction sched as [|t sched IH]; intros c H; [reflexivity|].
  cbn [run fold_left]. fold (run (step c t) sched).
  destruct (step_exited c t H) as [H' E]. now rewrite IH, E.
Qed.

(** clientOp.c, the local [!disconnect]: the main thread writes one LOGOUT
    record, shuts the socket down, and nothing is written afterwards. *)
Lemma op_user_disconnect c l rest sched :
  pc c = LineLoop -> got_disconnect c = false ->
  stdin_in (w c) = Line l :: rest ->
  chomp l = lit "!disconnect" ->
  sock_out (w (run (step c T_main) sched)) = sock_out (w c) ++ [frame LOGOUT [] []]
  /\ sock_shut (w (step c T_main)) = true.
Proof.
  intros Hpc Hgd Hin Hcmd.
  assert (Hstep : step c T_main
                  = main_cleanup (set_w c (with_stdin_in (w c) rest))).
  { cbn. rewrite Hpc. unfold line_iter. rewrite Hin. cbn [pop].
    rewrite Hcmd. reflexivity. }
  rewrite Hstep.
  destruct (main_cleanup_logout (set_w c (with_stdin_in (w c) rest)) Hgd)
    as (Hout & Hshut & Hexit & _).
  rewrite run_exited by exact Hexit. split; [exact Hout|exact Hshut].
Qed.

(** clientOp.c, the short read: when the socket gives some bytes but fewer
    than a record before it closes, the receive thread reports it, clears
    [running] and leaves its loop; nothing of the partial record is
    printed. *)
Lemma op_short_read_fatal c :
  rpc c <> RxExited ->
  stream_fails (sock_in (w c)) = false ->
  (0 < length (stream_bytes (sock_in (w c))) < FRAME_SIZE)%nat ->
  running (step c T_rx) = false
  /\ rpc (step c T_rx) = RxExited
  /\ out (w (step c T_rx)) = out (w c) ++ [OutError (lit "protocol short read")].
Proof.
  intros Hpc Hnf Hlen.
  assert (Hstep : step c T_rx = rx_iter c) by (cbn; destruct (rpc c); congruence).
  rewrite Hstep. unfold rx_iter.
  destruct (TransportFacts.full_read_outcome (sock_in (w c)) FRAME_SIZE)
    as (src' & -> & _).
  rewrite Hnf.
  destruct (Nat.leb_spec FRAME_SIZE (length (stream_bytes (sock_in (w c)))));
    [lia|].
  destruct (Z.ltb_spec (Z.of_nat (length (stream_bytes (sock_in (w c))))) 0);
    [lia|].
  destruct (Z.eqb_spec (Z.of_nat (length (stream_bytes (sock_in (w c))))) 0);
    [lia|].
  destruct (Z.eqb_spec (Z.of_nat (length (stream_bytes (sock_in (w c)))))
              (Z.of_nat FRAME_SIZE)); [lia|].
  cbn. auto.
Qed.

(** clientOp.c, [msg_valid]: what passes and what does not. *)
Lemma msg_valid_spec :
  msg_valid (lit "hello world") = true
  /\ msg_valid [] = false
  /\ (forall s, length (c_str s) = 1024%nat -> msg_valid s = false)
  /\ (forall s ch, In ch (c_str s) -> uchar ch < 32 \/ 126 < uchar ch ->
                   msg_valid s = false)
  /\ (forall s, In x1b (c_str s) -> msg_valid s = false).
Proof.
  assert (Hrange : forall s ch, In ch (c_str s) ->
                     uchar ch < 32 \/ 126 < uchar ch -> msg_valid s = false).
  { intros s ch Hin Hch. unfold msg_valid.
    destruct ((strlen s =? 0) || (strlen s >? 1023)); [reflexivity|].
    apply not_true_is_false. intros Hall.
    rewrite forallb_forall in Hall. specialize (Hall ch Hin).
    apply negb_true_iff, orb_false_iff in Hall. destruct Hall as [H1 H2].
    apply Z.ltb_ge in H1. rewrite Z.gtb_ltb in H2. apply Z.ltb_ge in H2. lia. }
  split; [reflexivity|]. split; [reflexivity|]. split; [|split].
  - intros s Hs. unfold msg_valid, strlen. rewrite Hs. reflexivity.
  - exact Hrange.
  - intros s Hin. apply (Hrange s x1b Hin). left. reflexivity.
Qed.

(** clientOp.c: a line that fails [msg_valid] is reported and not written,
    and the input loop goes on. *)
Lemma op_rejected_not_sent c l rest :
  pc c = LineLoop -> running c = true -> got_disconnect c = false ->
  stdin_in (w c) = Line l :: rest ->
  str_eq (chomp l) (lit "!disconnect") || str_eq (chomp l) (lit "!disconect") = false ->
  msg_valid (chomp l) = false ->
  sock_out (w (step c T_main)) = sock_out (w c)
  /\ running (step c T_main) = true
  /\ pc (step c T_main) = LineLoop.
Proof.
  intros Hpc Hrun Hgd Hin Hcmd Hbad.
  cbn [step]. rewrite Hpc. unfold line_iter. rewrite Hin. cbn [pop].
  rewrite Hcmd, Hbad. cbn [negb].
  destruct (strlen (chomp l) =? 0); [|destruct (strlen (chomp l) >? 1023)];
    cbn; rewrite Hrun, Hgd; cbn; auto.
Qed.

End ClientOpFacts.

Module ClientFacts.
Import CStr Wire Transport Display Env Client WireFacts.

(** *** Helpers on strings *)

Lemma all_printable_c_str s : all_printable s -> all_printable (c_str s).
Proof.
  induction 1 as [|ch s Hch _ IH]; cbn; [constructor|].
  destruct (Byte.eqb ch x00); constructor; assumption.
Qed.

Lemma all_printable_firstn n s : all_printable s -> all_printable (firstn n s).
Proof.
  revert s. induction n as [|n IH]; intros s H; cbn; [constructor|].
  destruct H as [|ch s Hch Hs]; constructor; [assumption|now apply IH].
Qed.

Lemma all_printable_skipn n s : all_printable s -> all_printable (skipn n s).
Proof.
  revert s. induction n as [|n IH]; intros s H; cbn; [assumption|].
  destruct H as [|ch s Hch Hs]; [constructor|now apply IH].
Qed.

Lemma all_printable_strncpy s n : all_printable s -> all_printable (strncpy s n).
Proof. intros H. apply all_printable_firstn, all_printable_c_str, H. Qed.

Lemma all_printable_removelast s : all_printable s -> all_printable (removelast s).
Proof.
  induction 1 as [|ch s Hch Hs IH]; cbn; [constructor|].
  destruct s; [constructor|]. constructor; assumption.
Qed.

Lemma removelast_length_le {A} (l : list A) :
  (length (removelast l) <= length l)%nat.
Proof.
  induction l as [|x l IH]; cbn; [lia|]. destruct l; cbn in *; lia.
Qed.

Lemma printable_nul_free s : all_printable s -> nul_free s.
Proof.
  apply Forall_impl. intros ch Hp ->. discriminate Hp.
Qed.

(** A string of printable bytes passes [is_ascii_printable_strict]. *)
Lemma printable_strict s :
  all_printable s -> is_ascii_printable_strict s = true.
Proof.
  intros H. unfold is_ascii_printable_strict.
  apply forallb_forall. intros ch Hin.
  apply all_printable_c_str in H.
  pose proof (proj1 (Forall_forall _ _) H ch Hin) as Hp.
  unfold printable in Hp. apply andb_true_iff in Hp. destruct Hp as [H1 H2].
  apply Z.leb_le in H1, H2.
  apply andb_true_iff. split; apply negb_true_iff.
  - apply Z.eqb_neq. lia.
  - apply orb_false_iff. split; [apply Z.ltb_ge; lia|].
    rewrite Z.gtb_ltb. apply Z.ltb_ge. lia.
Qed.

Lemma forall_firstn {A} (P : A -> Prop) n : forall l,
  Forall P l -> Forall P (firstn n l).
Proof.
  induction n as [|n IH]; intros l H; cbn; [constructor|].
  destruct H; constructor; [assumption|now apply IH].
Qed.

Lemma forall_skipn {A} (P : A -> Prop) n : forall l,
  Forall P l -> Forall P (skipn n l).
Proof.
  induction n as [|n IH]; intros l H; cbn; [assumption|].
  destruct H; [constructor|now apply IH].
Qed.

Lemma forall_nth {A} (P : A -> Prop) d : forall l i,
  P d -> Forall P l -> P (nth i l d).
Proof.
  induction l as [|x l IH]; intros i Hd H; destruct i; cbn; try assumption.
  - now inversion H.
  - apply IH; [assumption|now inversion H].
Qed.

(** *** The edit buffer under the steps of the threads *)

(** Case analysis on the tests of a step, innermost first. *)
Ltac split_tests :=
  repeat match goal with
    | |- context [if ?b then _ else _] =>
        lazymatch b with
        | context [if _ then _ else _] => fail
        | _ => destruct b; cbv beta iota
        end
    end.

Lemma ed_sys_write c m : ed (snd (sys_write c m)) = ed c.
Proof. unfold sys_write. destruct (pop (write_ok (w c))). reflexivity. Qed.

Lemma ed_read_key c : ed (snd (read_key c)) = ed c.
Proof. unfold read_key. destruct (pop (term_in (w c))). reflexivity. Qed.

Lemma ed_run_local_command c s : ed (run_local_command c s) = ed c.
Proof. unfold run_local_command. split_tests; reflexivity. Qed.

Lemma ed_main_cleanup c : ed (main_cleanup c) = ed c.
Proof.
  unfold main_cleanup, sys_write.
  destruct (pop (write_ok (w (set_running c false)))). reflexivity.
Qed.

Lemma ed_boot_lines c : ed (boot_lines c) = ed c.
Proof. unfold boot_lines. destruct (g_ui_mode c); reflexivity. Qed.

Lemma ed_line_iter c : ed (line_iter c) = ed c.
Proof.
  unfold line_iter. destruct (pop (stdin_in (w c))) as [[[l|]|] rest];
    cbv beta iota.
  - destruct (is_local_command (chomp l)).
    + destruct (negb _); [|destruct (running _)];
        rewrite ?ed_main_cleanup, ed_run_local_command; reflexivity.
    + unfold sys_write. split_tests;
        repeat match goal with
          | |- context [pop ?l] => destruct (pop l); cbv beta iota
          end;
        split_tests; rewrite ?ed_main_cleanup; reflexivity.
  - split_tests; rewrite ?ed_main_cleanup; reflexivity.
  - rewrite ed_main_cleanup. reflexivity.
Qed.

Lemma ed_rx_show c : ed (rx_show c) = ed c.
Proof. unfold rx_show, rx_again. split_tests; reflexivity. Qed.

Lemma ed_rx_iter c : ed (rx_iter c) = ed c.
Proof.
  unfold rx_iter.
  destruct (perform_full_read _ _ _) as [[[r data] src']|]; [|reflexivity].
  cbv beta iota.
  destruct (r =? 0); [destruct (g_tui_enabled _); reflexivity|].
  destruct (r <? 0); [destruct (g_tui_enabled _); reflexivity|].
  destruct (_ && _); [unfold rx_again; split_tests; reflexivity|].
  rewrite ed_rx_show. reflexivity.
Qed.

Lemma ed_quote_iter c now pick : ed (quote_iter c now pick) = ed c.
Proof.
  unfold quote_iter. destruct (negb _); [reflexivity|].
  destruct (g_ui_mode c); [reflexivity|]. destruct (_ && _); reflexivity.
Qed.

Lemma ed_rx_start c : ed (rx_start c) = ed c.
Proof. unfold rx_start, rx_again. split_tests; reflexivity. Qed.

Lemma hist_push_ok hist s :
  Forall all_printable hist -> all_printable s ->
  Forall all_printable (tui_hist_push hist s).
Proof.
  intros Hh Hs. unfold tui_hist_push.
  destruct (c_str s); [assumption|].
  destruct (_ && _); [assumption|].
  destruct (_ <? _)%nat; apply Forall_app; split;
    try (constructor; [now apply all_printable_strncpy|constructor]).
  - assumption.
  - now apply forall_firstn, forall_skipn.
Qed.

Lemma edit_ok_clear h i :
  Forall all_printable h ->
  edit_ok {| g_input := []; g_send_hist := h; hist_idx := i |}.
Proof. intros H. repeat split; [constructor | exact H | cbn; lia]. Qed.

(** ENTER leaves the edit buffer as it was (when empty) or clears it, and
    adds at most the sent text to the history. *)
Lemma on_enter_ok c : edit_ok (ed c) -> edit_ok (ed (on_enter c)).
Proof.
  intros Hok. pose proof Hok as (Hi & Hh & Hl). unfold on_enter.
  destruct (g_input_len (ed c) =? 0); [exact Hok|].
  destruct (is_local_command (g_input (ed c))).
  - cbn -[lit]. rewrite ed_run_local_command. now apply edit_ok_clear.
  - unfold sys_write. split_tests;
      repeat match goal with
        | |- context [pop ?l] => destruct (pop l) as [[[|]|] ?]; cbv beta iota
        end;
      cbn -[lit frame tui_hist_push tui_add_line];
      apply edit_ok_clear; try assumption; now apply hist_push_ok.
Qed.

Lemma edit_ok_set h i s :
  Forall all_printable h -> all_printable s -> (length s <= 1023)%nat ->
  edit_ok {| g_input := s; g_send_hist := h; hist_idx := i |}.
Proof. intros Hh Hs Hl. repeat split; assumption. Qed.

(** A recalled history entry is printable and fits the edit buffer. *)
Lemma edit_ok_recall h i j :
  Forall all_printable h ->
  edit_ok {| g_input := strncpy (nth j h []) 1023; g_send_hist := h;
             hist_idx := i |}.
Proof.
  intros Hh. apply edit_ok_set; [assumption| |apply CStrFacts.strncpy_length].
  apply all_printable_strncpy, forall_nth; [constructor|assumption].
Qed.

Lemma on_up_ok c : edit_ok (ed c) -> edit_ok (ed (on_up c)).
Proof.
  intros Hok. pose proof Hok as (Hi & Hh & Hl). unfold on_up.
  destruct (g_input_len (ed c) =? 0); [exact Hok|].
  split_tests; try exact Hok; now apply edit_ok_recall.
Qed.

Lemma on_down_ok c : edit_ok (ed c) -> edit_ok (ed (on_down c)).
Proof.
  intros Hok. pose proof Hok as (Hi & Hh & Hl). unfold on_down.
  destruct (g_input_len (ed c) =? 0); [split_tests; exact Hok|].
  split_tests; try exact Hok;
    first [ now apply edit_ok_recall
          | now apply edit_ok_clear
          | now apply edit_ok_set ].
Qed.

(** The ESC byte and the two bytes read after it put nothing in the edit
    buffer: it stays, is cleared, or takes a history entry. *)
Lemma on_escape_ok c : edit_ok (ed c) -> edit_ok (ed (on_escape c)).
Proof.
  intros Hok. unfold on_escape.
  destruct (read_key c) as [[s1|] c1] eqn:E1;
    (assert (Hc1 : ed c1 = ed c)
       by (change c1 with (snd (Some s1, c1)) || change c1 with (snd (@None byte, c1));
           rewrite <- E1; apply ed_read_key));
    [|now rewrite Hc1].
  destruct (read_key c1) as [[s2|] c2] eqn:E2;
    (assert (Hc2 : ed c2 = ed c)
       by (rewrite <- Hc1;
           change c2 with (snd (Some s2, c2)) || change c2 with (snd (@None byte, c2));
           rewrite <- E2; apply ed_read_key));
    [|now rewrite Hc2].
  rewrite <- Hc2 in Hok.
  split_tests; try assumption; [now apply on_up_ok|now apply on_down_ok].
Qed.

Lemma on_key_ok c k : edit_ok (ed c) -> edit_ok (ed (on_key c k)).
Proof.
  intros Hok. pose proof Hok as (Hi & Hh & Hl). unfold on_key.
  destruct (_ || _); [now apply on_enter_ok|].
  destruct (_ || _).
  { (* backspace *)
    destruct (_ >? _); [|exact Hok].
    change (edit_ok {| g_input := removelast (g_input (ed c));
                       g_send_hist := g_send_hist (ed c);
                       hist_idx := hist_idx (ed c) |}).
    apply edit_ok_set; [assumption|now apply all_printable_removelast|].
    pose proof (removelast_length_le (g_input (ed c))). lia. }
  destruct (uchar k =? 27); [now apply on_escape_ok|].
  destruct (_ && _) eqn:Hp; [|exact Hok].
  destruct (Z.ltb_spec (g_input_len (ed c)) 1023) as [Hlt|]; [|exact Hok].
  (* a printable byte, and room for it *)
  change (edit_ok {| g_input := g_input (ed c) ++ [k];
                     g_send_hist := g_send_hist (ed c);
                     hist_idx := hist_idx (ed c) |}).
  apply edit_ok_set; [assumption| |].
  - apply Forall_app. split; [assumption|]. constructor; [|constructor].
    unfold printable. apply andb_true_iff in Hp. destruct Hp as [H1 H2].
    rewrite Z.geb_leb in H1. now rewrite H1, H2.
  - rewrite length_app. cbn [length]. unfold g_input_len in Hlt. lia.
Qed.

Lemma ui_iter_ok c : edit_ok (ed c) -> edit_ok (ed (ui_iter c)).
Proof.
  intros Hok. unfold ui_iter.
  destruct (negb (running c)); [now rewrite ed_main_cleanup|].
  set (c0 := if g_tui_dirty (disp c) then _ else c).
  assert (H0 : ed c0 = ed c) by (subst c0; destruct (g_tui_dirty _); reflexivity).
  destruct (read_key c0) as [[k|] c1] eqn:E1;
    (assert (Hc1 : ed c1 = ed c)
       by (rewrite <- H0;
           change c1 with (snd (Some k, c1)) || change c1 with (snd (@None byte, c1));
           rewrite <- E1; apply ed_read_key));
    rewrite <- Hc1 in Hok; [now apply on_key_ok|exact Hok].
Qed.

Lemma leave_menu_ok c : edit_ok (ed c) -> edit_ok (ed (leave_menu c)).
Proof.
  intros Hok. pose proof Hok as (Hi & Hh & Hl). unfold leave_menu.
  destruct (negb (running c)); [now rewrite ed_main_cleanup|].
  cbn -[lit boot_lines]. rewrite ed_boot_lines. now apply edit_ok_set.
Qed.

Lemma menu_iter_ok c : edit_ok (ed c) -> edit_ok (ed (menu_iter c)).
Proof.
  intros Hok. unfold menu_iter.
  destruct (negb _); [now apply leave_menu_ok|].
  destruct (read_key c) as [[k|] c1] eqn:E1;
    (assert (Hc1 : ed c1 = ed c)
       by (change c1 with (snd (Some k, c1)) || change c1 with (snd (@None byte, c1));
           rewrite <- E1; apply ed_read_key));
    rewrite <- Hc1 in Hok; [|exact Hok].
  split_tests; try exact Hok; apply leave_menu_ok; exact Hok.
Qed.

(** Every step of every thread keeps the edit buffer and the history
    printable. *)
Lemma step_ok c t : edit_ok (ed c) -> edit_ok (ed (step c t)).
Proof.
  intros Hok. destruct t; unfold step.
  - destruct (pc c); try exact Hok.
    + now apply menu_iter_ok.
    + now apply ui_iter_ok.
    + now rewrite ed_line_iter.
  - destruct (rpc c); try exact Hok.
    + now rewrite ed_rx_start.
    + now rewrite ed_rx_iter.
  - exact Hok.
  - now rewrite ed_quote_iter.
Qed.

Lemma boot_ok tui mode name x : edit_ok (ed (boot tui mode name x)).
Proof.
  unfold boot, sys_write. destruct (pop (write_ok _)) as [[[|]|] rest];
    cbv beta iota; now apply edit_ok_clear.
Qed.

Lemma run_ok sched : forall c, edit_ok (ed c) -> edit_ok (ed (run c sched)).
Proof.
  induction sched as [|t sched IH]; intros c Hok; [exact Hok|].
  cbn [run fold_left]. fold (run (step c t) sched). now apply IH, step_ok.
Qed.

(** The ESC byte and the two bytes after it insert nothing: the edit buffer
    stays, is cleared, or becomes a copy of a history entry. *)
Lemma on_escape_inserts_nothing c :
  g_input (ed (on_escape c)) = g_input (ed c)
  \/ g_input (ed (on_escape c)) = []
  \/ exists j, g_input (ed (on_escape c))
               = strncpy (nth j (g_send_hist (ed c)) []) 1023.
Proof.
  unfold on_escape.
  destruct (read_key c) as [[s1|] c1] eqn:E1;
    (assert (Hc1 : ed c1 = ed c)
       by (change c1 with (snd (Some s1, c1)) || change c1 with (snd (@None byte, c1));
           rewrite <- E1; apply ed_read_key));
    [|left; now rewrite Hc1].
  destruct (read_key c1) as [[s2|] c2] eqn:E2;
    (assert (Hc2 : ed c2 = ed c)
       by (rewrite <- Hc1;
           change c2 with (snd (Some s2, c2)) || change c2 with (snd (@None byte, c2));
           rewrite <- E2; apply ed_read_key));
    [|left; now rewrite Hc2].
  rewrite <- Hc2. unfold on_up, on_down.
  split_tests; first [ left; reflexivity | right; left; reflexivity
                     | right; right; eexists; reflexivity ].
Qed.

(** X30.  In every state that a run of client.c reaches -- whatever the
    terminal, the socket and the schedule of the threads do -- the edit
    buffer and every entry of the send history hold only bytes of 32..126,
    so the edit buffer passes [is_ascii_printable_strict]: the branch of the
    ENTER handler that rejects non-ASCII or escape bytes is never taken.
    The handler of the ESC byte, which reads the two bytes after it, leaves
    the edit buffer as it is, empties it, or puts a history entry in it;
    what follows those two bytes is read as keys of its own. *)
Theorem edit_buffer_printable (tui : bool) (mode : ui_mode_t) (name : list byte)
    (x : world) (sched : list thread) :
  all_printable (g_input (ed (run (boot tui mode name x) sched)))
  /\ Forall all_printable (g_send_hist (ed (run (boot tui mode name x) sched)))
  /\ is_ascii_printable_strict (g_input (ed (run (boot tui mode name x) sched))) = true
  /\ (forall c, g_input (ed (on_escape c)) = g_input (ed c)
                \/ g_input (ed (on_escape c)) = []
                \/ exists j, g_input (ed (on_escape c))
                             = strncpy (nth j (g_send_hist (ed c)) []) 1023).
Proof.
  destruct (run_ok sched (boot tui mode name x) (boot_ok tui mode name x))
    as (Hi & Hh & _).
  split; [exact Hi|]. split; [exact Hh|].
  split; [now apply printable_strict|]. exact on_escape_inserts_nothing.
Qed.

(** *** Sending *)

Lemma sys_write_ok c m :
  hd true (write_ok (w c)) = true ->
  sys_write c m
  = (true, set_w c (with_write_ok (with_sock_out (w c) (sock_out (w c) ++ [m]))
                      (tl (write_ok (w c))))).
Proof.
  intros H. unfold sys_write. destruct (write_ok (w c)) as [|b rest]; cbn in *.
  - reflexivity.
  - now subst b.
Qed.

(** ENTER on a valid message that is no local command, when the write
    succeeds: the state after it. *)
Lemma on_enter_sends c :
  g_input (ed c) <> [] ->
  (length (g_input (ed c)) <= 1023)%nat ->
  is_ascii_printable_strict (g_input (ed c)) = true ->
  is_local_command (g_input (ed c)) = false ->
  hd true (write_ok (w c)) = true ->
  on_enter c
  = let c1 := set_w c (with_write_ok
                         (with_sock_out (w c)
                            (sock_out (w c) ++ [frame MESSAGE_SENT [] (g_input (ed c))]))
                         (tl (write_ok (w c)))) in
    let c2 := set_hist c1 (tui_hist_push (g_send_hist (ed c)) (g_input (ed c))) in
    dirty (tui_input_clear (set_hist_idx c2 (g_send_hist_len (ed c2)))).
Proof.
  intros Hne Hlen Hpr Hcmd Hwr. unfold on_enter.
  assert (H0 : (g_input_len (ed c) =? 0) = false).
  { apply Z.eqb_neq. unfold g_input_len.
    destruct (g_input (ed c)); [congruence|cbn; lia]. }
  assert (H1 : (g_input_len (ed c) >? 1023) = false).
  { rewrite Z.gtb_ltb. apply Z.ltb_ge. unfold g_input_len. lia. }
  rewrite H0, Hcmd, H1. cbv beta iota. rewrite H0, Hpr. cbv beta iota.
  cbn [negb]. cbv beta iota. rewrite (sys_write_ok c _ Hwr). reflexivity.
Qed.

Lemma on_key_enter c k :
  uchar k = 10 \/ uchar k = 13 -> on_key c k = on_enter c.
Proof.
  intros Hk. unfold on_key.
  replace ((uchar k =? 10) || (uchar k =? 13)) with true; [reflexivity|].
  symmetry. apply orb_true_iff. destruct Hk as [->| ->]; auto.
Qed.

(** In TUI mode, when ENTER is pressed on a valid message that is no
    local command and the write succeeds, the step of the input loop hands
    one MESSAGE_SENT record with that text to the socket, clears the edit
    buffer and pushes the text on the history; the display buffer keeps its
    lines and its scroll offset (no local echo), and the rest of the state
    is as before. *)
Lemma send_adds_no_line (c : client) (k : byte) (rest : list (option byte)) :
  pc c = Editing -> running c = true ->
  term_in (w c) = Some k :: rest ->
  uchar k = 10 \/ uchar k = 13 ->
  g_input (ed c) <> [] ->
  (length (g_input (ed c)) <= 1023)%nat ->
  is_ascii_printable_strict (g_input (ed c)) = true ->
  is_local_command (g_input (ed c)) = false ->
  hd true (write_ok (w c)) = true ->
  g_lines (disp (step c T_main)) = g_lines (disp c)
  /\ g_scroll (disp (step c T_main)) = g_scroll (disp c)
  /\ out (w (step c T_main)) = out (w c)
  /\ running (step c T_main) = true
  /\ pc (step c T_main) = Editing
  /\ g_ui_mode (step c T_main) = g_ui_mode c
  /\ rx (step c T_main) = rx c
  /\ sock_out (w (step c T_main))
     = sock_out (w c) ++ [frame MESSAGE_SENT [] (g_input (ed c))]
  /\ g_input (ed (step c T_main)) = []
  /\ g_send_hist (ed (step c T_main))
     = tui_hist_push (g_send_hist (ed c)) (g_input (ed c)).
Proof.
  intros Hpc Hrun Hterm Hk Hne Hlen Hpr Hcmd Hwr.
  cbn [step]. rewrite Hpc. unfold ui_iter. rewrite Hrun. cbn [negb].
  set (c0 := if g_tui_dirty (disp c) then _ else c).
  assert (Hw0 : w c0 = w c) by (subst c0; destruct (g_tui_dirty _); reflexivity).
  assert (He0 : ed c0 = ed c) by (subst c0; destruct (g_tui_dirty _); reflexivity).
  assert (Hl0 : g_lines (disp c0) = g_lines (disp c))
    by (subst c0; destruct (g_tui_dirty _); reflexivity).
  assert (Hs0 : g_scroll (disp c0) = g_scroll (disp c))
    by (subst c0; destruct (g_tui_dirty _); reflexivity).
  assert (Hr0 : running c0 = true)
    by (subst c0; destruct (g_tui_dirty _); exact Hrun).
  assert (Hp0 : pc c0 = Editing)
    by (subst c0; destruct (g_tui_dirty _); exact Hpc).
  assert (Hm0 : g_ui_mode c0 = g_ui_mode c)
    by (subst c0; destruct (g_tui_dirty _); reflexivity).
  assert (Hx0 : rx c0 = rx c)
    by (subst c0; destruct (g_tui_dirty _); reflexivity).
  clearbody c0.
  unfold read_key. rewrite Hw0, Hterm. cbn [pop].
  rewrite (on_key_enter _ k Hk).
  rewrite on_enter_sends;
    [| exact (eq_ind_r (fun e => g_input e <> []) Hne He0)
     | exact (eq_ind_r (fun e => (length (g_input e) <= 1023)%nat) Hlen He0)
     | exact (eq_ind_r (fun e => is_ascii_printable_strict (g_input e) = true) Hpr He0)
     | exact (eq_ind_r (fun e => is_local_command (g_input e) = false) Hcmd He0)
     | exact Hwr ].
  cbn -[frame tui_hist_push]. rewrite He0, Hl0, Hs0, Hm0, Hx0.
  repeat split; assumption.
Qed.

(** *** Shutdown and the duplicate guard *)

(** client.c: the tail of [main] writes a LOGOUT record in every case. *)
Lemma main_cleanup_writes_logout c :
  sock_out (w (main_cleanup c))
  = sock_out (w c) ++ [frame LOGOUT (user c) (lit "User has disconnected")]
  /\ sock_shut (w (main_cleanup c)) = true
  /\ pc (main_cleanup c) = Exited.
Proof.
  unfold main_cleanup, sys_write.
  destruct (pop (write_ok (w (set_running c false)))) as [r rest]. cbn -[frame lit].
  auto.
Qed.

Lemma store_full buf data :
  (length buf <= length data)%nat -> store buf data = data.
Proof.
  intros H. unfold store. rewrite skipn_all2 by exact H. apply app_nil_r.
Qed.

(** client.c: a full record equal to the last accepted one leaves the display
    and the output as they are; any other full record is kept as the last
    one and, in TUI mode, adds exactly one line. *)
Lemma rx_duplicate_guard c m src' :
  rpc c = RxLoop ->
  (length (msg (rx c)) <= length m)%nat ->
  perform_full_read (Some (msg (rx c))) (sock_in (w c)) FRAME_SIZE
  = Some (Z.of_nat FRAME_SIZE, m, src') ->
  (has_last (rx c) = true -> m = last_msg (rx c) ->
   disp (step c T_rx) = disp c /\ out (w (step c T_rx)) = out (w c)
   /\ last_msg (rx (step c T_rx)) = m)
  /\ (has_last (rx c) = false \/ m <> last_msg (rx c) ->
      last_msg (rx (step c T_rx)) = m /\ has_last (rx (step c T_rx)) = true
      /\ (g_tui_enabled c = true ->
          exists tb usr k,
            disp (step c T_rx) = tui_add_line (disp c) tb usr (Wire.message m) k)).
Proof.
  intros Hpc Hlen Hread. cbn [step]. rewrite Hpc. unfold rx_iter.
  rewrite Hread. cbv beta iota. cbn [rx set_w]. rewrite (store_full _ _ Hlen).
  change (Z.of_nat FRAME_SIZE =? 0) with false.
  change (Z.of_nat FRAME_SIZE <? 0) with false. cbv beta iota.
  cbn [rx set_rx set_w has_last msg last_msg].
  split.
  - intros Hhas Heq. rewrite Hhas.
    rewrite (proj2 (CStrFacts.bytes_eqb_eq m (last_msg (rx c))) Heq).
    cbn [andb]. unfold rx_again. destruct (running _); cbn; auto.
  - intros Hnew.
    assert (Hg : has_last (rx c) && bytes_eqb m (last_msg (rx c)) = false).
    { destruct Hnew as [->|Hne]; [reflexivity|].
      apply andb_false_iff. right. apply not_true_is_false.
      intros E. apply CStrFacts.bytes_eqb_eq in E. contradiction. }
    rewrite Hg. unfold rx_show, rx_again. cbn [rx set_rx msg g_tui_enabled w].
    split; [split_tests; reflexivity|]. split; [split_tests; reflexivity|].
    intros Htui.
    change (g_tui_enabled (set_w c (with_sock_in (w c) src')))
      with (g_tui_enabled c).
    rewrite Htui.
    split_tests; eexists _, _, _; reflexivity.
Qed.

End ClientFacts.

(** * Where the variants part ways *)

Module VariantFacts.
Import CStr Wire Transport Display Env Scenarios.

(** C1, on the code.  client.c (as clientAi.c) writes its LOGOUT record
    after a server-sent DISCONNECT too: the run below ends because the
    receive thread took the DISCONNECT record, and the records handed to the
    socket are the LOGIN and a LOGOUT.  clientOp.c, on the same server,
    writes the LOGIN only. *)
Theorem logout_after_server_disconnect :
  map kind (g_lines (Client.disp tui_server_disconnect))
  = [13; 13; 13; 13; 13; 13; 13; DISCONNECT]
  /\ Client.pc tui_server_disconnect = Exited
  /\ Client.sent_types tui_server_disconnect = [LOGIN; LOGOUT]
  /\ ClientOp.got_disconnect op_server_disconnect = true
  /\ ClientOp.pc op_server_disconnect = Exited
  /\ ClientOp.sent_types op_server_disconnect = [LOGIN].
Proof. vm_compute. repeat split. Qed.

(** C3, on the code.  client.c (as clientAi.c) takes a read of 11 bytes for
    a record: the bytes are decoded over the zeroed buffer and shown as a
    message of "bob", and [running] stays set until the next read finds the
    close.  clientOp.c, on the same server, reports the short read and
    clears [running]. *)
Theorem short_read_shown_as_frame :
  map (fun l => (username l, text l, kind l))
      (skipn 1 (g_lines (Client.disp tui_short_read)))
  = [(lit "bob", [], MESSAGE_RECV)]
  /\ Client.running tui_short_read = true
  /\ Client.rpc tui_short_read = RxLoop
  /\ out (ClientOp.w op_short_read) = [OutError (lit "protocol short read")]
  /\ ClientOp.running op_short_read = false.
Proof. vm_compute. repeat split. Qed.

(** C4, on the code.  client.c (as clientAi.c) in line mode cuts a line of
    1024 letters to 1023 before it validates it, so that the test for a
    message that is too long never fires: the cut message is written and no
    error is reported.  clientOp.c rejects the same line. *)
Theorem long_line_sent_truncated :
  Client.sent_types line_long_message = [LOGIN; MESSAGE_SENT]
  /\ map (fun f => strlen (Wire.message f)) (sock_out (Client.w line_long_message))
     = [0; 1023]
  /\ out (Client.w line_long_message) = []
  /\ ClientOp.sent_types op_long_message = [LOGIN]
  /\ out (ClientOp.w op_long_message) = [OutError (lit "message too long")]
  /\ ClientOp.pc op_long_message = LineLoop.
Proof. vm_compute. repeat split. Qed.

(** C5, on the code.  clientOp.c has no duplicate guard: the same record
    received twice is printed twice.  client.c (as clientAi.c) prints it
    once in line mode and adds one line for it in TUI mode. *)
Theorem duplicate_printed_twice :
  out (ClientOp.w op_duplicate)
  = [OutMsg (lit "12:00:00") (lit "bob") (lit "hello");
     OutMsg (lit "12:00:00") (lit "bob") (lit "hello")]
  /\ skipn 1 (out (Client.w line_duplicate))
     = [OutMsg (lit "12:00:00") (lit "bob") (lit "hello")]
  /\ map (fun l => (username l, text l, kind l))
         (skipn 1 (g_lines (Client.disp tui_duplicate)))
     = [(lit "bob", lit "hello", MESSAGE_RECV)].
Proof. vm_compute. repeat split. Qed.

(** C9, on the code.  client.c reads the two bytes after ESC and no more:
    of the page-up key, ESC [ 5 ~, the tilde is left for the next turn of
    the input loop, which puts it in the edit buffer, and the ENTER after
    it sends it.  clientAi.c, at the same keys, reads the tilde in its ESC
    handler and leaves the edit buffer empty. *)
Theorem page_up_inserts_tilde :
  Client.g_input (Client.ed Keys.tui_page_up) = lit "~"
  /\ term_in (Client.w Keys.tui_page_up) = [Some x0d]
  /\ map (fun f => (m_type f, c_str (Wire.message f)))
         (sock_out (Client.w Keys.tui_page_up_sent))
     = [(LOGIN, []); (MESSAGE_SENT, lit "~")]
  /\ Client.g_input (Client.ed Keys.ai_page_up) = []
  /\ term_in (Client.w Keys.ai_page_up) = [Some x0d].
Proof. vm_compute. repeat split. Qed.

End VariantFacts.

(** * Further properties of the code *)

(** ** The wire record, built and read back *)

Module CodecFacts.
Import CStr Wire.

Lemma uchar_byte_of_Z z : uchar (byte_of_Z z) = z mod 256.
Proof.
  unfold uchar, byte_of_Z.
  assert (Hr : 0 <= z mod 256 < 256) by (apply Z.mod_pos_bound; lia).
  destruct (Byte.of_N (Z.to_N (z mod 256))) as [b|] eqn:E.
  - apply Byte.to_of_N in E. rewrite E. lia.
  - apply Byte.of_N_None_iff in E. lia.
Qed.

Lemma ntohl_htonl v : 0 <= v < 4294967296 -> ntohl (htonl v) = v.
Proof.
  intros Hv. unfold ntohl, htonl. cbn [firstn fold_left].
  rewrite !uchar_byte_of_Z.
  Z.to_euclidean_division_equations. lia.
Qed.

Lemma pad_length s n : (length s <= n)%nat -> length (pad s n) = n.
Proof. intros H. unfold pad. rewrite length_app, repeat_length. lia. Qed.

Lemma c_str_app_nul s rest : nul_free s -> c_str (s ++ x00 :: rest) = s.
Proof.
  induction 1 as [|ch s Hch _ IH]; cbn; [reflexivity|].
  destruct (Byte.eqb ch x00) eqn:E.
  - apply Byte.byte_dec_bl in E. contradiction.
  - now rewrite IH.
Qed.

(** A field that was zeroed and filled by [strncpy] with room for the
    terminator reads back as the copied string. *)
Lemma c_str_pad s n m :
  (m < n)%nat -> c_str (pad (strncpy s m) n) = strncpy s m.
Proof.
  intros Hm. unfold pad.
  pose proof (CStrFacts.strncpy_length s m) as Hl.
  destruct (n - length (strncpy s m))%nat as [|k] eqn:E; [lia|].
  cbn [repeat]. apply c_str_app_nul.
  unfold strncpy.
  assert (Hn : nul_free (c_str s)) by apply CStrFacts.c_str_is_nul_free.
  revert Hn. generalize (c_str s). clear. intros l. revert l.
  induction m as [|m IH]; intros l H; cbn; [constructor|].
  destruct H; constructor; [assumption|now apply IH].
Qed.

Lemma field_0 a rest n : length a = n -> field (a ++ rest) 0 n = a.
Proof.
  intros <-. unfold field. cbn [skipn]. rewrite firstn_app, firstn_all.
  rewrite Nat.sub_diag. cbn. apply app_nil_r.
Qed.

Lemma field_skip a rest off len :
  length a = off -> field (a ++ rest) off len = field rest 0 len.
Proof.
  intros <-. unfold field. rewrite skipn_app, skipn_all, Nat.sub_diag. reflexivity.
Qed.

(** The layout of a record: its four fields, in order, at their offsets. *)
Lemma record_fields w1 w2 usr txt :
  let r := htonl w1 ++ htonl w2 ++ pad (strncpy usr 31) 32 ++ pad (strncpy txt 1023) 1024 in
  length r = FRAME_SIZE
  /\ field r 0 4 = htonl w1
  /\ field r 4 4 = htonl w2
  /\ Wire.username r = pad (strncpy usr 31) 32
  /\ Wire.message r = pad (strncpy txt 1023) 1024.
Proof.
  intros r. subst r.
  pose proof (CStrFacts.strncpy_length usr 31) as Hu.
  pose proof (CStrFacts.strncpy_length txt 1023) as Ht.
  assert (Lu : length (pad (strncpy usr 31) 32) = 32%nat) by (apply pad_length; lia).
  assert (Lt : length (pad (strncpy txt 1023) 1024) = 1024%nat) by (apply pad_length; lia).
  assert (L4 : forall v, length (htonl v) = 4%nat) by reflexivity.
  split; [rewrite !length_app, !L4, Lu, Lt; reflexivity|].
  split; [apply field_0, L4|].
  split; [rewrite (field_skip _ _ 4 4) by apply L4; apply field_0, L4|].
  unfold Wire.username, Wire.message. split.
  - rewrite app_assoc, (field_skip _ _ 8 32) by (rewrite length_app, !L4; reflexivity).
    apply field_0, Lu.
  - rewrite app_assoc, app_assoc, (field_skip _ _ 40 1024)
      by (rewrite !length_app, !L4, Lu; reflexivity).
    rewrite <- (app_nil_r (pad (strncpy txt 1023) 1024)) at 1.
    apply field_0, Lt.
Qed.

(** What the receive loops read from a record with the given words and
    strings. *)
Lemma record_decodes ty ts usr txt :
  0 <= ty < 4294967296 -> 0 <= ts < 4294967296 ->
  length (server_frame ty ts usr txt) = FRAME_SIZE
  /\ m_type (server_frame ty ts usr txt) = ty
  /\ timeStamp (server_frame ty ts usr txt) = ts
  /\ c_str (Wire.username (server_frame ty ts usr txt)) = strncpy usr 31
  /\ c_str (Wire.message (server_frame ty ts usr txt)) = strncpy txt 1023.
Proof.
  intros Hty Hts. unfold server_frame, m_type, timeStamp.
  destruct (record_fields ty ts usr txt) as (Hl & H1 & H2 & H3 & H4).
  cbv zeta in Hl, H1, H2, H3, H4.
  rewrite Hl, H1, H2, H3, H4, !ntohl_htonl by assumption.
  rewrite !c_str_pad by lia. auto.
Qed.

(** X1.  A record built the way the clients build their LOGIN, LOGOUT and
    MESSAGE_SEND records (zeroed, the type in network order, the strings
    copied with [strncpy] one short of the field) always has the size of
    [message_t], and the receive side's decoding gives back the type, a zero
    timestamp, and the two strings cut to 31 and 1023 bytes. *)
Theorem frame_round_trip (ty : Z) (usr txt : list byte) :
  0 <= ty < 4294967296 ->
  length (frame ty usr txt) = FRAME_SIZE
  /\ m_type (frame ty usr txt) = ty
  /\ timeStamp (frame ty usr txt) = 0
  /\ c_str (Wire.username (frame ty usr txt)) = strncpy usr 31
  /\ c_str (Wire.message (frame ty usr txt)) = strncpy txt 1023.
Proof.
  intros Hty. apply (record_decodes ty 0 usr txt); [exact Hty|lia].
Qed.

Lemma frame_round_trip_witness :
  0 <= MESSAGE_SENT < 4294967296
  /\ m_type (frame MESSAGE_SENT [] (lit "hello world")) = MESSAGE_SENT
  /\ c_str (Wire.message (frame MESSAGE_SENT [] (lit "hello world")))
     = strncpy (lit "hello world") 1023.
Proof.
  assert (H : 0 <= MESSAGE_SENT < 4294967296) by (unfold MESSAGE_SENT; lia).
  destruct (frame_round_trip MESSAGE_SENT [] (lit "hello world") H)
    as (_ & Hm & _ & _ & Ht).
  split; [exact H|]. split; [exact Hm|exact Ht].
Defined.

End CodecFacts.

(** ** The full-write primitive *)

Module TransportOutFacts.
Import CStr TransportOut.

Lemma firstn_add_skipn {A} (l : list A) : forall a b,
  firstn (a + b) l = firstn a l ++ firstn b (skipn a l).
Proof.
  induction l as [|x l IH]; intros a b.
  - now rewrite skipn_nil, !firstn_nil.
  - destruct a as [|a]; cbn; [reflexivity|]. now rewrite IH.
Qed.

(** The loop from any point of its run: what reached the socket is always a
    prefix of the buffer. *)
Lemma full_write_loop_spec buf n snk : forall fuel off wire,
  (off <= n <= length buf)%nat ->
  wire = firstn off buf ->
  (length snk + 2 <= fuel)%nat ->
  exists r wire' snk',
    full_write_loop fuel snk buf n off wire = Some (r, wire', snk')
    /\ (r = 0 \/ r = -1)
    /\ (exists k, (off <= k <= n)%nat /\ wire' = firstn k buf)
    /\ (r = 0 -> wire' = firstn n buf)
    /\ (willing snk -> r = 0).
Proof.
  assert (Hdone : forall fuel snk0 off wire,
             (n <= off)%nat -> (off <= n)%nat -> wire = firstn off buf ->
             (1 <= fuel)%nat ->
             exists r wire' snk',
               full_write_loop fuel snk0 buf n off wire = Some (r, wire', snk')
               /\ (r = 0 \/ r = -1)
               /\ (exists k, (off <= k <= n)%nat /\ wire' = firstn k buf)
               /\ (r = 0 -> wire' = firstn n buf)
               /\ (willing snk0 -> r = 0)).
  { intros fuel snk0 off wire H1 H2 Hw Hf.
    destruct fuel as [|fuel]; [lia|]. cbn [full_write_loop].
    destruct (Nat.ltb_spec off n); [lia|].
    exists 0, wire, snk0. split; [reflexivity|]. split; [auto|].
    split; [exists off; split; [lia|exact Hw]|].
    split; [intros _; rewrite Hw; f_equal; lia|auto]. }
  induction snk as [|ev rest IH]; intros fuel off wire Hoff Hw Hfuel;
    (destruct (Nat.le_gt_cases n off) as [Hge|Hlt];
     [apply Hdone; try assumption; lia|]);
    (destruct fuel as [|fuel]; [simpl in Hfuel; lia|]);
    cbn [full_write_loop]; (destruct (Nat.ltb_spec off n); [|lia]).
  - (* the sink takes all that is left *)
    cbn [sys_write_raw].
    destruct (n - off)%nat as [|w] eqn:E; [lia|].
    destruct (Hdone fuel (@nil write_event) (off + S w)%nat
                (wire ++ firstn (S w) (skipn off buf)))
      as (r & wire' & snk' & Heq & Hr & (k & Hk & Hpre) & Hall & Hwill);
      [lia | lia | rewrite firstn_add_skipn; now subst wire | simpl in Hfuel; lia |].
    exists r, wire', snk'. split; [exact Heq|]. split; [exact Hr|].
    split; [exists k; split; [lia|exact Hpre]|]. split; assumption.
  - destruct ev as [k| |]; cbn [sys_write_raw].
    + (* the sink takes up to [k] bytes *)
      destruct (Nat.min k (n - off)) as [|w] eqn:E.
      * exists (-1), wire, rest. split; [reflexivity|]. split; [auto|].
        split; [exists off; split; [lia|exact Hw]|].
        split; [intros; lia|].
        intros Hwill. inversion Hwill as [|? ? [_ Hk] _]; subst.
        destruct k; [now contradiction Hk|lia].
      * destruct (IH fuel (off + S w)%nat (wire ++ firstn (S w) (skipn off buf)))
          as (r & wire' & snk' & Heq & Hr & (j & Hj & Hpre) & Hall & Hwill);
          [lia | rewrite firstn_add_skipn; now subst wire | simpl in Hfuel; lia |].
        exists r, wire', snk'. split; [exact Heq|]. split; [exact Hr|].
        split; [exists j; split; [lia|exact Hpre]|]. split; [exact Hall|].
        intros Hw'. apply Hwill. now inversion Hw'.
    + (* interrupted: the same write again *)
      destruct (IH fuel off wire) as (r & wire' & snk' & Heq & Hr & Hpre & Hall & Hwill);
        [lia | exact Hw | simpl in Hfuel; lia |].
      exists r, wire', snk'. split; [exact Heq|]. split; [exact Hr|].
      split; [exact Hpre|]. split; [exact Hall|].
      intros Hw'. apply Hwill. now inversion Hw'.
    + (* failed *)
      exists (-1), wire, rest. split; [reflexivity|]. split; [auto|].
      split; [exists off; split; [lia|exact Hw]|].
      split; [intros; lia|].
      intros Hwill. inversion Hwill as [|? ? [Hk _] _]; subst. now contradiction Hk.
Qed.



End TransportOutFacts.

(** ** Bounds kept by every run of client.c *)

Module BoundsFacts.
Import CStr Wire Transport Display Env Client Bounds ClientFacts.

(** *** The history *)

Lemma no_repeat_tail a h : no_repeat (a :: h) -> no_repeat h.
Proof. destruct h; cbn; tauto. Qed.

Lemma no_repeat_skipn n : forall h, no_repeat h -> no_repeat (skipn n h).
Proof.
  induction n as [|n IH]; intros h H; [exact H|].
  destruct h as [|a h]; [exact H|]. cbn [skipn]. apply IH.
  now apply no_repeat_tail in H.
Qed.

Lemma no_repeat_snoc h x :
  no_repeat h -> (h <> [] -> last h [] <> x) -> no_repeat (h ++ [x]).
Proof.
  induction h as [|a h IH]; intros Hn Hl; [exact I|].
  destruct h as [|b h].
  - cbn. split; [|exact I]. apply Hl. discriminate.
  - destruct Hn as [Hab Hn]. change (a <> b /\ no_repeat ((b :: h) ++ [x])).
    split; [exact Hab|]. apply IH; [exact Hn|].
    intros _. apply Hl. discriminate.
Qed.

Lemma last_skipn1 {A} (l : list A) d :
  (2 <= length l)%nat -> last (skipn 1 l) d = last l d.
Proof.
  destruct l as [|a [|b l]]; intros H; try (cbn in H; lia). reflexivity.
Qed.

(** A string of printable bytes that fits the edit buffer is stored as it
    is. *)
Lemma strncpy_fits s :
  all_printable s -> (length s <= 1023)%nat -> strncpy s 1023 = s.
Proof.
  intros Hp Hl. unfold strncpy.
  rewrite (CStrFacts.c_str_nul_free s) by now apply printable_nul_free.
  now apply firstn_all2.
Qed.

(** [tui_hist_push] on a text of the edit buffer. *)
Lemma hist_push_bounds hist s :
  Forall all_printable hist -> all_printable s -> (length s <= 1023)%nat ->
  (length hist <= HIST_MAX)%nat -> no_repeat hist ->
  (length (tui_hist_push hist s) <= HIST_MAX)%nat
  /\ no_repeat (tui_hist_push hist s).
Proof.
  intros Hh Hs Hl Hmax Hn. unfold tui_hist_push.
  destruct (c_str s) eqn:Ec; [auto|]. clear Ec.
  destruct ((0 <? length hist)%nat && str_eq (last hist []) s) eqn:Edup; [auto|].
  assert (Hnew : hist <> [] -> last hist [] <> strncpy s 1023).
  { intros Hne Heq. rewrite (strncpy_fits s Hs Hl) in Heq.
    apply andb_false_iff in Edup. destruct Edup as [E|E].
    - apply Nat.ltb_ge in E. destruct hist; [congruence|cbn in E; lia].
    - unfold str_eq in E. rewrite Heq in E.
      assert (bytes_eqb (c_str s) (c_str s) = true)
        by now apply CStrFacts.bytes_eqb_eq.
      congruence. }
  destruct (Nat.ltb_spec (length hist) HIST_MAX) as [Hlt|Hge].
  - split; [rewrite length_app; cbn [length]; lia|]. now apply no_repeat_snoc.
  - assert (Hfull : length hist = HIST_MAX) by lia.
    assert (Hcut : firstn (HIST_MAX - 1) (skipn 1 hist) = skipn 1 hist).
    { apply firstn_all2. rewrite length_skipn. lia. }
    rewrite Hcut. split.
    + rewrite length_app, length_skipn. cbn [length]. unfold HIST_MAX in *. lia.
    + apply no_repeat_snoc; [now apply no_repeat_skipn|].
      intros _. rewrite last_skipn1 by (unfold HIST_MAX in Hfull; lia).
      apply Hnew. intros ->. unfold HIST_MAX in Hfull. discriminate.
Qed.

(** What ENTER does to the edit state: nothing (empty buffer); or the buffer
    is cleared and the cursor stays or goes past the end of the unchanged
    history; or the buffer is cleared, its text pushed, and the cursor put
    past the end. *)
Lemma on_enter_ed c :
  ed (on_enter c) = ed c
  \/ (exists i,
        ed (on_enter c) = {| g_input := []; g_send_hist := g_send_hist (ed c);
                             hist_idx := i |}
        /\ (i = hist_idx (ed c) \/ i = g_send_hist_len (ed c)))
  \/ ed (on_enter c)
     = {| g_input := [];
          g_send_hist := tui_hist_push (g_send_hist (ed c)) (g_input (ed c));
          hist_idx := Z.of_nat (length (tui_hist_push (g_send_hist (ed c))
                                                     (g_input (ed c)))) |}.
Proof.
  unfold on_enter.
  destruct (g_input_len (ed c) =? 0); [left; reflexivity|].
  destruct (is_local_command (g_input (ed c))).
  - right. left. cbn -[lit]. rewrite ed_run_local_command.
    eexists. split; [reflexivity|]. right. reflexivity.
  - unfold sys_write. split_tests;
      repeat match goal with
        | |- context [pop ?l] => destruct (pop l) as [[[|]|] ?]; cbv beta iota
        end;
      cbn -[lit frame tui_hist_push tui_add_line];
      first [ right; right; reflexivity
            | right; left; eexists; split; [reflexivity|left; reflexivity] ].
Qed.

Lemma on_enter_hist_ok c :
  edit_ok (ed c) -> hist_ok (ed c) -> hist_ok (ed (on_enter c)).
Proof.
  intros (Hi & Hh & Hl) (Hmax & Hidx & Hn).
  destruct (on_enter_ed c) as [->|[(i & -> & Hcase)| ->]].
  - exact (conj Hmax (conj Hidx Hn)).
  - unfold hist_ok, g_send_hist_len in *. cbn [g_send_hist hist_idx].
    repeat split; try assumption; destruct Hcase; subst; lia.
  - destruct (hist_push_bounds _ _ Hh Hi Hl Hmax Hn) as [Hb Hr].
    unfold hist_ok, g_send_hist_len. cbn [g_send_hist hist_idx].
    repeat split; try assumption; lia.
Qed.

Lemma on_up_hist c :
  g_send_hist (ed (on_up c)) = g_send_hist (ed c)
  /\ (0 <= hist_idx (ed c) <= g_send_hist_len (ed c) ->
      0 <= hist_idx (ed (on_up c)) <= g_send_hist_len (ed c)).
Proof.
  unfold on_up.
  destruct (g_input_len (ed c) =? 0); [split; [reflexivity|auto]|].
  destruct (g_send_hist_len (ed c) >? 0); cbn [andb];
    [destruct (Z.gtb_spec (hist_idx (ed c)) 0)|];
    cbv beta iota;
    match goal with
    | |- context [if ?b then _ else _] => destruct b
    end;
    (split; [reflexivity|cbn -[Z.sub]; unfold g_send_hist_len in *; lia]).
Qed.

Lemma on_down_hist c :
  g_send_hist (ed (on_down c)) = g_send_hist (ed c)
  /\ (0 <= hist_idx (ed c) <= g_send_hist_len (ed c) ->
      0 <= hist_idx (ed (on_down c)) <= g_send_hist_len (ed c)).
Proof.
  unfold on_down.
  destruct (g_input_len (ed c) =? 0);
    [destruct (g_scroll (disp c) >? 0); split; [reflexivity|auto|reflexivity|auto]|].
  destruct (Z.ltb_spec (hist_idx (ed c)) (g_send_hist_len (ed c)));
    cbv beta iota;
    repeat match goal with
      | |- context [if ?b then _ else _] =>
          lazymatch b with
          | context [if _ then _ else _] => fail
          | _ => destruct b; cbv beta iota
          end
      end;
    (split; [reflexivity|cbn -[Z.add]; unfold g_send_hist_len in *; lia]).
Qed.

Lemma hist_ok_same e e' :
  g_send_hist e' = g_send_hist e ->
  0 <= hist_idx e' <= g_send_hist_len e ->
  hist_ok e -> hist_ok e'.
Proof.
  intros Hh Hi (Hmax & _ & Hn). unfold hist_ok, g_send_hist_len in *.
  rewrite Hh. repeat split; try assumption; lia.
Qed.

Lemma on_escape_hist_ok c : hist_ok (ed c) -> hist_ok (ed (on_escape c)).
Proof.
  intros Hok. unfold on_escape.
  destruct (read_key c) as [[s1|] c1] eqn:E1;
    (assert (Hc1 : ed c1 = ed c)
       by (change c1 with (snd (Some s1, c1)) || change c1 with (snd (@None byte, c1));
           rewrite <- E1; apply ed_read_key));
    [|now rewrite Hc1].
  destruct (read_key c1) as [[s2|] c2] eqn:E2;
    (assert (Hc2 : ed c2 = ed c)
       by (rewrite <- Hc1;
           change c2 with (snd (Some s2, c2)) || change c2 with (snd (@None byte, c2));
           rewrite <- E2; apply ed_read_key));
    [|now rewrite Hc2].
  rewrite <- Hc2 in Hok. pose proof Hok as (_ & Hidx & _).
  split_tests; try assumption.
  - destruct (on_up_hist c2) as [Hh Hi].
    apply (hist_ok_same (ed c2)); [exact Hh|now apply Hi|exact Hok].
  - destruct (on_down_hist c2) as [Hh Hi].
    apply (hist_ok_same (ed c2)); [exact Hh|now apply Hi|exact Hok].
Qed.

Lemma on_key_hist_ok c k :
  edit_ok (ed c) -> hist_ok (ed c) -> hist_ok (ed (on_key c k)).
Proof.
  intros He Hok. pose proof Hok as (_ & Hidx & _). unfold on_key.
  destruct (_ || _); [now apply on_enter_hist_ok|].
  destruct (_ || _).
  { destruct (_ >? _); [|exact Hok].
    apply (hist_ok_same (ed c)); [reflexivity|exact Hidx|exact Hok]. }
  destruct (uchar k =? 27); [now apply on_escape_hist_ok|].
  destruct (_ && _); [|exact Hok].
  destruct (_ <? _); [|exact Hok].
  apply (hist_ok_same (ed c)); [reflexivity|exact Hidx|exact Hok].
Qed.

Lemma ui_iter_hist_ok c :
  edit_ok (ed c) -> hist_ok (ed c) -> hist_ok (ed (ui_iter c)).
Proof.
  intros He Hok. unfold ui_iter.
  destruct (negb (running c)); [now rewrite ed_main_cleanup|].
  set (c0 := if g_tui_dirty (disp c) then _ else c).
  assert (H0 : ed c0 = ed c) by (subst c0; destruct (g_tui_dirty _); reflexivity).
  destruct (read_key c0) as [[k|] c1] eqn:E1;
    (assert (Hc1 : ed c1 = ed c)
       by (rewrite <- H0;
           change c1 with (snd (Some k, c1)) || change c1 with (snd (@None byte, c1));
           rewrite <- E1; apply ed_read_key));
    rewrite <- Hc1 in He, Hok; [now apply on_key_hist_ok|exact Hok].
Qed.

Lemma leave_menu_hist_ok c : hist_ok (ed c) -> hist_ok (ed (leave_menu c)).
Proof.
  intros Hok. pose proof Hok as (Hmax & Hidx & Hn). unfold leave_menu.
  destruct (negb (running c)); [now rewrite ed_main_cleanup|].
  cbn -[lit boot_lines]. rewrite ed_boot_lines.
  apply (hist_ok_same (ed c)); [reflexivity| |exact Hok].
  cbn [hist_idx]. unfold g_send_hist_len in *. lia.
Qed.

Lemma menu_iter_hist_ok c : hist_ok (ed c) -> hist_ok (ed (menu_iter c)).
Proof.
  intros Hok. unfold menu_iter.
  destruct (negb _); [now apply leave_menu_hist_ok|].
  destruct (read_key c) as [[k|] c1] eqn:E1;
    (assert (Hc1 : ed c1 = ed c)
       by (change c1 with (snd (Some k, c1)) || change c1 with (snd (@None byte, c1));
           rewrite <- E1; apply ed_read_key));
    rewrite <- Hc1 in Hok; [|exact Hok].
  split_tests; try exact Hok; apply leave_menu_hist_ok; exact Hok.
Qed.

Lemma step_hist_ok c t :
  edit_ok (ed c) -> hist_ok (ed c) -> hist_ok (ed (step c t)).
Proof.
  intros He Hok. destruct t; unfold step.
  - destruct (pc c); try exact Hok.
    + now apply menu_iter_hist_ok.
    + now apply ui_iter_hist_ok.
    + now rewrite ed_line_iter.
  - destruct (rpc c); try exact Hok.
    + now rewrite ed_rx_start.
    + now rewrite ed_rx_iter.
  - exact Hok.
  - now rewrite ed_quote_iter.
Qed.

Lemma boot_hist_ok tui mode name x : hist_ok (ed (boot tui mode name x)).
Proof.
  unfold boot, sys_write. destruct (pop (write_ok _)) as [[[|]|] rest];
    cbv beta iota;
    (split; [cbn; unfold HIST_MAX; lia|]); (split; [cbn; lia|exact I]).
Qed.

Lemma run_hist_ok sched : forall c,
  edit_ok (ed c) -> hist_ok (ed c) -> hist_ok (ed (run c sched)).
Proof.
  induction sched as [|t sched IH]; intros c He Hok; [exact Hok|].
  cbn [run fold_left]. fold (run (step c t) sched).
  apply IH; [now apply step_ok|now apply step_hist_ok].
Qed.

(** *** The display buffer *)

Lemma disp_ok_add d tb usr txt k :
  disp_ok d -> disp_ok (tui_add_line d tb usr txt k).
Proof.
  intros [Hl Hs]. split; cbn [tui_add_line g_lines g_scroll].
  - apply DisplayFacts.tui_add_line_locked_bound.
  - destruct (0 <? g_scroll d); lia.
Qed.

Lemma disp_ok_dirty d : disp_ok d -> disp_ok (tui_set_dirty d).
Proof. intros H. exact H. Qed.

Lemma disp_ok_clear d : disp_ok d -> disp_ok (clear_dirty d).
Proof. intros H. exact H. Qed.

Lemma disp_ok_scroll d s : 0 <= s -> disp_ok d -> disp_ok (set_scroll d s).
Proof. intros Hs [Hl _]. split; assumption. Qed.

(** The display of a state built by the setters, and the bound on it. *)
Ltac disp_solve :=
  cbn [disp add_line dirty print set_disp set_running set_shutdown_requested
       set_g_ui_mode set_g_show_start_menu set_ed set_rx set_pc set_rpc set_w
       set_input set_hist set_hist_idx tui_input_clear tui_input_set];
  repeat first [ assumption
               | apply disp_ok_add
               | apply disp_ok_dirty
               | apply disp_ok_clear ].

Lemma disp_sys_write c m : disp (snd (sys_write c m)) = disp c.
Proof. unfold sys_write. destruct (pop (write_ok (w c))). reflexivity. Qed.

Lemma disp_read_key c : disp (snd (read_key c)) = disp c.
Proof. unfold read_key. destruct (pop (term_in (w c))). reflexivity. Qed.

Lemma run_local_command_disp_ok c s :
  disp_ok (disp c) -> disp_ok (disp (run_local_command c s)).
Proof. intros H. unfold run_local_command. split_tests; disp_solve. Qed.

Lemma main_cleanup_disp c : disp (main_cleanup c) = disp c.
Proof.
  unfold main_cleanup, sys_write.
  destruct (pop (write_ok (w (set_running c false)))). reflexivity.
Qed.

Lemma on_enter_disp_ok c : disp_ok (disp c) -> disp_ok (disp (on_enter c)).
Proof.
  intros H. unfold on_enter.
  destruct (g_input_len (ed c) =? 0); [disp_solve|].
  destruct (is_local_command (g_input (ed c))).
  - disp_solve. now apply run_local_command_disp_ok.
  - unfold sys_write. split_tests;
      repeat match goal with
        | |- context [pop ?l] => destruct (pop l) as [[[|]|] ?]; cbv beta iota
        end;
      disp_solve.
Qed.

Lemma on_up_disp_ok c : disp_ok (disp c) -> disp_ok (disp (on_up c)).
Proof.
  intros H. pose proof H as [_ Hs]. unfold on_up.
  split_tests; disp_solve. apply disp_ok_scroll; [lia|exact H].
Qed.

Lemma on_down_disp_ok c : disp_ok (disp c) -> disp_ok (disp (on_down c)).
Proof.
  intros H. unfold on_down.
  destruct (g_input_len (ed c) =? 0).
  - destruct (Z.gtb_spec (g_scroll (disp c)) 0); disp_solve.
    apply disp_ok_scroll; [lia|exact H].
  - split_tests; disp_solve.
Qed.

Lemma on_escape_disp_ok c : disp_ok (disp c) -> disp_ok (disp (on_escape c)).
Proof.
  intros Hok. unfold on_escape.
  destruct (read_key c) as [[s1|] c1] eqn:E1;
    (assert (Hc1 : disp c1 = disp c)
       by (change c1 with (snd (Some s1, c1)) || change c1 with (snd (@None byte, c1));
           rewrite <- E1; apply disp_read_key));
    [|now rewrite Hc1].
  destruct (read_key c1) as [[s2|] c2] eqn:E2;
    (assert (Hc2 : disp c2 = disp c)
       by (rewrite <- Hc1;
           change c2 with (snd (Some s2, c2)) || change c2 with (snd (@None byte, c2));
           rewrite <- E2; apply disp_read_key));
    [|now rewrite Hc2].
  rewrite <- Hc2 in Hok.
  split_tests; try assumption; [now apply on_up_disp_ok|now apply on_down_disp_ok].
Qed.

Lemma on_key_disp_ok c k : disp_ok (disp c) -> disp_ok (disp (on_key c k)).
Proof.
  intros H. unfold on_key.
  destruct (_ || _); [now apply on_enter_disp_ok|].
  destruct (_ || _); [destruct (_ >? _); disp_solve|].
  destruct (uchar k =? 27); [now apply on_escape_disp_ok|].
  split_tests; disp_solve.
Qed.

Lemma ui_iter_disp_ok c : disp_ok (disp c) -> disp_ok (disp (ui_iter c)).
Proof.
  intros H. unfold ui_iter.
  destruct (negb (running c)); [now rewrite main_cleanup_disp|].
  set (c0 := if g_tui_dirty (disp c) then _ else c).
  assert (H0 : disp_ok (disp c0))
    by (subst c0; destruct (g_tui_dirty _); disp_solve).
  clearbody c0.
  destruct (read_key c0) as [[k|] c1] eqn:E1;
    (assert (Hc1 : disp c1 = disp c0)
       by (change c1 with (snd (Some k, c1)) || change c1 with (snd (@None byte, c1));
           rewrite <- E1; apply disp_read_key));
    rewrite <- Hc1 in H0; [now apply on_key_disp_ok|exact H0].
Qed.

Lemma boot_lines_disp_ok c : disp_ok (disp c) -> disp_ok (disp (boot_lines c)).
Proof. intros H. unfold boot_lines. destruct (g_ui_mode c); disp_solve. Qed.

Lemma leave_menu_disp_ok c : disp_ok (disp c) -> disp_ok (disp (leave_menu c)).
Proof.
  intros H. unfold leave_menu.
  destruct (negb (running c)); [now rewrite main_cleanup_disp|].
  disp_solve. now apply boot_lines_disp_ok.
Qed.

Lemma menu_iter_disp_ok c : disp_ok (disp c) -> disp_ok (disp (menu_iter c)).
Proof.
  intros H. unfold menu_iter.
  destruct (negb _); [now apply leave_menu_disp_ok|].
  destruct (read_key c) as [[k|] c1] eqn:E1;
    (assert (Hc1 : disp c1 = disp c)
       by (change c1 with (snd (Some k, c1)) || change c1 with (snd (@None byte, c1));
           rewrite <- E1; apply disp_read_key));
    rewrite <- Hc1 in H; [|exact H].
  split_tests; try exact H; apply leave_menu_disp_ok; disp_solve.
Qed.

Lemma line_iter_disp_ok c : disp_ok (disp c) -> disp_ok (disp (line_iter c)).
Proof.
  intros H. unfold line_iter.
  destruct (pop (stdin_in (w c))) as [[[l|]|] rest]; cbv beta iota.
  - destruct (is_local_command (chomp l)).
    + destruct (negb _); [|destruct (running _)];
        rewrite ?main_cleanup_disp; apply run_local_command_disp_ok; disp_solve.
    + unfold sys_write. split_tests;
        repeat match goal with
          | |- context [pop ?l] => destruct (pop l); cbv beta iota
          end;
        split_tests; rewrite ?main_cleanup_disp; disp_solve.
  - split_tests; rewrite ?main_cleanup_disp; disp_solve.
  - rewrite main_cleanup_disp. disp_solve.
Qed.

Lemma rx_show_disp_ok c : disp_ok (disp c) -> disp_ok (disp (rx_show c)).
Proof. intros H. unfold rx_show, rx_again. split_tests; disp_solve. Qed.

Lemma rx_iter_disp_ok c : disp_ok (disp c) -> disp_ok (disp (rx_iter c)).
Proof.
  intros H. unfold rx_iter.
  destruct (perform_full_read _ _ _) as [[[r data] src']|]; [|exact H].
  cbv beta iota.
  destruct (r =? 0); [destruct (g_tui_enabled _); disp_solve|].
  destruct (r <? 0); [destruct (g_tui_enabled _); disp_solve|].
  destruct (_ && _); [unfold rx_again; split_tests; disp_solve|].
  apply rx_show_disp_ok. disp_solve.
Qed.

Lemma rx_start_disp_ok c : disp_ok (disp c) -> disp_ok (disp (rx_start c)).
Proof. intros H. unfold rx_start, rx_again. split_tests; disp_solve. Qed.

Lemma quote_iter_disp_ok c now pick :
  disp_ok (disp c) -> disp_ok (disp (quote_iter c now pick)).
Proof.
  intros H. unfold quote_iter. destruct (negb _); [exact H|].
  destruct (g_ui_mode c); [exact H|]. destruct (_ && _); disp_solve.
Qed.

Lemma step_disp_ok c t : disp_ok (disp c) -> disp_ok (disp (step c t)).
Proof.
  intros H. destruct t; unfold step.
  - destruct (pc c); try exact H.
    + now apply menu_iter_disp_ok.
    + now apply ui_iter_disp_ok.
    + now apply line_iter_disp_ok.
  - destruct (rpc c); try exact H.
    + now apply rx_start_disp_ok.
    + now apply rx_iter_disp_ok.
  - unfold handle_signal. disp_solve.
  - now apply quote_iter_disp_ok.
Qed.

Lemma boot_disp_ok tui mode name x : disp_ok (disp (boot tui mode name x)).
Proof.
  unfold boot, sys_write. destruct (pop (write_ok _)) as [[[|]|] rest];
    cbv beta iota; (split; [cbn; unfold TUI_MAX_LINES; lia|cbn; lia]).
Qed.

Lemma run_disp_ok sched : forall c,
  disp_ok (disp c) -> disp_ok (disp (run c sched)).
Proof.
  induction sched as [|t sched IH]; intros c H; [exact H|].
  cbn [run fold_left]. fold (run (step c t) sched). now apply IH, step_disp_ok.
Qed.

(** *** What the bounds give *)

Lemma hist_push_new hist s b l :
  c_str s = b :: l ->
  (0 <? length hist)%nat && str_eq (last hist []) s = false ->
  (length hist <= HIST_MAX)%nat ->
  tui_hist_push hist s = keep_last HIST_MAX (hist ++ [strncpy s 1023]).
Proof.
  intros Hs Hdup Hmax. unfold tui_hist_push. rewrite Hs, Hdup.
  destruct (Nat.ltb_spec (length hist) HIST_MAX) as [Hlt|Hge].
  - symmetry. apply DisplayFacts.keep_last_short.
    rewrite length_app. cbn [length]. lia.
  - unfold keep_last. rewrite length_app. cbn [length].
    replace (length hist + 1 - HIST_MAX)%nat with 1%nat by lia.
    rewrite skipn_app.
    replace (1 - length hist)%nat with 0%nat by (unfold HIST_MAX in *; lia).
    rewrite skipn_0. f_equal. apply firstn_all2. rewrite length_skipn. lia.
Qed.

(** X3.  [tui_hist_push] on a history that fits its array: the result fits
    it too; an empty string, and a string equal (as [strcmp] has it) to the
    newest entry, leave the history as it is; any other string is stored,
    cut to 1023 bytes, as the newest entry, behind the 63 newest of the
    entries there were when the array is full. *)
Theorem tui_hist_push_spec (hist : list (list byte)) (s : list byte) :
  (length hist <= HIST_MAX)%nat ->
  (length (tui_hist_push hist s) <= HIST_MAX)%nat
  /\ (c_str s = [] -> tui_hist_push hist s = hist)
  /\ (hist <> [] -> c_str (last hist []) = c_str s -> tui_hist_push hist s = hist)
  /\ (c_str s <> [] -> (hist = [] \/ c_str (last hist []) <> c_str s) ->
      tui_hist_push hist s = keep_last HIST_MAX (hist ++ [strncpy s 1023])
      /\ last (tui_hist_push hist s) [] = strncpy s 1023).
Proof.
  intros Hmax.
  assert (Hnew : c_str s <> [] -> (hist = [] \/ c_str (last hist []) <> c_str s) ->
                 tui_hist_push hist s = keep_last HIST_MAX (hist ++ [strncpy s 1023])).
  { intros Hs Hcase. destruct (c_str s) as [|b l] eqn:Es; [congruence|].
    apply (hist_push_new hist s b l Es); [|exact Hmax].
    destruct Hcase as [->|Hne]; [reflexivity|].
    apply andb_false_iff. right. apply not_true_is_false. intros E.
    unfold str_eq in E. apply CStrFacts.bytes_eqb_eq in E.
    rewrite Es in E. contradiction. }
  split; [|split; [|split]].
  - destruct (c_str s) as [|b l] eqn:Es.
    + unfold tui_hist_push. now rewrite Es.
    + destruct ((0 <? length hist)%nat && str_eq (last hist []) s) eqn:Ed.
      * unfold tui_hist_push. now rewrite Es, Ed.
      * rewrite (hist_push_new hist s b l Es Ed Hmax).
        rewrite DisplayFacts.keep_last_length. lia.
  - intros Es. unfold tui_hist_push. now rewrite Es.
  - intros Hne Heq. unfold tui_hist_push.
    destruct (c_str s) eqn:Es; [reflexivity|].
    replace ((0 <? length hist)%nat && str_eq (last hist []) s) with true;
      [reflexivity|].
    symmetry. apply andb_true_iff. split.
    + apply Nat.ltb_lt. destruct hist; [congruence|cbn; lia].
    + unfold str_eq. rewrite Heq, Es. now apply CStrFacts.bytes_eqb_eq.
  - intros Hs Hcase. split; [now apply Hnew|].
    rewrite (Hnew Hs Hcase). unfold keep_last.
    rewrite <- (DisplayFacts.skipn_app_le hist [strncpy s 1023])
      by (rewrite length_app; cbn [length]; unfold HIST_MAX; lia).
    apply last_last.
Qed.

Lemma tui_hist_push_spec_witness :
  (length [lit "a"] <= HIST_MAX)%nat
  /\ tui_hist_push (tui_hist_push (tui_hist_push [] (lit "a")) (lit "a")) (lit "b")
     = [lit "a"; lit "b"]
  /\ tui_hist_push [lit "a"] (lit "a") = [lit "a"]
  /\ last (tui_hist_push [lit "a"] (lit "b")) [] = strncpy (lit "b") 1023.
Proof.
  assert (H : (length [lit "a"] <= HIST_MAX)%nat) by (apply Nat.leb_le; reflexivity).
  split; [exact H|]. split; [reflexivity|].
  destruct (tui_hist_push_spec [lit "a"] (lit "a") H) as (_ & _ & Hdup & _).
  destruct (tui_hist_push_spec [lit "a"] (lit "b") H) as (_ & _ & _ & Hnew).
  split.
  - apply Hdup; [discriminate|reflexivity].
  - apply Hnew; [discriminate|right; discriminate].
Defined.

(** X4.  In every state that a run of client.c reaches, whatever the
    terminal, the socket and the schedule of the threads do, the three
    arrays are within their bounds and their cursors are sound: at most 600
    display lines, at most 1023 bytes in the edit buffer, at most 64 history
    entries, a scroll offset that is not negative, and a history cursor
    between 0 and the number of entries. *)
Theorem bounds_kept (tui : bool) (mode : ui_mode_t) (name : list byte)
    (x : world) (sched : list thread) :
  (length (g_lines (disp (run (boot tui mode name x) sched))) <= TUI_MAX_LINES)%nat
  /\ 0 <= g_scroll (disp (run (boot tui mode name x) sched))
  /\ (length (g_input (ed (run (boot tui mode name x) sched))) <= 1023)%nat
  /\ (length (g_send_hist (ed (run (boot tui mode name x) sched))) <= HIST_MAX)%nat
  /\ 0 <= hist_idx (ed (run (boot tui mode name x) sched))
       <= g_send_hist_len (ed (run (boot tui mode name x) sched)).
Proof.
  destruct (run_disp_ok sched _ (boot_disp_ok tui mode name x)) as [Hl Hs].
  destruct (run_ok sched _ (boot_ok tui mode name x)) as (_ & _ & Hi).
  destruct (run_hist_ok sched _ (boot_ok tui mode name x)
              (boot_hist_ok tui mode name x)) as (Hh & Hidx & _).
  repeat split; try assumption; lia.
Qed.

(** X5.  In every state that a run of client.c reaches, no entry of the send
    history equals the entry before it: a message sent twice in a row is
    kept once. *)
Theorem history_never_repeats (tui : bool) (mode : ui_mode_t) (name : list byte)
    (x : world) (sched : list thread) :
  no_repeat (g_send_hist (ed (run (boot tui mode name x) sched))).
Proof.
  destruct (run_hist_ok sched _ (boot_ok tui mode name x)
              (boot_hist_ok tui mode name x)) as (_ & _ & Hn).
  exact Hn.
Qed.

End BoundsFacts.

(** ** Sessions of client.c *)

Module SessionFacts.
Import CStr Wire Transport Display Env Client ClientFacts.

Lemma sock_out_run_local_command c s :
  sock_out (w (run_local_command c s)) = sock_out (w c).
Proof. unfold run_local_command. split_tests; reflexivity. Qed.

Lemma user_run_local_command c s : user (run_local_command c s) = user c.
Proof. unfold run_local_command. split_tests; reflexivity. Qed.

Lemma is_local_command_nonempty s : is_local_command s = true -> s <> [].
Proof. intros H ->. discriminate H. Qed.

(** X6.  In TUI mode, ENTER on a text that is a local command hands nothing
    to the socket and leaves the send history as it is; the edit buffer is
    cleared. *)
Theorem tui_local_command_not_sent (c : client) :
  is_local_command (g_input (ed c)) = true ->
  sock_out (w (on_enter c)) = sock_out (w c)
  /\ g_send_hist (ed (on_enter c)) = g_send_hist (ed c)
  /\ g_input (ed (on_enter c)) = [].
Proof.
  intros Hcmd. pose proof (is_local_command_nonempty _ Hcmd) as Hne.
  unfold on_enter.
  assert (H0 : (g_input_len (ed c) =? 0) = false).
  { apply Z.eqb_neq. unfold g_input_len.
    destruct (g_input (ed c)); [congruence|cbn; lia]. }
  rewrite H0, Hcmd. cbn -[lit run_local_command].
  rewrite sock_out_run_local_command, ed_run_local_command. auto.
Qed.

(** X7.  In line mode, a line that is a local command is never written as a
    message: after the turn of the input loop the socket has what it had,
    or that and the LOGOUT record of the shutdown that [!disconnect]
    starts. *)
Theorem line_local_command_not_sent (c : client) (l : list byte)
    (rest : list getline_ret) :
  stdin_in (w c) = Line l :: rest ->
  is_local_command (chomp l) = true ->
  sock_out (w (line_iter c)) = sock_out (w c)
  \/ sock_out (w (line_iter c))
     = sock_out (w c) ++ [frame LOGOUT (user c) (lit "User has disconnected")].
Proof.
  intros Hin Hcmd. unfold line_iter. rewrite Hin. cbn [pop]. rewrite Hcmd.
  set (c1 := run_local_command _ (chomp l)).
  assert (H1 : sock_out (w c1) = sock_out (w c))
    by (subst c1; now rewrite sock_out_run_local_command).
  assert (U1 : user c1 = user c) by (subst c1; now rewrite user_run_local_command).
  clearbody c1.
  destruct (main_cleanup_writes_logout c1) as (Hlog & _).
  rewrite H1, U1 in Hlog.
  destruct (negb (running c1)); [right; exact Hlog|].
  destruct (running c1); [left; exact H1|right; exact Hlog].
Qed.

Lemma tui_local_command_not_sent_witness :
  g_input (ed Samples.tui_typed_help) = lit "!help"
  /\ is_local_command (g_input (ed Samples.tui_typed_help)) = true
  /\ sock_out (w (on_enter Samples.tui_typed_help))
     = sock_out (w Samples.tui_typed_help).
Proof.
  split; [reflexivity|]. split; [reflexivity|].
  apply (tui_local_command_not_sent Samples.tui_typed_help). reflexivity.
Defined.

Lemma line_local_command_not_sent_witness :
  stdin_in (w Samples.line_help) = [Line (lit "!help" ++ [x0a])]
  /\ is_local_command (chomp (lit "!help" ++ [x0a])) = true
  /\ (sock_out (w (line_iter Samples.line_help)) = sock_out (w Samples.line_help)
      \/ sock_out (w (line_iter Samples.line_help))
         = sock_out (w Samples.line_help)
           ++ [frame LOGOUT (user Samples.line_help) (lit "User has disconnected")]).
Proof.
  split; [reflexivity|]. split; [reflexivity|].
  apply (line_local_command_not_sent Samples.line_help (lit "!help" ++ [x0a]) []);
    reflexivity.
Defined.

(** X8.  After SIGINT the main thread of client.c ends at its next turn --
    in the start menu, in the input loop of the TUI, or in line mode when
    the signal interrupts [getline] -- and on the way out it writes one
    LOGOUT record and shuts the socket down. *)
Theorem signal_ends_client (c : client) :
  pc c = StartMenu \/ pc c = Editing
  \/ (pc c = LineLoop /\ exists rest, stdin_in (w c) = LineEintr :: rest) ->
  pc (step (step c T_signal) T_main) = Exited
  /\ running (step (step c T_signal) T_main) = false
  /\ sock_shut (w (step (step c T_signal) T_main)) = true
  /\ sock_out (w (step (step c T_signal) T_main))
     = sock_out (w c) ++ [frame LOGOUT (user c) (lit "User has disconnected")].
Proof.
  intros Hpc. cbn [step]. unfold handle_signal.
  set (c1 := dirty (set_running (set_shutdown_requested c true) false)).
  assert (Hr : running c1 = false) by reflexivity.
  assert (Hs : shutdown_requested c1 = true) by reflexivity.
  assert (Hp : pc c1 = pc c) by reflexivity.
  assert (Hw : w c1 = w c) by reflexivity.
  assert (Hu : user c1 = user c) by reflexivity.
  assert (Hdone : forall c2, sock_out (w c2) = sock_out (w c) -> user c2 = user c ->
            pc (main_cleanup c2) = Exited
            /\ running (main_cleanup c2) = false
            /\ sock_shut (w (main_cleanup c2)) = true
            /\ sock_out (w (main_cleanup c2))
               = sock_out (w c) ++ [frame LOGOUT (user c) (lit "User has disconnected")]).
  { intros c2 Ho Hu2. destruct (main_cleanup_writes_logout c2) as (H1 & H2 & H3).
    rewrite Ho, Hu2 in H1. repeat split; try assumption.
    unfold main_cleanup, sys_write.
    destruct (pop (write_ok (w (set_running c2 false)))). reflexivity. }
  rewrite Hp. clearbody c1.
  destruct Hpc as [->|[->|[-> [rest Hin]]]].
  - unfold menu_iter. rewrite Hr, andb_false_r. cbn [negb].
    unfold leave_menu. rewrite Hr. cbn [negb].
    apply Hdone; [now rewrite Hw|exact Hu].
  - unfold ui_iter. rewrite Hr. cbn [negb].
    apply Hdone; [now rewrite Hw|exact Hu].
  - unfold line_iter. rewrite Hw, Hin. cbn [pop]. cbn [shutdown_requested set_w].
    rewrite Hs. apply Hdone; [cbn; rewrite ?Hw; reflexivity|exact Hu].
Qed.

Lemma signal_ends_client_witness :
  pc Scenarios.tui_typed = Editing
  /\ pc (step (step Scenarios.tui_typed T_signal) T_main) = Exited
  /\ pc Samples.line_interrupted = LineLoop
  /\ pc (step (step Samples.line_interrupted T_signal) T_main) = Exited.
Proof.
  split; [reflexivity|]. split.
  - apply (signal_ends_client Scenarios.tui_typed). right. left. reflexivity.
  - split; [reflexivity|].
    apply (signal_ends_client Samples.line_interrupted).
    right. right. split; [reflexivity|]. exists []. reflexivity.
Defined.

Lemma rx_iter_reads c :
  exists src',
    perform_full_read (Some (msg (rx c))) (sock_in (w c)) FRAME_SIZE
    = Some (if (FRAME_SIZE <=? length (stream_bytes (sock_in (w c))))%nat
            then Z.of_nat FRAME_SIZE
            else if stream_fails (sock_in (w c)) then -1
            else Z.of_nat (length (stream_bytes (sock_in (w c)))),
            firstn FRAME_SIZE (stream_bytes (sock_in (w c))), src').
Proof.
  destruct (TransportFacts.full_read_outcome (sock_in (w c)) FRAME_SIZE)
    as (src' & Heq & _).
  exists src'. exact Heq.
Qed.

(** X9.  client.c: when a read of the socket fails before a whole record
    came, the receive thread reports it and ends, and that is all: [running]
    keeps its value, the main thread stays where it is and nothing is
    written to the socket.  (clientOp.c clears [running] at this point.) *)
Theorem read_failure_keeps_running (c : client) :
  rpc c = RxLoop ->
  stream_fails (sock_in (w c)) = true ->
  (length (stream_bytes (sock_in (w c))) < FRAME_SIZE)%nat ->
  rpc (step c T_rx) = RxExited
  /\ running (step c T_rx) = running c
  /\ pc (step c T_rx) = pc c
  /\ sock_out (w (step c T_rx)) = sock_out (w c)
  /\ (g_tui_enabled c = true ->
      disp (step c T_rx)
      = tui_add_line (disp c) (lit "SYSTEM") (lit "ERROR")
          (lit "Could not read from server") SYSTEM)
  /\ (g_tui_enabled c = false ->
      out (w (step c T_rx))
      = out (w c) ++ [OutError (lit "Could not read from server")]).
Proof.
  intros Hpc Hf Hlen. cbn [step]. rewrite Hpc. unfold rx_iter.
  destruct (rx_iter_reads c) as (src' & ->). rewrite Hf.
  destruct (Nat.leb_spec FRAME_SIZE (length (stream_bytes (sock_in (w c)))));
    [lia|].
  cbv beta iota. change (-1 =? 0) with false. change (-1 <? 0) with true.
  cbv beta iota.
  change (g_tui_enabled (set_rx _ _)) with (g_tui_enabled c).
  destruct (g_tui_enabled c); repeat split; try reflexivity; discriminate.
Qed.

Lemma read_failure_keeps_running_witness :
  rpc Samples.tui_read_failing = RxLoop
  /\ running Samples.tui_read_failing = true
  /\ rpc (step Samples.tui_read_failing T_rx) = RxExited
  /\ running (step Samples.tui_read_failing T_rx) = true.
Proof.
  split; [reflexivity|]. split; [reflexivity|].
  destruct (read_failure_keeps_running Samples.tui_read_failing)
    as (H1 & H2 & _);
    [reflexivity | reflexivity | apply Nat.ltb_lt; vm_compute; reflexivity |].
  split; [exact H1|exact H2].
Defined.

Lemma strncpy_field s n r :
  c_str s = strncpy r n -> strncpy s n = strncpy r n.
Proof.
  intros E. unfold strncpy in *. rewrite E. unfold strncpy.
  rewrite firstn_firstn, Nat.min_id. reflexivity.
Qed.

(** X10.  client.c in TUI mode: a MESSAGE_RECV record that differs from the
    last accepted one is shown as one line with the time of its timestamp,
    its user name and its text, each as [tui_add_line] would store the
    sender's strings -- however the socket cuts the record into reads and
    however often a read is interrupted -- and the receive thread goes on. *)
Theorem received_message_displayed (c : client) (ts : Z)
    (usr txt more : list byte) :
  rpc c = RxLoop -> g_tui_enabled c = true -> running c = true ->
  length (msg (rx c)) = FRAME_SIZE ->
  0 <= ts < 4294967296 ->
  stream_bytes (sock_in (w c)) = server_frame MESSAGE_RECV ts usr txt ++ more ->
  has_last (rx c) = false
  \/ last_msg (rx c) <> server_frame MESSAGE_RECV ts usr txt ->
  disp (step c T_rx)
  = tui_add_line (disp c) (fmt_time (w c) ts) usr txt MESSAGE_RECV
  /\ rpc (step c T_rx) = RxLoop
  /\ running (step c T_rx) = true
  /\ last_msg (rx (step c T_rx)) = server_frame MESSAGE_RECV ts usr txt.
Proof.
  intros Hpc Htui Hrun Hlen Hts Hbytes Hnew.
  destruct (CodecFacts.record_decodes MESSAGE_RECV ts usr txt)
    as (Hl & Hty & Htm & Hu & Hm); [unfold MESSAGE_RECV; lia | exact Hts |].
  set (m := server_frame MESSAGE_RECV ts usr txt) in *.
  cbn [step]. rewrite Hpc. unfold rx_iter.
  destruct (rx_iter_reads c) as (src' & ->). rewrite Hbytes.
  assert (Hm1 : firstn FRAME_SIZE (m ++ more) = m).
  { rewrite firstn_app, Hl, Nat.sub_diag, firstn_all2 by lia.
    cbn [firstn]. apply app_nil_r. }
  rewrite Hm1.
  destruct (Nat.leb_spec FRAME_SIZE (length (m ++ more))) as [_|Hbad];
    [|rewrite length_app in Hbad; lia].
  cbv beta iota. cbn [rx set_w]. rewrite (store_full (msg (rx c)) m) by lia.
  change (Z.of_nat FRAME_SIZE =? 0) with false.
  change (Z.of_nat FRAME_SIZE <? 0) with false. cbv beta iota.
  cbn [rx set_rx set_w has_last msg last_msg].
  assert (Hg : has_last (rx c) && bytes_eqb m (last_msg (rx c)) = false).
  { destruct Hnew as [->|Hne]; [reflexivity|].
    apply andb_false_iff. right. apply not_true_is_false.
    intros E. apply CStrFacts.bytes_eqb_eq in E. congruence. }
  rewrite Hg. unfold rx_show. cbn [rx set_rx msg g_tui_enabled w set_w].
  rewrite Htui, Hty, Htm.
  change (to_int MESSAGE_RECV =? MESSAGE_RECV) with true. cbv beta iota.
  unfold rx_again, add_line. cbn [running set_disp set_rx set_w disp rx rpc last_msg
    fmt_time with_sock_in].
  rewrite Hrun. cbn [disp set_disp rpc running rx set_rx last_msg].
  split; [|auto].
  unfold tui_add_line, tui_add_line_locked, new_line.
  rewrite (strncpy_field (Wire.username m) 31 usr) by exact Hu.
  rewrite (strncpy_field (Wire.message m) 1023 txt) by exact Hm.
  reflexivity.
Qed.

Lemma received_message_displayed_witness :
  stream_bytes (sock_in (w Samples.tui_receiving))
  = server_frame MESSAGE_RECV 1700000000 (lit "bob") (lit "hello") ++ []
  /\ disp (step Samples.tui_receiving T_rx)
     = tui_add_line (disp Samples.tui_receiving)
         (fmt_time (w Samples.tui_receiving) 1700000000)
         (lit "bob") (lit "hello") MESSAGE_RECV.
Proof.
  split; [reflexivity|].
  apply (received_message_displayed Samples.tui_receiving 1700000000
           (lit "bob") (lit "hello") []);
    try reflexivity; try lia.
  left. reflexivity.
Defined.

End SessionFacts.

(** ** Sessions of clientOp.c *)

Module OpSessionFacts.
Import CStr Wire Transport Env ClientOp WireFacts.

Lemma step_rx c : rpc c <> RxExited -> step c T_rx = rx_iter c.
Proof. intros H. cbn. destruct (rpc c); congruence. Qed.

Lemma step_main c : pc c = LineLoop -> step c T_main = line_iter c.
Proof. intros H. cbn. now rewrite H. Qed.

(** X11.  clientOp.c: whenever the receive thread leaves its loop -- on the
    close, on a failed or short read, or on a DISCONNECT record -- it has
    cleared [running], so the input loop of [main] ends at its next test. *)
Theorem op_receive_exit_clears_running (c : client) :
  rpc c <> RxExited ->
  rpc (step c T_rx) = RxExited ->
  running (step c T_rx) = false.
Proof.
  intros Hpc. rewrite (step_rx c Hpc). unfold rx_iter, rx_again.
  destruct (full_read (sock_in (w c)) FRAME_SIZE) as [[[r m] src']|];
    [|intros H; contradiction].
  repeat match goal with
    | |- context [if ?b then _ else _] =>
        lazymatch b with
        | context [if _ then _ else _] => fail
        | _ => destruct b eqn:?
        end
    end; cbn; intros H; try reflexivity; try contradiction; try assumption.
Qed.

Lemma op_receive_exit_clears_running_witness :
  rpc Samples.op_short = RxLoop
  /\ rpc (step Samples.op_short T_rx) = RxExited
  /\ running (step Samples.op_short T_rx) = false.
Proof.
  split; [reflexivity|]. split; [reflexivity|].
  apply (op_receive_exit_clears_running Samples.op_short);
    [discriminate|reflexivity].
Defined.

Lemma cut_newline_nul_free s : nul_free s -> nul_free (cut_newline s).
Proof.
  induction 1 as [|ch s Hch _ IH]; cbn; [constructor|].
  destruct (Byte.eqb ch x0a); constructor; assumption.
Qed.

Lemma chomp_c_str l : c_str (chomp l) = chomp l.
Proof.
  apply CStrFacts.c_str_nul_free, cut_newline_nul_free,
    CStrFacts.c_str_is_nul_free.
Qed.

Lemma msg_valid_fits s : msg_valid s = true -> strncpy s 1023 = c_str s.
Proof.
  unfold msg_valid, strncpy, strlen. intros H.
  destruct (Z.eqb_spec (Z.of_nat (length (c_str s))) 0); [discriminate|].
  destruct (Z.gtb_spec (Z.of_nat (length (c_str s))) 1023); [discriminate|].
  apply firstn_all2. lia.
Qed.

(** X12.  clientOp.c: a line that passes [msg_valid] and is not the
    disconnect command is written to the socket as one MESSAGE_SEND record
    of the size of [message_t] with an empty user name, whose text reads
    back as the line without its newline; the only record that can follow
    it in the same turn is the LOGOUT of the tail of [main], and when the
    client is running, was not disconnected and the write succeeds, none
    follows and the loop goes on. *)
Theorem op_valid_line_sent (c : client) (l : list byte)
    (rest : list getline_ret) :
  pc c = LineLoop ->
  stdin_in (w c) = Line l :: rest ->
  str_eq (chomp l) (lit "!disconnect") || str_eq (chomp l) (lit "!disconect")
  = false ->
  msg_valid (chomp l) = true ->
  length (frame MESSAGE_SEND [] (chomp l)) = FRAME_SIZE
  /\ m_type (frame MESSAGE_SEND [] (chomp l)) = MESSAGE_SEND
  /\ c_str (Wire.username (frame MESSAGE_SEND [] (chomp l))) = []
  /\ c_str (Wire.message (frame MESSAGE_SEND [] (chomp l))) = chomp l
  /\ (sock_out (w (step c T_main))
      = sock_out (w c) ++ [frame MESSAGE_SEND [] (chomp l)]
      \/ sock_out (w (step c T_main))
         = sock_out (w c) ++ [frame MESSAGE_SEND [] (chomp l); frame LOGOUT [] []])
  /\ (running c = true -> got_disconnect c = false ->
      hd true (write_ok (w c)) = true ->
      sock_out (w (step c T_main))
      = sock_out (w c) ++ [frame MESSAGE_SEND [] (chomp l)]
      /\ pc (step c T_main) = LineLoop
      /\ out (w (step c T_main)) = out (w c)).
Proof.
  intros Hpc Hin Hcmd Hvalid.
  destruct (CodecFacts.record_decodes MESSAGE_SEND 0 [] (chomp l))
    as (Hl & Hty & _ & Hu & Hm); [unfold MESSAGE_SEND; lia | lia |].
  change (server_frame MESSAGE_SEND 0 [] (chomp l))
    with (frame MESSAGE_SEND [] (chomp l)) in Hl, Hty, Hu, Hm.
  rewrite (msg_valid_fits _ Hvalid), chomp_c_str in Hm.
  split; [exact Hl|]. split; [exact Hty|]. split; [exact Hu|].
  split; [exact Hm|].
  rewrite (step_main c Hpc). unfold line_iter. rewrite Hin. cbn [pop].
  rewrite Hcmd, Hvalid. cbn [negb]. unfold full_write.
  cbn [w set_w write_ok with_stdin_in sock_out].
  generalize (frame MESSAGE_SEND [] (chomp l)). intros m.
  unfold main_cleanup, full_write, eprintf, print.
  destruct (write_ok (w c)) as [|[|] oks]; cbn [pop hd negb];
    destruct (running c) eqn:Hr, (got_disconnect c) eqn:Hg;
    cbn -[frame lit pop]; rewrite ?Hr, ?Hg; cbn -[frame lit pop];
    try (destruct (pop oks) as [r0 rest0]); cbn -[frame lit];
    rewrite <- ?app_assoc; cbn [app];
    (split; [auto | intros; try discriminate; auto]).
Qed.

Lemma op_valid_line_sent_witness :
  pc Samples.op_line_valid = LineLoop
  /\ msg_valid (chomp (lit "hello world" ++ [x0a])) = true
  /\ c_str (Wire.message (frame MESSAGE_SEND [] (chomp (lit "hello world" ++ [x0a]))))
     = lit "hello world".
Proof.
  split; [reflexivity|]. split; [reflexivity|].
  destruct (op_valid_line_sent Samples.op_line_valid
              (lit "hello world" ++ [x0a]) [])
    as (_ & _ & _ & H & _);
    [reflexivity | reflexivity | reflexivity | reflexivity |].
  exact H.
Defined.

(** X13.  clientOp.c: when the next 1064 bytes of the socket are a record
    of the type DISCONNECT, whatever its other fields hold and however it
    is cut into reads, the receive thread prints as the disconnect notice
    the bytes of the text field before its first NUL, and never more than
    the first 1023 of them; it clears [running] and ends; and whatever the
    threads do afterwards, in any order, no LOGOUT record is written.  For
    a record that a server built from a string, the notice is that string
    cut to 1023 bytes. *)
Theorem op_disconnect_then_silent (c : client) (m more : list byte)
    (sched : list thread) :
  rpc c <> RxExited ->
  length m = FRAME_SIZE ->
  m_type m = DISCONNECT ->
  stream_bytes (sock_in (w c)) = m ++ more ->
  out (w (step c T_rx))
  = out (w c) ++ [OutDisconnect (firstn 1023 (c_str (firstn 1024 (skipn 40 m))))]
  /\ running (step c T_rx) = false
  /\ rpc (step c T_rx) = RxExited
  /\ sock_out (w (step c T_rx)) = sock_out (w c)
  /\ logouts (run (step c T_rx) sched) = logouts c
  /\ (forall ts usr txt,
        0 <= ts < 4294967296 -> m = server_frame DISCONNECT ts usr txt ->
        out (w (step c T_rx)) = out (w c) ++ [OutDisconnect (strncpy txt 1023)]).
Proof.
  intros Hpc Hl Hty Hbytes.
  assert (Hgd : got_disconnect (step c T_rx) = true
                /\ out (w (step c T_rx))
                   = out (w c)
                     ++ [OutDisconnect (firstn 1023 (c_str (firstn 1024 (skipn 40 m))))]
                /\ running (step c T_rx) = false
                /\ rpc (step c T_rx) = RxExited
                /\ sock_out (w (step c T_rx)) = sock_out (w c)).
  { rewrite (step_rx c Hpc). unfold rx_iter.
    destruct (TransportFacts.full_read_outcome (sock_in (w c)) FRAME_SIZE)
      as (src' & -> & _).
    rewrite Hbytes.
    assert (Hm1 : firstn FRAME_SIZE (m ++ more) = m).
    { rewrite firstn_app, Hl, Nat.sub_diag, firstn_all2 by lia.
      cbn [firstn]. apply app_nil_r. }
    rewrite Hm1.
    destruct (Nat.leb_spec FRAME_SIZE (length (m ++ more))) as [_|Hbad];
      [|rewrite length_app in Hbad; lia].
    cbv beta iota.
    change (Z.of_nat FRAME_SIZE <? 0) with false.
    change (Z.of_nat FRAME_SIZE =? 0) with false.
    change (Z.of_nat FRAME_SIZE =? Z.of_nat FRAME_SIZE) with true.
    cbv beta iota. cbn [negb]. cbv beta iota. rewrite Hty.
    change (DISCONNECT =? MESSAGE_RECV) with false.
    change (DISCONNECT =? SYSTEM) with false.
    change (DISCONNECT =? DISCONNECT) with true. cbv beta iota.
    unfold eprintf, print.
    cbn [got_disconnect running rpc w out sock_out set_rpc set_running
         set_got_disconnect set_w with_out with_sock_in].
    repeat split. }
  destruct Hgd as (Hg & Ho & Hr & Hx & Hs).
  split; [exact Ho|]. split; [exact Hr|]. split; [exact Hx|].
  split; [exact Hs|]. split.
  - rewrite (ClientOpFacts.op_no_logout_after_disconnect sched _ Hg).
    unfold logouts. now rewrite Hs.
  - intros ts usr txt Hts ->. rewrite Ho. do 3 f_equal.
    destruct (CodecFacts.record_decodes DISCONNECT ts usr txt)
      as (_ & _ & _ & _ & Hm); [unfold DISCONNECT; lia | exact Hts |].
    apply (SessionFacts.strncpy_field
             (Wire.message (server_frame DISCONNECT ts usr txt)) 1023 txt Hm).
Qed.

(** A text field without a NUL: the notice is its first 1023 bytes. *)
Lemma op_disconnect_then_silent_witness :
  length Samples.raw_disconnect = FRAME_SIZE
  /\ m_type Samples.raw_disconnect = DISCONNECT
  /\ out (w (step Samples.op_disconnecting_raw T_rx))
     = out (w Samples.op_disconnecting_raw) ++ [OutDisconnect (repeat x78 1023)]
  /\ logouts (run (step Samples.op_disconnecting_raw T_rx) [T_main; T_rx; T_main])
     = logouts Samples.op_disconnecting_raw.
Proof.
  split; [reflexivity|]. split; [reflexivity|].
  destruct (op_disconnect_then_silent Samples.op_disconnecting_raw
              Samples.raw_disconnect [] [T_main; T_rx; T_main])
    as (Ho & _ & _ & _ & Hl & _);
    [discriminate | reflexivity | reflexivity | vm_compute; reflexivity |].
  split; [|exact Hl].
  rewrite Ho. vm_compute. reflexivity.
Defined.

End OpSessionFacts.

(** ** The order of the records on the socket *)

Module ProtocolFacts.
Import CStr Wire Transport Display Env Client WireFacts Protocol.

Lemma turn_nil ty : turn ty 0 false = [].
Proof. reflexivity. Qed.

Lemma turn_app ty k k' closed :
  turn ty k false ++ turn ty k' closed = turn ty (k + k') closed.
Proof.
  unfold turn. rewrite app_nil_r, repeat_app, app_assoc. reflexivity.
Qed.

(** The leaf of a case analysis: the records added are read off the goal. *)
Ltac turn_with k closed Hpc :=
  exists k, closed;
  unfold sent_types, turn;
  cbn -[frame lit m_type map app];
  rewrite ?map_app, <- ?app_assoc; cbn [map app repeat];
  rewrite ?(m_type_frame MESSAGE_SENT), ?(m_type_frame LOGOUT) by (cbn; auto);
  rewrite ?app_nil_r;
  (split; [reflexivity|]);
  rewrite ?Hpc; split; intros; congruence.

Ltac turn_leaf Hpc :=
  first [ turn_with 0%nat false Hpc | turn_with 1%nat false Hpc
        | turn_with 0%nat true Hpc | turn_with 1%nat true Hpc ].

Ltac open_pops :=
  repeat match goal with
    | |- context [pop ?l] => destruct (pop l) as [? ?]; cbv beta iota
    end.

Lemma line_iter_turn c :
  pc c = LineLoop ->
  exists k closed,
    sent_types (line_iter c) = sent_types c ++ turn MESSAGE_SENT k closed
    /\ (closed = true -> pc (line_iter c) = Exited)
    /\ (closed = false -> pc (line_iter c) <> Exited).
Proof.
  intros Hpc. unfold line_iter, run_local_command, main_cleanup, sys_write.
  destruct (pop (stdin_in (w c))) as [[[l|]|] rest]; cbv beta iota;
    ClientFacts.split_tests; open_pops; ClientFacts.split_tests; turn_leaf Hpc.
Qed.

Lemma on_enter_turn c :
  pc c = Editing ->
  exists k closed,
    sent_types (on_enter c) = sent_types c ++ turn MESSAGE_SENT k closed
    /\ (closed = true -> pc (on_enter c) = Exited)
    /\ (closed = false -> pc (on_enter c) <> Exited).
Proof.
  intros Hpc. unfold on_enter, run_local_command, sys_write.
  ClientFacts.split_tests; open_pops; ClientFacts.split_tests; turn_leaf Hpc.
Qed.

Lemma read_key_quiet c :
  sock_out (w (snd (read_key c))) = sock_out (w c)
  /\ pc (snd (read_key c)) = pc c.
Proof. unfold read_key. destruct (pop (term_in (w c))). split; reflexivity. Qed.

Lemma on_up_quiet c :
  sock_out (w (on_up c)) = sock_out (w c) /\ pc (on_up c) = pc c.
Proof. unfold on_up. ClientFacts.split_tests; split; reflexivity. Qed.

Lemma on_down_quiet c :
  sock_out (w (on_down c)) = sock_out (w c) /\ pc (on_down c) = pc c.
Proof. unfold on_down. ClientFacts.split_tests; split; reflexivity. Qed.

Lemma on_escape_quiet c :
  sock_out (w (on_escape c)) = sock_out (w c) /\ pc (on_escape c) = pc c.
Proof.
  unfold on_escape.
  destruct (read_key c) as [k1 c1] eqn:E1.
  assert (H1 : sock_out (w c1) = sock_out (w c) /\ pc c1 = pc c)
    by (change c1 with (snd (k1, c1)); rewrite <- E1; apply read_key_quiet).
  destruct k1 as [s1|]; [|exact H1].
  destruct (read_key c1) as [k2 c2] eqn:E2.
  assert (H2 : sock_out (w c2) = sock_out (w c) /\ pc c2 = pc c).
  { destruct H1 as [<- <-]. change c2 with (snd (k2, c2)). rewrite <- E2.
    apply read_key_quiet. }
  destruct k2 as [s2|]; [|exact H2].
  destruct H2 as [<- <-].
  ClientFacts.split_tests; auto using on_up_quiet, on_down_quiet.
Qed.

Lemma quiet_turn c c' :
  pc c <> Exited ->
  sock_out (w c') = sock_out (w c) /\ pc c' = pc c ->
  exists k closed,
    sent_types c' = sent_types c ++ turn MESSAGE_SENT k closed
    /\ (closed = true -> pc c' = Exited)
    /\ (closed = false -> pc c' <> Exited).
Proof.
  intros Hpc [Hs Hp]. exists 0%nat, false. unfold sent_types.
  rewrite Hs, Hp, turn_nil, app_nil_r.
  split; [reflexivity|]. split; [discriminate|auto].
Qed.

Lemma cleanup_turn c c' :
  sock_out (w c') = sock_out (w c) ->
  exists k closed,
    sent_types (main_cleanup c') = sent_types c ++ turn MESSAGE_SENT k closed
    /\ (closed = true -> pc (main_cleanup c') = Exited)
    /\ (closed = false -> pc (main_cleanup c') <> Exited).
Proof.
  intros Hs. exists 0%nat, true.
  destruct (ClientFacts.main_cleanup_writes_logout c') as (Ho & _ & Hp).
  unfold sent_types. rewrite Ho, Hs, map_app. cbn [map].
  rewrite (m_type_frame LOGOUT) by (cbn; auto).
  split; [reflexivity|]. split; [auto|discriminate].
Qed.

Lemma on_key_turn c k0 :
  pc c = Editing ->
  exists k closed,
    sent_types (on_key c k0) = sent_types c ++ turn MESSAGE_SENT k closed
    /\ (closed = true -> pc (on_key c k0) = Exited)
    /\ (closed = false -> pc (on_key c k0) <> Exited).
Proof.
  intros Hpc. assert (Hne : pc c <> Exited) by congruence. unfold on_key.
  destruct (_ || _); [now apply on_enter_turn|].
  destruct (_ || _);
    [destruct (_ >? _); apply quiet_turn; auto; split; reflexivity|].
  destruct (_ =? _); [apply quiet_turn; auto; apply on_escape_quiet|].
  destruct (_ && _); [|apply quiet_turn; auto].
  destruct (_ <? _); apply quiet_turn; auto; split; reflexivity.
Qed.

Lemma ui_iter_turn c :
  pc c = Editing ->
  exists k closed,
    sent_types (ui_iter c) = sent_types c ++ turn MESSAGE_SENT k closed
    /\ (closed = true -> pc (ui_iter c) = Exited)
    /\ (closed = false -> pc (ui_iter c) <> Exited).
Proof.
  intros Hpc. assert (Hne : pc c <> Exited) by congruence. unfold ui_iter.
  destruct (negb (running c)); [now apply cleanup_turn|].
  set (c0 := if g_tui_dirty (disp c) then _ else c).
  assert (H0 : sock_out (w c0) = sock_out (w c) /\ pc c0 = pc c)
    by (subst c0; destruct (g_tui_dirty _); split; reflexivity).
  clearbody c0.
  destruct (read_key c0) as [k1 c1] eqn:E1.
  assert (H1 : sock_out (w c1) = sock_out (w c) /\ pc c1 = pc c).
  { destruct H0 as [<- <-]. change c1 with (snd (k1, c1)). rewrite <- E1.
    apply read_key_quiet. }
  destruct k1 as [k1|]; [|now apply quiet_turn].
  destruct H1 as [Hs Hp].
  destruct (on_key_turn c1 k1) as (k & closed & Ht & Hx); [congruence|].
  exists k, closed. split; [|exact Hx].
  rewrite Ht. unfold sent_types. now rewrite Hs.
Qed.

Lemma leave_menu_turn c c' :
  pc c = StartMenu ->
  sock_out (w c') = sock_out (w c) /\ pc c' = pc c ->
  exists k closed,
    sent_types (leave_menu c') = sent_types c ++ turn MESSAGE_SENT k closed
    /\ (closed = true -> pc (leave_menu c') = Exited)
    /\ (closed = false -> pc (leave_menu c') <> Exited).
Proof.
  intros Hpc [Hs Hp]. unfold leave_menu.
  destruct (negb (running c')); [now apply cleanup_turn|].
  exists 0%nat, false. rewrite turn_nil, app_nil_r.
  split; [|split; [discriminate|intros _; discriminate]].
  unfold sent_types, boot_lines. rewrite <- Hs.
  destruct (g_ui_mode c'); reflexivity.
Qed.

Lemma menu_iter_turn c :
  pc c = StartMenu ->
  exists k closed,
    sent_types (menu_iter c) = sent_types c ++ turn MESSAGE_SENT k closed
    /\ (closed = true -> pc (menu_iter c) = Exited)
    /\ (closed = false -> pc (menu_iter c) <> Exited).
Proof.
  intros Hpc. assert (Hne : pc c <> Exited) by congruence. unfold menu_iter.
  destruct (negb _); [apply leave_menu_turn; auto|].
  destruct (read_key c) as [k1 c1] eqn:E1.
  assert (H1 : sock_out (w c1) = sock_out (w c) /\ pc c1 = pc c)
    by (change c1 with (snd (k1, c1)); rewrite <- E1; apply read_key_quiet).
  destruct k1 as [k1|]; [|now apply quiet_turn].
  ClientFacts.split_tests;
    first [ apply leave_menu_turn; [exact Hpc|exact H1]
          | apply quiet_turn; [exact Hne|exact H1] ].
Qed.

(** One step of any thread: what the main thread hands to the socket, and
    that nothing is written past the end of [main]. *)
Lemma step_turn c t :
  exists k closed,
    sent_types (step c t) = sent_types c ++ turn MESSAGE_SENT k closed
    /\ (closed = true -> pc c <> Exited /\ pc (step c t) = Exited)
    /\ (closed = false -> pc (step c t) = Exited -> pc c = Exited)
    /\ (pc c = Exited -> k = 0%nat).
Proof.
  assert (Hq : forall c', sock_out (w c') = sock_out (w c) /\ pc c' = pc c ->
             exists k closed,
               sent_types c' = sent_types c ++ turn MESSAGE_SENT k closed
               /\ (closed = true -> pc c <> Exited /\ pc c' = Exited)
               /\ (closed = false -> pc c' = Exited -> pc c = Exited)
               /\ (pc c = Exited -> k = 0%nat)).
  { intros c' [Hs Hp]. exists 0%nat, false. unfold sent_types.
    rewrite Hs, Hp, turn_nil, app_nil_r. repeat split; auto; discriminate. }
  assert (Hm : forall c',
             pc c <> Exited ->
             (exists k closed,
               sent_types c' = sent_types c ++ turn MESSAGE_SENT k closed
               /\ (closed = true -> pc c' = Exited)
               /\ (closed = false -> pc c' <> Exited)) ->
             exists k closed,
               sent_types c' = sent_types c ++ turn MESSAGE_SENT k closed
               /\ (closed = true -> pc c <> Exited /\ pc c' = Exited)
               /\ (closed = false -> pc c' = Exited -> pc c = Exited)
               /\ (pc c = Exited -> k = 0%nat)).
  { intros c' Hne (k & closed & Ht & H1 & H2). exists k, closed.
    split; [exact Ht|]. split; [auto|]. split; [|contradiction].
    intros Hc Hx. destruct (H2 Hc Hx). }
  destruct t; cbn [step].
  - destruct (pc c) eqn:Hpc.
    + apply Hm; [discriminate|]. now apply menu_iter_turn.
    + apply Hm; [discriminate|]. now apply ui_iter_turn.
    + apply Hm; [discriminate|]. now apply line_iter_turn.
    + apply Hq. split; [reflexivity|exact Hpc].
  - apply Hq. destruct (rpc c); [| |split; reflexivity].
    + unfold rx_start, rx_again. ClientFacts.split_tests; split; reflexivity.
    + unfold rx_iter, rx_show, rx_again.
      destruct (perform_full_read _ _ _) as [[[r data] src']|];
        [|split; reflexivity].
      cbv beta iota. ClientFacts.split_tests; split; reflexivity.
  - apply Hq. split; reflexivity.
  - apply Hq. unfold quote_iter. ClientFacts.split_tests; split; reflexivity.
Qed.

Lemma step_turn_after c sched :
  pc c = Exited ->
  sent_types (run c sched) = sent_types c /\ pc (run c sched) = Exited.
Proof.
  revert c. induction sched as [|t sched IH]; intros c Hx; [auto|].
  cbn [run fold_left]. fold (run (step c t) sched).
  destruct (step_turn c t) as (k & closed & Ht & Hc & Ho & Hz).
  destruct closed; [destruct (Hc eq_refl); contradiction|].
  rewrite (Hz Hx), turn_nil, app_nil_r in Ht.
  assert (Hx' : pc (step c t) = Exited).
  { destruct t; cbn [step].
    - rewrite Hx. exact Hx.
    - destruct (rpc c); [| |exact Hx].
      + unfold rx_start, rx_again. ClientFacts.split_tests; exact Hx.
      + unfold rx_iter, rx_show, rx_again.
        destruct (perform_full_read _ _ _) as [[[r data] src']|]; [|exact Hx].
        cbv beta iota. ClientFacts.split_tests; exact Hx.
    - exact Hx.
    - unfold quote_iter. ClientFacts.split_tests; exact Hx. }
  destruct (IH _ Hx') as [Hs Hp]. rewrite Hs, Ht. auto.
Qed.

Lemma run_turn sched : forall c,
  exists k closed,
    sent_types (run c sched) = sent_types c ++ turn MESSAGE_SENT k closed
    /\ (closed = true -> pc (run c sched) = Exited)
    /\ (closed = false -> pc (run c sched) = Exited -> pc c = Exited).
Proof.
  induction sched as [|t sched IH]; intros c.
  - exists 0%nat, false. rewrite turn_nil, app_nil_r. cbn.
    repeat split; auto; discriminate.
  - cbn [run fold_left]. fold (run (step c t) sched).
    destruct (step_turn c t) as (k1 & b1 & Ht1 & Hc1 & Ho1 & Hz1).
    destruct (IH (step c t)) as (k2 & b2 & Ht2 & Hc2 & Ho2).
    destruct b1.
    + (* [main] ended at this step: nothing follows *)
      destruct (Hc1 eq_refl) as [_ Hx].
      destruct (step_turn_after (step c t) sched Hx) as [Hs Hp].
      exists k1, true. rewrite Hs, Hp. repeat split; auto; discriminate.
    + exists (k1 + k2)%nat, b2. rewrite Ht2, Ht1, <- app_assoc, turn_app.
      split; [reflexivity|]. split; [exact Hc2|].
      intros Hb Hx. apply Ho1; [reflexivity|]. now apply Ho2.
Qed.

Lemma boot_sent tui mode name x :
  sent_types (boot tui mode name x) = map m_type (sock_out x) ++ [LOGIN]
  /\ (pc (boot tui mode name x) = Exited -> hd true (write_ok x) = false).
Proof.
  unfold boot, sys_write, sent_types. cbn [w write_ok].
  destruct (write_ok x) as [|[|] oks]; cbn [pop hd]; cbv beta iota;
    cbn -[frame lit m_type map app]; rewrite map_app; cbn [map];
    rewrite (m_type_frame LOGIN) by (cbn; auto);
    (split; [reflexivity|]); destruct tui; intros; congruence.
Qed.

(** X14.  client.c: in every run from start-up, under any schedule of the
    threads and any input, the records handed to the socket are, by type,
    one LOGIN, then MESSAGE_SENT records only, then at most one LOGOUT,
    after which nothing is written; the LOGOUT is written only by the tail
    of [main], and [main] does not end without it unless the LOGIN write
    failed. *)
Theorem session_shape (tui : bool) (mode : ui_mode_t) (name : list byte)
    (x : world) (sched : list thread) :
  exists k closed,
    sent_types (run (boot tui mode name x) sched)
    = map m_type (sock_out x) ++ session MESSAGE_SENT k closed
    /\ (closed = true -> pc (run (boot tui mode name x) sched) = Exited)
    /\ (pc (run (boot tui mode name x) sched) = Exited ->
        closed = true \/ hd true (write_ok x) = false).
Proof.
  destruct (boot_sent tui mode name x) as [Hb Hf].
  destruct (run_turn sched (boot tui mode name x)) as (k & closed & Ht & Hc & Ho).
  exists k, closed. split; [|split; [exact Hc|]].
  - rewrite Ht, Hb, <- app_assoc. reflexivity.
  - intros Hx. destruct closed; [now left|right]. apply Hf, Ho; auto.
Qed.

End ProtocolFacts.

Module OpProtocolFacts.
Import CStr Wire Transport Env ClientOp WireFacts Protocol.

Ltac turn_with k closed Hpc :=
  exists k, closed;
  unfold sent_types, turn;
  cbn -[frame lit m_type map app];
  rewrite ?map_app, <- ?app_assoc; cbn [map app repeat];
  rewrite ?(m_type_frame MESSAGE_SENT), ?(m_type_frame LOGOUT) by (cbn; auto);
  rewrite ?app_nil_r;
  (split; [reflexivity|]);
  solve [repeat split; intros; try congruence; auto].

Ltac turn_leaf Hpc :=
  first [ turn_with 0%nat false Hpc | turn_with 1%nat false Hpc
        | turn_with 0%nat true Hpc | turn_with 1%nat true Hpc ].

Ltac op_step Hg :=
  cbn [got_disconnect set_w set_running running shutdown_requested w write_ok
       with_stdin_in with_out with_sock_out with_write_ok snd fst negb andb];
  rewrite ?Hg; cbn [negb andb]; cbv beta iota.

(** Case analysis on the tests of a turn, the flag [got_disconnect] known. *)
Ltac op_cases Hg :=
  repeat (op_step Hg;
          match goal with
          | |- context [pop ?l] => destruct (pop l) as [? ?]; cbv beta iota
          | |- context [if ?b then _ else _] =>
              lazymatch b with
              | context [if _ then _ else _] => fail
              | _ => destruct b; cbv beta iota
              end
          end);
  op_step Hg.

(** One turn of the input loop: at most one message record, then at most
    the LOGOUT record; the loop ends without LOGOUT only after the server's
    DISCONNECT. *)
Lemma op_line_iter_turn c :
  pc c <> Exited ->
  exists k closed,
    sent_types (line_iter c) = sent_types c ++ turn MESSAGE_SEND k closed
    /\ (closed = true -> pc (line_iter c) = Exited)
    /\ (closed = false -> pc (line_iter c) = Exited ->
        got_disconnect (line_iter c) = true).
Proof.
  intros Hpc. unfold line_iter, main_cleanup, full_write, eprintf, print.
  change MESSAGE_SEND with MESSAGE_SENT.
  destruct (got_disconnect c) eqn:Hg;
    destruct (pop (stdin_in (w c))) as [[[l|]|] rest]; cbv beta iota;
    op_cases Hg; turn_leaf Hpc.
Qed.

Lemma op_rx_iter_quiet c :
  sock_out (w (rx_iter c)) = sock_out (w c) /\ pc (rx_iter c) = pc c.
Proof.
  unfold rx_iter, rx_again.
  destruct (full_read (sock_in (w c)) FRAME_SIZE) as [[[r m] src']|];
    [|split; reflexivity].
  cbv beta iota. ClientFacts.split_tests; split; reflexivity.
Qed.

Lemma op_step_turn c t :
  exists k closed,
    sent_types (step c t) = sent_types c ++ turn MESSAGE_SEND k closed
    /\ (closed = true -> pc c <> Exited /\ pc (step c t) = Exited)
    /\ (closed = false -> pc (step c t) = Exited ->
        pc c = Exited \/ got_disconnect (step c t) = true)
    /\ (pc c = Exited -> k = 0%nat /\ pc (step c t) = Exited).
Proof.
  assert (Hq : forall c', sock_out (w c') = sock_out (w c) /\ pc c' = pc c ->
             exists k closed,
               sent_types c' = sent_types c ++ turn MESSAGE_SEND k closed
               /\ (closed = true -> pc c <> Exited /\ pc c' = Exited)
               /\ (closed = false -> pc c' = Exited ->
                   pc c = Exited \/ got_disconnect c' = true)
               /\ (pc c = Exited -> k = 0%nat /\ pc c' = Exited)).
  { intros c' [Hs Hp]. exists 0%nat, false. unfold sent_types.
    rewrite Hs, Hp, ProtocolFacts.turn_nil, app_nil_r.
    repeat split; auto; discriminate. }
  assert (Hm : pc c <> Exited ->
             exists k closed,
               sent_types (line_iter c) = sent_types c ++ turn MESSAGE_SEND k closed
               /\ (closed = true -> pc c <> Exited /\ pc (line_iter c) = Exited)
               /\ (closed = false -> pc (line_iter c) = Exited ->
                   pc c = Exited \/ got_disconnect (line_iter c) = true)
               /\ (pc c = Exited -> k = 0%nat /\ pc (line_iter c) = Exited)).
  { intros Hpc. destruct (op_line_iter_turn c Hpc) as (k & closed & Ht & H1 & H2).
    exists k, closed. split; [exact Ht|].
    split; [intros Hc; split; [exact Hpc|auto]|].
    split; [auto|contradiction]. }
  destruct t; cbn [step].
  - destruct (pc c) eqn:Hpc;
      try (rewrite <- Hpc in *; apply Hm; rewrite Hpc; discriminate).
    apply Hq. split; [reflexivity|exact Hpc].
  - destruct (rpc c); try apply Hq; try apply op_rx_iter_quiet; split; reflexivity.
  - apply Hq. split; reflexivity.
  - apply Hq. split; reflexivity.
Qed.

Lemma op_run_exited_pc sched : forall c, pc c = Exited -> pc (run c sched) = Exited.
Proof.
  induction sched as [|t sched IH]; intros c H; [exact H|].
  cbn [run fold_left]. fold (run (step c t) sched).
  apply IH. now destruct (ClientOpFacts.step_exited c t H).
Qed.

Lemma op_run_got_disconnect sched : forall c,
  got_disconnect c = true -> got_disconnect (run c sched) = true.
Proof.
  induction sched as [|t sched IH]; intros c H; [exact H|].
  cbn [run fold_left]. fold (run (step c t) sched).
  apply IH. now destruct (ClientOpFacts.step_after_disconnect c t H).
Qed.

Lemma op_run_turn sched : forall c,
  exists k closed,
    sent_types (run c sched) = sent_types c ++ turn MESSAGE_SEND k closed
    /\ (closed = true -> pc (run c sched) = Exited)
    /\ (closed = false -> pc (run c sched) = Exited ->
        pc c = Exited \/ got_disconnect (run c sched) = true).
Proof.
  induction sched as [|t sched IH]; intros c.
  - exists 0%nat, false. rewrite ProtocolFacts.turn_nil, app_nil_r. cbn.
    repeat split; auto; discriminate.
  - cbn [run fold_left]. fold (run (step c t) sched).
    destruct (op_step_turn c t) as (k1 & b1 & Ht1 & Hc1 & Ho1 & Hz1).
    destruct (IH (step c t)) as (k2 & b2 & Ht2 & Hc2 & Ho2).
    destruct b1.
    + (* [main] ended at this step: nothing follows *)
      destruct (Hc1 eq_refl) as [_ Hx].
      exists k1, true. unfold sent_types in *.
      rewrite (ClientOpFacts.run_exited sched _ Hx), Ht1.
      split; [reflexivity|]. split; [|discriminate].
      intros _. now apply op_run_exited_pc.
    + exists (k1 + k2)%nat, b2.
      rewrite Ht2, Ht1, <- app_assoc, ProtocolFacts.turn_app.
      split; [reflexivity|]. split; [exact Hc2|].
      intros Hb Hx. destruct (Ho2 Hb Hx) as [Hs|Hg]; [|now right].
      destruct (Ho1 eq_refl Hs) as [Hp|Hg]; [now left|right].
      now apply op_run_got_disconnect.
Qed.

Lemma op_boot_sent created name x :
  sent_types (boot created name x) = map m_type (sock_out x) ++ [LOGIN]
  /\ (pc (boot created name x) = Exited ->
      hd true (write_ok x) = false \/ created = false).
Proof.
  unfold boot, full_write, eprintf, print, sent_types. cbn [w write_ok].
  destruct (write_ok x) as [|[|] oks]; cbn [pop hd negb]; cbv beta iota;
    destruct created; cbn [negb]; cbv beta iota;
    cbn -[frame lit m_type map app]; rewrite map_app; cbn [map];
    rewrite (m_type_frame LOGIN) by (cbn; auto);
    (split; [reflexivity|]); intros; auto; congruence.
Qed.

(** X15.  clientOp.c: in every run from start-up, under any schedule of the
    threads and any input, the records handed to the socket are, by type,
    one LOGIN, then MESSAGE_SEND records only, then at most one LOGOUT,
    after which nothing is written; [main] ends without the LOGOUT only
    when the server's DISCONNECT was received, the LOGIN write failed, or
    the receive thread could not be created. *)
Theorem op_session_shape (created : bool) (name : list byte) (x : world)
    (sched : list thread) :
  exists k closed,
    sent_types (run (boot created name x) sched)
    = map m_type (sock_out x) ++ session MESSAGE_SEND k closed
    /\ (closed = true -> pc (run (boot created name x) sched) = Exited)
    /\ (pc (run (boot created name x) sched) = Exited ->
        closed = true
        \/ got_disconnect (run (boot created name x) sched) = true
        \/ hd true (write_ok x) = false
        \/ created = false)
    /\ (created = false ->
        k = 0%nat /\ closed = false
        /\ pc (run (boot created name x) sched) = Exited).
Proof.
  destruct (op_boot_sent created name x) as [Hb Hf].
  destruct (op_run_turn sched (boot created name x))
    as (k & closed & Ht & Hc & Ho).
  destruct created.
  - exists k, closed. split; [|split; [exact Hc|split; [|discriminate]]].
    + rewrite Ht, Hb, <- app_assoc. reflexivity.
    + intros Hx. destruct closed; [now left|right].
      destruct (Ho eq_refl Hx) as [Hp|Hg]; [right; now apply Hf|now left].
  - (* no receive thread: [main] has returned *)
    assert (Hx : pc (boot false name x) = Exited).
    { unfold boot, full_write. destruct (pop (write_ok (w _))) as [[[|]|] oks];
        reflexivity. }
    exists 0%nat, false.
    unfold sent_types in *.
    rewrite (ClientOpFacts.run_exited sched _ Hx), Hb.
    rewrite (op_run_exited_pc sched _ Hx).
    split; [reflexivity|]. split; [discriminate|].
    split; [intros _; right; right; now right|auto].
Qed.

End OpProtocolFacts.

(** ** The user name *)

Module IdentityFacts.
Import CStr Wire Env Ctype Identity.

Lemma first_line_clean s :
  nul_free (first_line s) /\ ~ In x0a (first_line s).
Proof.
  induction s as [|ch s [IH1 IH2]]; cbn; [split; [constructor|auto]|].
  destruct (Byte.eqb ch x0a) eqn:E1; cbn; [split; [constructor|auto]|].
  destruct (Byte.eqb ch x00) eqn:E2; cbn; [split; [constructor|auto]|].
  split.
  - constructor; [|exact IH1]. intros ->. discriminate.
  - intros [->|H]; [discriminate|auto].
Qed.

Lemma c_str_firstn_clean n s : nul_free s -> c_str (firstn n s) = firstn n s.
Proof.
  intros H. apply CStrFacts.c_str_nul_free.
  unfold nul_free in *. now apply ClientFacts.forall_firstn.
Qed.

(** What [fgets], the terminator and the newline cut leave of a stream. *)
Lemma chomp_fgets_take n s :
  chomp (fgets_take n s) = firstn n (first_line s).
Proof.
  unfold chomp. revert s. induction n as [|n IH]; intros [|ch s]; cbn;
    try reflexivity.
  destruct (Byte.eqb ch x0a) eqn:E1; cbn.
  - apply Byte.byte_dec_bl in E1. subst ch. reflexivity.
  - destruct (Byte.eqb ch x00) eqn:E2; cbn; [reflexivity|].
    rewrite E1. now rewrite IH.
Qed.

Lemma cut_newline_strncpy_fgets_take n m s :
  cut_newline (firstn m (c_str (fgets_take n s)))
  = firstn (Nat.min m n) (first_line s).
Proof.
  revert m s. induction n as [|n IH]; intros m [|ch s]; cbn;
    try (destruct m; reflexivity); try (rewrite Nat.min_0_r; reflexivity).
  destruct (Byte.eqb ch x0a) eqn:E1; cbn.
  - apply Byte.byte_dec_bl in E1. subst ch. destruct m; reflexivity.
  - destruct (Byte.eqb ch x00) eqn:E2; cbn; [destruct m; reflexivity|].
    destruct m as [|m]; cbn; [reflexivity|]. rewrite E1. now rewrite IH.
Qed.

Lemma name_char_not_nul ch : name_char ch = true -> ch <> x00.
Proof. intros H ->. discriminate. Qed.

(** What [op_get_username] tests, and what it returns. *)
Lemma op_get_username_cases whoami env_user u :
  op_get_username whoami env_user = Some u ->
  username_valid u = true
  /\ ((exists stream, whoami = Some stream /\ stream <> []
                      /\ u = firstn 31 (first_line stream))
      \/ (exists e, env_user = Some e /\ u = strncpy e 31
                    /\ forall stream, whoami = Some stream ->
                                      first_line stream = [])).
Proof.
  unfold op_get_username.
  assert (Hs : forall stream, stream <> [] ->
            fgets 64 stream = Some (fgets_take 63 stream))
    by (intros [|? ?] H; [congruence|reflexivity]).
  assert (Hc : forall stream,
            strncpy (chomp (fgets_take 63 stream)) 31
            = firstn 31 (first_line stream)).
  { intros stream. unfold strncpy. rewrite chomp_fgets_take.
    rewrite c_str_firstn_clean by apply first_line_clean.
    rewrite firstn_firstn. reflexivity. }
  set (U1 := match whoami with Some stream => _ | None => _ end).
  assert (H1 : (U1 = [] /\ forall stream, whoami = Some stream ->
                                         firstn 31 (first_line stream) = [])
               \/ (U1 <> [] /\ exists stream, whoami = Some stream
                     /\ stream <> [] /\ U1 = firstn 31 (first_line stream))).
  { subst U1. destruct whoami as [[|ch stream]|].
    - left. split; [reflexivity|]. intros ? [= <-]. reflexivity.
    - rewrite Hs by discriminate. rewrite Hc.
      destruct (firstn 31 (first_line (ch :: stream))) eqn:E.
      + left. split; [reflexivity|]. intros ? [= <-]. exact E.
      + right. split; [discriminate|]. exists (ch :: stream).
        split; [reflexivity|]. split; [discriminate|]. now rewrite E.
    - left. split; [reflexivity|]. intros ? [=]. }
  clearbody U1.
  destruct H1 as [[-> Hw]|[Hne (stream & -> & Hs1 & ->)]].
  - destruct env_user as [e|]; [|cbn; discriminate].
    destruct (c_str e) eqn:Ee; [cbn; discriminate|].
    destruct (username_valid (strncpy e 31)) eqn:Hv; [|discriminate].
    intros [= <-]. split; [exact Hv|]. right. exists e.
    split; [reflexivity|]. split; [reflexivity|].
    intros stream Hst. specialize (Hw stream Hst).
    destruct (first_line stream); [reflexivity|discriminate].
  - destruct (firstn 31 (first_line stream)) eqn:E; [congruence|].
    rewrite <- E.
    destruct (username_valid (firstn 31 (first_line stream))) eqn:Hv;
      [|discriminate].
    intros [= <-]. split; [exact Hv|]. left. exists stream. auto.
Qed.

Lemma username_valid_chars u :
  username_valid u = true ->
  c_str u <> [] /\ Forall (fun ch => name_char ch = true) (c_str u).
Proof.
  unfold username_valid. destruct (c_str u) eqn:E; [discriminate|].
  intros H. split; [discriminate|]. apply Forall_forall.
  now apply forallb_forall.
Qed.

(** X16.  clientOp.c: when [get_username] succeeds, the name it leaves in
    [settings.username] is not empty, has at most 31 bytes, all of them
    letters, digits, [_], [-] or [.], and is the name the server reads from
    the LOGIN record; it is the first line of [whoami] (cut to 31 bytes)
    when [whoami] ran and that line is not empty, and the value of [USER]
    (cut to 31 bytes) otherwise. *)
Theorem op_get_username_sound (whoami env_user : option (list byte))
    (u : list byte) :
  op_get_username whoami env_user = Some u ->
  u <> [] /\ (length u <= 31)%nat
  /\ Forall (fun ch => name_char ch = true) u
  /\ c_str (Wire.username (frame LOGIN u [])) = u
  /\ ((exists stream, whoami = Some stream
                      /\ u = firstn 31 (first_line stream))
      \/ (exists e, env_user = Some e /\ u = strncpy e 31
                    /\ forall stream, whoami = Some stream ->
                                      first_line stream = [])).
Proof.
  intros H. destruct (op_get_username_cases _ _ _ H) as [Hv Hfrom].
  destruct (username_valid_chars u Hv) as [Hne Hch].
  assert (Hlen : (length u <= 31)%nat).
  { destruct Hfrom as [(stream & _ & _ & ->)|(e & _ & -> & _)].
    - rewrite length_firstn. lia.
    - apply CStrFacts.strncpy_length. }
  assert (Hnf : nul_free u).
  { destruct Hfrom as [(stream & _ & _ & ->)|(e & _ & -> & _)].
    - unfold nul_free. apply ClientFacts.forall_firstn, first_line_clean.
    - unfold strncpy, nul_free.
      apply ClientFacts.forall_firstn, CStrFacts.c_str_is_nul_free. }
  assert (Hc : c_str u = u) by now apply CStrFacts.c_str_nul_free.
  rewrite Hc in Hne, Hch.
  split; [exact Hne|]. split; [exact Hlen|]. split; [exact Hch|]. split.
  - destruct (CodecFacts.record_decodes LOGIN 0 u [])
      as (_ & _ & _ & Hu & _); [unfold LOGIN; lia | lia |].
    change (server_frame LOGIN 0 u []) with (frame LOGIN u []) in Hu.
    rewrite Hu. unfold strncpy. rewrite Hc. now apply firstn_all2.
  - destruct Hfrom as [(stream & Hw & _ & Hu)|Henv]; [left|right; exact Henv].
    exists stream. auto.
Qed.

Lemma op_get_username_sound_witness :
  op_get_username (Some (lit "alice" ++ [x0a])) (Some (lit "bob"))
  = Some (lit "alice")
  /\ c_str (Wire.username (frame LOGIN (lit "alice") [])) = lit "alice".
Proof.
  split; [reflexivity|].
  destruct (op_get_username_sound (Some (lit "alice" ++ [x0a]))
              (Some (lit "bob")) (lit "alice"))
    as (_ & _ & _ & H & _); [reflexivity|exact H].
Defined.

(** X17.  client.c and clientAi.c: when [get_username] returns, the name
    is the first line of [whoami] cut to 31 bytes -- without newline and
    NUL, and with no other test: it may be empty and may hold any other
    byte. *)
Theorem get_username_shape (whoami : option (list byte)) (u : list byte) :
  get_username whoami = Some u ->
  (exists stream, whoami = Some stream /\ stream <> []
                  /\ u = firstn 31 (first_line stream))
  /\ (length u <= 31)%nat /\ nul_free u /\ ~ In x0a u.
Proof.
  unfold get_username. destruct whoami as [[|ch stream]|]; try discriminate.
  change (fgets 32 (ch :: stream)) with (Some (fgets_take 31 (ch :: stream))).
  cbv beta iota. unfold strncpy.
  rewrite cut_newline_strncpy_fgets_take.
  change (Nat.min 31 31) with 31%nat.
  intros H. apply (f_equal (fun o => match o with Some v => v | None => u end)) in H.
  subst u. split; [exists (ch :: stream); repeat split; discriminate|].
  destruct (first_line_clean (ch :: stream)) as [Hn Hl].
  split; [rewrite length_firstn; lia|]. split.
  - unfold nul_free. now apply ClientFacts.forall_firstn.
  - intros Hin. apply Hl.
    rewrite <- (firstn_skipn 31 (first_line (ch :: stream))).
    apply in_or_app. now left.
Qed.

Lemma get_username_shape_witness :
  get_username (Some (lit "alice smith" ++ [x0a])) = Some (lit "alice smith")
  /\ (length (lit "alice smith") <= 31)%nat.
Proof.
  split; [reflexivity|].
  destruct (get_username_shape (Some (lit "alice smith" ++ [x0a]))
              (lit "alice smith"))
    as (_ & H & _); [reflexivity|exact H].
Defined.

(** X18.  The variants agree on the name: whenever [get_username] of
    clientOp.c succeeds on a non-empty first line of [whoami],
    [get_username] of client.c and clientAi.c gives the same name for the
    same output of [whoami], whatever [USER] holds. *)
Theorem usernames_agree (stream : list byte) (env_user : option (list byte))
    (u : list byte) :
  op_get_username (Some stream) env_user = Some u ->
  first_line stream <> [] ->
  get_username (Some stream) = Some u.
Proof.
  intros H Hne.
  destruct (op_get_username_cases _ _ _ H) as [_ Hfrom].
  assert (Hu : u = firstn 31 (first_line stream)).
  { destruct Hfrom as [(st & [= <-] & _ & Hu)|(e & _ & _ & Hw)]; [exact Hu|].
    destruct Hne. now apply Hw. }
  subst u. unfold get_username.
  destruct stream as [|ch stream]; [destruct Hne; reflexivity|].
  change (fgets 32 (ch :: stream)) with (Some (fgets_take 31 (ch :: stream))).
  cbv beta iota. unfold strncpy.
  rewrite cut_newline_strncpy_fgets_take. reflexivity.
Qed.

Lemma usernames_agree_witness :
  get_username (Some (lit "alice" ++ [x0a])) = Some (lit "alice").
Proof.
  apply (usernames_agree (lit "alice" ++ [x0a]) (Some (lit "bob")) (lit "alice"));
    [reflexivity|discriminate].
Defined.

End IdentityFacts.

(** ** The arguments of clientOp.c *)

Module ArgsFacts.
Import CStr Args.

Section Libc.

Variable addr : Type.
Variable atoi : list byte -> Z.
Variable inet_pton : list byte -> option addr.
Variable gethostbyname : list byte -> option addr.

(** Arguments that are read without an error leave the process_args_loop addr atoi inet_pton gethostbyname where it
    would stand had it started behind them. *)
Lemma loop_app : forall n pre, length pre = n ->
  forall rest s i d s1 i1 d1,
    process_args_loop addr atoi inet_pton gethostbyname pre s i d = Parsed s1 i1 d1 ->
    process_args_loop addr atoi inet_pton gethostbyname (pre ++ rest) s i d = process_args_loop addr atoi inet_pton gethostbyname rest s1 i1 d1.
Proof.
  induction n as [n IH] using lt_wf_ind.
  intros [|a r] Hn rest s i d s1 i1 d1; cbn [process_args_loop app].
  - intros [= <- <- <-]. reflexivity.
  - destruct (_ || _); [discriminate|].
    destruct (str_eq a (lit "--quiet")).
    { apply (IH (length r)); [subst n; cbn; lia|reflexivity]. }
    destruct (str_eq a (lit "--port")).
    { destruct r as [|v r']; [discriminate|]. cbn [app].
      destruct (_ || _); [discriminate|].
      apply (IH (length r')); [subst n; cbn; lia|reflexivity]. }
    destruct (str_eq a (lit "--ip")).
    { destruct r as [|v r']; [discriminate|]. cbn [app].
      destruct d; [discriminate|].
      destruct (inet_pton v); [|discriminate].
      apply (IH (length r')); [subst n; cbn; lia|reflexivity]. }
    destruct (str_eq a (lit "--domain")); [|discriminate].
    destruct r as [|v r']; [discriminate|]. cbn [app].
    destruct i; [discriminate|].
    destruct (gethostbyname v); [|discriminate].
    apply (IH (length r')); [subst n; cbn; lia|reflexivity].
Qed.

Lemma option_at_app args more s0 flag v :
  option_at addr atoi inet_pton gethostbyname args s0 flag v -> option_at addr atoi inet_pton gethostbyname (args ++ more) s0 flag v.
Proof.
  intros (pre & post & s1 & i1 & d1 & -> & Hp).
  exists pre, (post ++ more), s1, i1, d1. split; [|exact Hp].
  rewrite <- app_assoc. reflexivity.
Qed.

Lemma option_at_end done s0 s i d flag v :
  process_args_loop addr atoi inet_pton gethostbyname done s0 false false = Parsed s i d ->
  option_at addr atoi inet_pton gethostbyname (done ++ [flag; v]) s0 flag v.
Proof. intros H. exists done, [], s, i, d. split; [reflexivity|exact H]. Qed.

(** The step of the invariant: the settings for a longer list of
    arguments, when a field and its flag stay as they are. *)
Lemma ok_app args more s0 s s' i d :
  sin_port s' = sin_port s -> sin_addr s' = sin_addr s ->
  args_ok addr atoi inet_pton gethostbyname args s0 s i d -> args_ok addr atoi inet_pton gethostbyname (args ++ more) s0 s' i d.
Proof.
  intros Hp Ha (H1 & H2 & H3 & H4 & H5). unfold args_ok. rewrite Hp, Ha.
  split; [|split; [exact H2|split; [exact H3|split]]].
  - destruct H1 as [H1|(flag & v & Hat & Hrest)]; [now left|right].
    exists flag, v. split; [now apply option_at_app|exact Hrest].
  - intros Hi. destruct (H4 Hi) as (flag & v & Hat & Hrest).
    exists flag, v. split; [now apply option_at_app|exact Hrest].
  - intros Hd. destruct (H5 Hd) as (flag & v & Hat & Hrest).
    exists flag, v. split; [now apply option_at_app|exact Hrest].
Qed.

Lemma process_args_loop_ok s0 : forall n args, length args = n ->
  forall done s ip_set domain_set s' i d,
    process_args_loop addr atoi inet_pton gethostbyname done s0 false false = Parsed s ip_set domain_set ->
    args_ok addr atoi inet_pton gethostbyname done s0 s ip_set domain_set ->
    process_args_loop addr atoi inet_pton gethostbyname args s ip_set domain_set = Parsed s' i d ->
    args_ok addr atoi inet_pton gethostbyname (done ++ args) s0 s' i d.
Proof.
  induction n as [n IH] using lt_wf_ind.
  intros [|a rest] Hn done s ip_set domain_set s' i d Hdone Hok;
    cbn [process_args_loop].
  - intros [= <- <- <-]. now rewrite app_nil_r.
  - destruct (str_eq a (lit "--help") || str_eq a (lit "-h")) eqn:E0;
      [discriminate|].
    destruct (str_eq a (lit "--quiet")) eqn:E1.
    { intros Hrun.
      replace (done ++ a :: rest) with ((done ++ [a]) ++ rest)
        by (rewrite <- app_assoc; reflexivity).
      refine (IH (length rest) _ rest eq_refl (done ++ [a]) _ _ _ _ _ _ _ _ Hrun);
        [subst n; cbn; lia| |].
      - rewrite (loop_app _ done eq_refl [a] _ _ _ _ _ _ Hdone).
        cbn [process_args_loop]. now rewrite E0, E1.
      - apply (ok_app done [a] s0 s); [reflexivity|reflexivity|exact Hok]. }
    destruct (str_eq a (lit "--port")) eqn:E2.
    { destruct rest as [|v rest']; [discriminate|].
      destruct ((atoi v <=? 0) || (atoi v >? 65535)) eqn:Er; [discriminate|].
      intros Hrun.
      replace (done ++ a :: v :: rest') with ((done ++ [a; v]) ++ rest')
        by (rewrite <- app_assoc; reflexivity).
      refine (IH (length rest') _ rest' eq_refl (done ++ [a; v]) _ _ _ _ _ _ _ _ Hrun);
        [subst n; cbn; lia| |].
      - rewrite (loop_app _ done eq_refl [a; v] _ _ _ _ _ _ Hdone).
        cbn [process_args_loop]. now rewrite E0, E1, E2, Er.
      - apply orb_false_iff in Er. destruct Er as [Hlo Hhi].
        apply Z.leb_gt in Hlo. rewrite Z.gtb_ltb in Hhi. apply Z.ltb_ge in Hhi.
        destruct (ok_app done [a; v] s0 s s ip_set domain_set eq_refl eq_refl Hok)
          as (_ & H2 & H3 & H4 & H5).
        split; [|split; [exact H2|split; [exact H3|split; [exact H4|exact H5]]]].
        right. exists a, v. split; [now apply (option_at_end done s0 s ip_set domain_set)|].
        split; [exact E2|]. split; [reflexivity|]. cbn. lia. }
    destruct (str_eq a (lit "--ip")) eqn:E3.
    { destruct rest as [|v rest']; [discriminate|].
      destruct domain_set eqn:Ed; [discriminate|].
      destruct (inet_pton v) as [ip|] eqn:Ep; [|discriminate].
      intros Hrun.
      replace (done ++ a :: v :: rest') with ((done ++ [a; v]) ++ rest')
        by (rewrite <- app_assoc; reflexivity).
      refine (IH (length rest') _ rest' eq_refl (done ++ [a; v]) _ _ _ _ _ _ _ _ Hrun);
        [subst n; cbn; lia| |].
      - rewrite (loop_app _ done eq_refl [a; v] _ _ _ _ _ _ Hdone).
        cbn [process_args_loop]. now rewrite E0, E1, E2, E3, Ep.
      - destruct (ok_app done [a; v] s0 s s ip_set false eq_refl eq_refl Hok)
          as (H1 & _ & _ & _ & _).
        split; [exact H1|]. split; [reflexivity|].
        split; [discriminate|]. split; [|discriminate].
        intros _. exists a, v.
        split; [now apply (option_at_end done s0 s ip_set false)|].
        split; [exact E3|exact Ep]. }
    destruct (str_eq a (lit "--domain")) eqn:E4; [|discriminate].
    destruct rest as [|v rest']; [discriminate|].
    destruct ip_set eqn:Ei; [discriminate|].
    destruct (gethostbyname v) as [ip|] eqn:Ep; [|discriminate].
    intros Hrun.
    replace (done ++ a :: v :: rest') with ((done ++ [a; v]) ++ rest')
      by (rewrite <- app_assoc; reflexivity).
    refine (IH (length rest') _ rest' eq_refl (done ++ [a; v]) _ _ _ _ _ _ _ _ Hrun);
        [subst n; cbn; lia| |].
    + rewrite (loop_app _ done eq_refl [a; v] _ _ _ _ _ _ Hdone).
      cbn [process_args_loop]. now rewrite E0, E1, E2, E3, E4, Ep.
    + destruct (ok_app done [a; v] s0 s s false domain_set eq_refl eq_refl Hok)
        as (H1 & _ & _ & _ & _).
      split; [exact H1|]. split; [reflexivity|].
      split; [discriminate|]. split; [discriminate|].
      intros _. exists a, v.
      split; [now apply (option_at_end done s0 s false domain_set)|].
      split; [exact E4|exact Ep].
Qed.

End Libc.



End ArgsFacts.

(** ** Mentions *)

Module MentionsFacts.
Import CStr Mentions.

Lemma is_prefix_split needle : forall hay,
  is_prefix needle hay = true -> hay = needle ++ skipn (length needle) hay.
Proof.
  induction needle as [|n needle IH]; intros hay H; [reflexivity|].
  destruct hay as [|h hay]; [discriminate|]. cbn in H.
  apply andb_true_iff in H. destruct H as [E H].
  apply Byte.byte_dec_bl in E. subst h. cbn. f_equal. now apply IH.
Qed.

Lemma strstr_split needle : forall p before m,
  strstr p needle = Some (before, m) ->
  p = before ++ m /\ is_prefix needle m = true.
Proof.
  induction p as [|ch p IH]; intros before m; cbn [strstr].
  - destruct (is_prefix needle []) eqn:E; [|discriminate].
    intros [= <- <-]. auto.
  - destruct (is_prefix needle (ch :: p)) eqn:E.
    + intros [= <- <-]. auto.
    + destruct (strstr p needle) as [[b m']|] eqn:Es; [|discriminate].
      intros [= <- <-]. destruct (IH b m' eq_refl) as [-> Hm]. auto.
Qed.

(** The loop ends within its fuel, and what it prints is the text with
    each occurrence it found replaced by a mention. *)
Lemma mention_loop_spec needle shown :
  needle <> [] ->
  forall fuel p, (length p + 1 <= fuel)%nat ->
    exists ps,
      mention_loop fuel p needle shown = Some ps
      /\ unmark needle ps = p
      /\ Forall (fun q => forall n, q = Alert n -> n = shown) ps
      /\ (strstr p needle = None -> ps = [Raw p]).
Proof.
  intros Hne. induction fuel as [|fuel IH]; intros p Hf; [lia|].
  cbn [mention_loop].
  destruct (strstr p needle) as [[before m]|] eqn:Es.
  - destruct (strstr_split _ _ _ _ Es) as [Hp Hm].
    pose proof (is_prefix_split _ _ Hm) as Hsplit.
    assert (Hlen : (length (skipn (length needle) m) + 1 <= fuel)%nat).
    { apply (f_equal (@length _)) in Hsplit. subst p.
      rewrite length_app in Hf. rewrite length_app in Hsplit.
      destruct needle; [congruence|]. cbn [length] in *. lia. }
    destruct (IH _ Hlen) as (ps & -> & Hu & Hall & _).
    eexists. split; [reflexivity|]. split; [|split; [|discriminate]].
    + unfold unmark in *. cbn [map concat]. rewrite Hu, Hp.
      rewrite Hsplit at 2. reflexivity.
    + constructor; [discriminate|]. constructor; [|exact Hall].
      now intros n [= <-].
  - exists [Raw p]. split; [reflexivity|]. split; [apply app_nil_r|].
    split; [|auto]. constructor; [discriminate|constructor].
Qed.

Lemma at_name_nonempty size u : (2 <= size)%nat -> at_name size u <> [].
Proof.
  unfold at_name. intros H. destruct (size - 1)%nat eqn:E; [lia|]. discriminate.
Qed.

Lemma plain_unmark needle ps :
  Forall (fun q => forall n, q = Alert n -> n = needle) ps ->
  plain ps = unmark needle ps.
Proof.
  unfold plain, unmark. induction 1 as [|q ps Hq _ IH]; [reflexivity|].
  cbn [map concat]. rewrite IH. destruct q as [t|n]; [reflexivity|].
  now rewrite (Hq n eq_refl).
Qed.

(** X20.  clientOp.c: [print_with_mentions] returns for every text and
    name; what it prints is the text itself once the bell and the colours
    are taken out; every mention shows [@] and the name; and a text
    without a mention is printed unchanged, in one piece. *)
Theorem print_with_mentions_plain (msg username : list byte) :
  exists ps,
    print_with_mentions msg username = Some ps
    /\ plain ps = c_str msg
    /\ Forall (fun q => forall n, q = Alert n -> n = at_name 64 username) ps
    /\ (strstr (c_str msg) (at_name 64 username) = None ->
        ps = [Raw (c_str msg)] /\ render ps = c_str msg).
Proof.
  unfold print_with_mentions.
  destruct (mention_loop_spec (at_name 64 username) (at_name 64 username)
              (at_name_nonempty 64 username ltac:(lia))
              (length (c_str msg) + 1) (c_str msg) (Nat.le_refl _))
    as (ps & Hr & Hu & Hall & Hnone).
  exists ps. split; [exact Hr|]. split; [|split; [exact Hall|]].
  - now rewrite (plain_unmark _ _ Hall).
  - intros Hn. rewrite (Hnone Hn). split; [reflexivity|].
    unfold render. cbn [map concat]. apply app_nil_r.
Qed.

(** X21.  client.c and clientAi.c: [highlighted_username] returns for
    every text and name; the text between the mentions is printed as it
    is, each mention standing where the needle of at most 31 bytes was
    found; and for a name of at most 30 bytes what is printed is the text
    itself once the bell and the colours are taken out.  (For a name of 31
    bytes the needle lacks the last byte of the name, which the mention
    still prints.) *)
Theorem highlighted_username_plain (message username : list byte) :
  exists ps,
    highlighted_username message username = Some ps
    /\ unmark (at_name 32 username) ps = c_str message
    /\ Forall (fun q => forall n, q = Alert n -> n = x40 :: c_str username) ps
    /\ ((length (c_str username) <= 30)%nat -> plain ps = c_str message).
Proof.
  unfold highlighted_username.
  destruct (mention_loop_spec (at_name 32 username) (x40 :: c_str username)
              (at_name_nonempty 32 username ltac:(lia))
              (length (c_str message) + 1) (c_str message) (Nat.le_refl _))
    as (ps & Hr & Hu & Hall & _).
  exists ps. split; [exact Hr|]. split; [exact Hu|]. split; [exact Hall|].
  intros Hlen.
  assert (Hn : at_name 32 username = x40 :: c_str username).
  { unfold at_name. apply firstn_all2. exact (le_n_S _ _ Hlen). }
  rewrite <- Hn in Hall. now rewrite (plain_unmark _ _ Hall).
Qed.

(** A name of 31 bytes: the mention prints a byte that the text did not
    hold. *)
Example highlighted_username_long_name :
  let name := repeat x61 31 in
  let text := x40 :: repeat x61 30 ++ lit "!" in
  option_map plain (highlighted_username text name)
  = Some (x40 :: repeat x61 31 ++ lit "!").
Proof. vm_compute. reflexivity. Qed.

End MentionsFacts.

(** ** The Gravemind filter *)

Module GravemindFacts.
Import CStr Ctype Wire Gravemind.

Lemma uchar_range ch : 0 <= uchar ch < 256.
Proof.
  unfold uchar. pose proof (Byte.to_N_bounded ch) as H. lia.
Qed.

Lemma uchar_lower ch :
  uchar (byte_of_Z (tolower (uchar ch))) = tolower (uchar ch).
Proof.
  rewrite CodecFacts.uchar_byte_of_Z. apply Z.mod_small.
  pose proof (uchar_range ch) as H. unfold tolower, isupper.
  destruct (Z.leb_spec 65 (uchar ch)), (Z.leb_spec (uchar ch) 90); cbn; lia.
Qed.

Lemma lower_not_upper ch :
  isupper (uchar (byte_of_Z (tolower (uchar ch)))) = false.
Proof.
  rewrite uchar_lower. unfold tolower, isupper.
  destruct (Z.leb_spec 65 (uchar ch)), (Z.leb_spec (uchar ch) 90); cbn;
    repeat match goal with
      | |- context [?a <=? ?b] => destruct (Z.leb_spec a b)
      end; cbn; try reflexivity; lia.
Qed.

Lemma lower_not_nul ch : ch <> x00 -> byte_of_Z (tolower (uchar ch)) <> x00.
Proof.
  intros Hne E. apply (f_equal uchar) in E. rewrite uchar_lower in E.
  change (uchar x00) with 0 in E.
  assert (Hz : uchar ch <> 0).
  { intros Hz. apply Hne. unfold uchar in Hz.
    assert (Hn : Byte.to_N ch = Byte.to_N x00)
      by (change (Byte.to_N x00) with 0%N; lia).
    apply (f_equal Byte.of_N) in Hn. rewrite !Byte.of_to_N in Hn.
    now injection Hn. }
  pose proof (uchar_range ch) as H. unfold tolower, isupper in E.
  destruct (Z.leb_spec 65 (uchar ch)), (Z.leb_spec (uchar ch) 90);
    cbn in E; lia.
Qed.

Lemma filter_loop_length rand max : forall input j calls,
  (length (gravemind_filter_loop input j max rand calls) <= max - 1 - j)%nat.
Proof.
  induction input as [|ch input IH]; intros j calls; cbn [gravemind_filter_loop];
    [cbn; lia|].
  destruct (Nat.ltb_spec (j + 1) max) as [H1|H1]; [|cbn; lia].
  destruct (isalnum _).
  - destruct (_ =? _)%nat; cbn [andb].
    + destruct (Nat.ltb_spec (j + 1 + 1) max) as [H2|H2]; cbn [length].
      * specialize (IH (j + 1 + 1)%nat (calls + 1)%nat). lia.
      * specialize (IH (j + 1)%nat (calls + 1)%nat). lia.
    + cbn [length]. specialize (IH (j + 1)%nat (calls + 1)%nat). lia.
  - cbn [length]. specialize (IH (j + 1)%nat calls). lia.
Qed.

Lemma filter_loop_bytes rand max : forall input j calls,
  nul_free input ->
  nul_free (gravemind_filter_loop input j max rand calls)
  /\ Forall (fun b => isupper (uchar b) = false)
       (gravemind_filter_loop input j max rand calls).
Proof.
  induction input as [|ch input IH]; intros j calls Hn;
    cbn [gravemind_filter_loop]; [split; constructor|].
  inversion Hn as [|? ? Hch Hrest]; subst.
  destruct (_ <? _)%nat; [|split; constructor].
  pose proof (lower_not_nul ch Hch) as Hl.
  pose proof (lower_not_upper ch) as Hu.
  destruct (isalnum _).
  - destruct (_ && _).
    + destruct (IH (j + 1 + 1)%nat (calls + 1)%nat Hrest) as [I1 I2].
      split; repeat constructor; try assumption. discriminate.
    + destruct (IH (j + 1)%nat (calls + 1)%nat Hrest) as [I1 I2].
      split; constructor; assumption.
  - destruct (IH (j + 1)%nat calls Hrest) as [I1 I2].
    split; constructor; assumption.
Qed.

Lemma filter_loop_no_dot rand max :
  (forall n, (rand n mod 6)%nat <> 0%nat) ->
  forall input j calls,
    gravemind_filter_loop input j max rand calls
    = map (fun ch => byte_of_Z (tolower (uchar ch))) (firstn (max - 1 - j) input).
Proof.
  intros Hr. induction input as [|ch input IH]; intros j calls;
    cbn [gravemind_filter_loop]; [now rewrite firstn_nil|].
  destruct (Nat.ltb_spec (j + 1) max) as [H1|H1].
  - replace (max - 1 - j)%nat with (S (max - 1 - (j + 1))) by lia.
    cbn [firstn map].
    destruct (Nat.eqb_spec (rand calls mod 6) 0) as [E|_];
      [destruct (Hr calls E)|].
    cbn [andb]. destruct (isalnum _); now rewrite IH.
  - replace (max - 1 - j)%nat with 0%nat by lia. reflexivity.
Qed.

(** X22.  client.c and clientAi.c: whatever [rand] gives, the string that
    [gravemind_filter] leaves in a buffer of [max] bytes has at most
    [max - 1] bytes, none of them NUL and none an upper-case letter; and
    when no call of [rand] gives a multiple of 6 it is the input in lower
    case, cut to [max - 1] bytes. *)
Theorem gravemind_filter_spec (input : list byte) (max : nat) (rand : nat -> nat) :
  (length (gravemind_filter input max rand) <= max - 1)%nat
  /\ nul_free (gravemind_filter input max rand)
  /\ Forall (fun b => isupper (uchar b) = false) (gravemind_filter input max rand)
  /\ ((forall n, (rand n mod 6)%nat <> 0%nat) ->
      gravemind_filter input max rand
      = map (fun ch => byte_of_Z (tolower (uchar ch)))
          (firstn (max - 1) (c_str input))).
Proof.
  unfold gravemind_filter.
  pose proof (filter_loop_length rand max (c_str input) 0 0) as Hl.
  destruct (filter_loop_bytes rand max (c_str input) 0 0
              (CStrFacts.c_str_is_nul_free input)) as [Hn Hu].
  split; [lia|]. split; [exact Hn|]. split; [exact Hu|].
  intros Hr. rewrite (filter_loop_no_dot rand max Hr).
  now rewrite Nat.sub_0_r.
Qed.

Example gravemind_filter_dots :
  gravemind_filter (lit "Hello, World") 1024 (fun n => (n * 3)%nat)
  = lit "h.el.lo., wo.rl.d".
Proof. vm_compute. reflexivity. Qed.

End GravemindFacts.

(** ** The terminal modes *)

Module RawModeFacts.
Import CStr RawMode.

(** A bit of the mask is clear after [flags &= ~mask], also for a part of
    the mask. *)
Lemma clear_bits_land flags mask part :
  Z.land part mask = part ->
  Z.land (clear_bits flags mask) part = 0.
Proof.
  intros Hpart. unfold clear_bits. apply Z.bits_inj'. intros i Hi.
  rewrite Z.bits_0, !Z.land_spec, Z.lnot_spec by exact Hi.
  apply (f_equal (fun z => Z.testbit z i)) in Hpart.
  rewrite Z.land_spec in Hpart.
  destruct (Z.testbit part i); [|apply andb_false_r].
  cbn [andb] in Hpart. rewrite Hpart. cbn [negb andb].
  now rewrite andb_false_r.
Qed.

Lemma land_lor_l a b : Z.land a (Z.lor a b) = a.
Proof.
  apply Z.bits_inj'. intros i Hi. rewrite Z.land_spec, Z.lor_spec.
  destruct (Z.testbit a i), (Z.testbit b i); reflexivity.
Qed.

Lemma land_lor_r a b : Z.land b (Z.lor a b) = b.
Proof. rewrite Z.lor_comm. apply land_lor_l. Qed.

(** X23.  client.c and clientAi.c, from a terminal that is not in raw
    mode: [tui_raw_enable] clears the bits ECHO, ICANON, IXON, ICRNL and
    OPOST and leaves [c_cflag]; a second [tui_raw_enable] changes nothing
    (so the saved modes are never the raw ones); and [tui_raw_disable]
    afterwards puts every mode back as it was, hides and shows the cursor
    once each, and a second [tui_raw_disable] changes nothing. *)
Theorem raw_mode_round_trip (ECHO ICANON IXON ICRNL OPOST : Z) (s : tty_state) :
  g_raw_enabled s = false ->
  let enable := tui_raw_enable ECHO ICANON IXON ICRNL OPOST in
  tty (tui_raw_disable (enable s)) = tty s
  /\ g_raw_enabled (tui_raw_disable (enable s)) = false
  /\ written (tui_raw_disable (enable s)) = written s ++ [ANSI_HIDE; ANSI_SHOW]
  /\ enable (enable s) = enable s
  /\ tui_raw_disable (tui_raw_disable (enable s)) = tui_raw_disable (enable s)
  /\ Z.land (c_lflag (tty (enable s))) ECHO = 0
  /\ Z.land (c_lflag (tty (enable s))) ICANON = 0
  /\ Z.land (c_iflag (tty (enable s))) IXON = 0
  /\ Z.land (c_iflag (tty (enable s))) ICRNL = 0
  /\ Z.land (c_oflag (tty (enable s))) OPOST = 0
  /\ c_cflag (tty (enable s)) = c_cflag (tty s).
Proof.
  intros Hoff enable. subst enable. unfold tui_raw_enable, tui_raw_disable.
  rewrite Hoff. cbn [g_raw_enabled tty g_orig_termios written at_exit
                     c_lflag c_iflag c_oflag c_cflag].
  rewrite <- app_assoc. cbn [app].
  repeat split;
    apply clear_bits_land;
    first [ apply land_lor_l | apply land_lor_r | apply Z.land_diag ].
Qed.

Lemma raw_mode_round_trip_witness :
  g_raw_enabled cooked = false
  /\ tty (tui_raw_disable (linux_raw_enable cooked)) = tty cooked
  /\ c_lflag (tty (linux_raw_enable cooked)) = 35377.
Proof.
  split; [reflexivity|]. split; [|reflexivity].
  destruct (raw_mode_round_trip 8 2 1024 256 1 cooked eq_refl) as (H & _).
  exact H.
Defined.

End RawModeFacts.

(** ** The page keys of clientAi.c *)

Module ClientAiFacts.
Import CStr Display Env Client Bounds.

Lemma read_key_keeps c :
  ed (snd (read_key c)) = ed c /\ disp (snd (read_key c)) = disp c.
Proof. unfold read_key. destruct (pop (term_in (w c))). split; reflexivity. Qed.

Lemma read_key_next c k rest :
  term_in (w c) = k :: rest ->
  fst (read_key c) = k /\ term_in (w (snd (read_key c))) = rest.
Proof. unfold read_key. intros ->. split; reflexivity. Qed.

(** X24.  clientAi.c: the ESC handler keeps the three invariants of the
    input loop -- the edit buffer and the history hold printable bytes
    only and fit their arrays, the history cursor is in range and no two
    neighbouring entries are equal, the display holds at most 600 lines and
    the scroll offset is not negative -- whatever bytes follow the ESC,
    the page keys included. *)
Theorem ai_escape_keeps_invariants (c : client) :
  edit_ok (ed c) -> hist_ok (ed c) -> disp_ok (disp c) ->
  edit_ok (ed (ClientAi.on_escape c))
  /\ hist_ok (ed (ClientAi.on_escape c))
  /\ disp_ok (disp (ClientAi.on_escape c)).
Proof.
  intros He Hh Hd. unfold ClientAi.on_escape.
  destruct (read_key c) as [k1 c1] eqn:E1.
  destruct (read_key_keeps c) as [Hc1e Hc1d]. rewrite E1 in Hc1e, Hc1d.
  cbn [snd] in Hc1e, Hc1d. rewrite <- Hc1e in He, Hh. rewrite <- Hc1d in Hd.
  clear E1 Hc1e Hc1d.
  destruct k1 as [s1|]; [|auto].
  destruct (read_key c1) as [k2 c2] eqn:E2.
  destruct (read_key_keeps c1) as [Hc2e Hc2d]. rewrite E2 in Hc2e, Hc2d.
  cbn [snd] in Hc2e, Hc2d. rewrite <- Hc2e in He, Hh. rewrite <- Hc2d in Hd.
  clear E2 Hc2e Hc2d.
  destruct k2 as [s2|]; [|auto].
  destruct (uchar s1 =? 91); [|auto].
  destruct (uchar s2 =? 65).
  { split; [now apply ClientFacts.on_up_ok|].
    split; [|now apply BoundsFacts.on_up_disp_ok].
    destruct (BoundsFacts.on_up_hist c2) as [H1 H2]. pose proof Hh as (_ & Hi & _).
    apply (BoundsFacts.hist_ok_same (ed c2)); auto. }
  destruct (uchar s2 =? 66).
  { split; [now apply ClientFacts.on_down_ok|].
    split; [|now apply BoundsFacts.on_down_disp_ok].
    destruct (BoundsFacts.on_down_hist c2) as [H1 H2]. pose proof Hh as (_ & Hi & _).
    apply (BoundsFacts.hist_ok_same (ed c2)); auto. }
  destruct (read_key c2) as [k3 c3] eqn:E3.
  destruct (read_key_keeps c2) as [Hc3e Hc3d]. rewrite E3 in Hc3e, Hc3d.
  cbn [snd] in Hc3e, Hc3d. rewrite <- Hc3e in He, Hh. rewrite <- Hc3d in Hd.
  pose proof Hd as [Hlines Hscroll].
  destruct (uchar s2 =? 53).
  { cbn [ed disp dirty set_disp]. split; [exact He|]. split; [exact Hh|].
    apply BoundsFacts.disp_ok_dirty, BoundsFacts.disp_ok_scroll; [lia|exact Hd]. }
  destruct (uchar s2 =? 54); [|rewrite Hc3e in He, Hh; rewrite Hc3d in Hd; auto].
  destruct (Z.gtb_spec (g_scroll (disp c3)) 5);
    cbn [ed disp dirty set_disp]; (split; [exact He|]); (split; [exact Hh|]);
    apply BoundsFacts.disp_ok_dirty, BoundsFacts.disp_ok_scroll;
    try lia; exact Hd.
Qed.

Lemma ai_escape_keeps_invariants_witness :
  disp_ok (disp (ClientAi.on_escape Samples.ai_paging))
  /\ g_scroll (disp (ClientAi.on_escape Samples.ai_paging)) = 5.
Proof.
  split; [|reflexivity].
  destruct (ai_escape_keeps_invariants Samples.ai_paging) as (_ & _ & H).
  - apply ClientFacts.boot_ok.
  - apply BoundsFacts.boot_hist_ok.
  - apply BoundsFacts.boot_disp_ok.
  - exact H.
Defined.

(** X25.  clientAi.c: with a scroll offset that is not negative, the
    page-up sequence raises it by 5 and the page-down sequence after it
    brings it back -- also from the offset 0, where page-down alone would
    stop at 0; the two sequences take three bytes each from the terminal
    and change neither the lines nor the edit buffer and the history. *)
Theorem page_keys_round_trip (c : client) (t1 t2 : option byte)
    (rest : list (option byte)) :
  0 <= g_scroll (disp c) ->
  term_in (w c)
  = Some x5b :: Some x35 :: t1 :: Some x5b :: Some x36 :: t2 :: rest ->
  g_scroll (disp (ClientAi.on_escape c)) = g_scroll (disp c) + 5
  /\ g_scroll (disp (ClientAi.on_escape (ClientAi.on_escape c)))
     = g_scroll (disp c)
  /\ g_lines (disp (ClientAi.on_escape (ClientAi.on_escape c)))
     = g_lines (disp c)
  /\ ed (ClientAi.on_escape (ClientAi.on_escape c)) = ed c
  /\ term_in (w (ClientAi.on_escape (ClientAi.on_escape c))) = rest.
Proof.
  intros Hs Hin.
  assert (Hup : ClientAi.on_escape c
                = dirty (set_disp (set_w c (with_term_in (with_term_in
                           (with_term_in (w c) (Some x35 :: t1 :: Some x5b
                              :: Some x36 :: t2 :: rest))
                           (t1 :: Some x5b :: Some x36 :: t2 :: rest))
                           (Some x5b :: Some x36 :: t2 :: rest)))
                     (set_scroll (disp c) (g_scroll (disp c) + 5)))).
  { unfold ClientAi.on_escape, read_key. rewrite Hin. cbn [pop].
    cbn [w set_w term_in with_term_in pop]. reflexivity. }
  rewrite Hup.
  set (c1 := dirty _).
  assert (Hin1 : term_in (w c1) = Some x5b :: Some x36 :: t2 :: rest)
    by reflexivity.
  assert (Hs1 : g_scroll (disp c1) = g_scroll (disp c) + 5) by reflexivity.
  assert (Hl1 : g_lines (disp c1) = g_lines (disp c)) by reflexivity.
  assert (He1 : ed c1 = ed c) by reflexivity.
  clearbody c1. split; [exact Hs1|].
  unfold ClientAi.on_escape, read_key. rewrite Hin1. cbn [pop].
  cbn [w set_w term_in with_term_in pop disp set_disp].
  change (uchar x5b =? 91) with true. change (uchar x36 =? 65) with false.
  change (uchar x36 =? 66) with false. change (uchar x36 =? 53) with false.
  change (uchar x36 =? 54) with true. cbv beta iota.
  rewrite Hs1.
  destruct (Z.gtb_spec (g_scroll (disp c) + 5) 5) as [Hgt|Hle];
    cbn [disp dirty set_disp set_w g_scroll g_lines set_scroll tui_set_dirty
         ed w term_in with_term_in];
    rewrite ?Hl1, ?He1; repeat split; lia.
Qed.

Lemma page_keys_round_trip_witness :
  g_scroll (disp Samples.ai_paging) = 0
  /\ g_scroll (disp (ClientAi.on_escape (ClientAi.on_escape Samples.ai_paging)))
     = g_scroll (disp Samples.ai_paging).
Proof.
  split; [reflexivity|].
  destruct (page_keys_round_trip Samples.ai_paging (Some x7e) (Some x7e)
              [Some x61])
    as (_ & H & _); [cbn; lia | reflexivity | exact H].
Defined.

End ClientAiFacts.

(** ** Validation across the variants *)

Module ValidationFacts.
Import CStr.

Lemma strict_test_redundant ch :
  negb (uchar ch =? 27) && negb ((uchar ch <? 32) || (uchar ch >? 126))
  = negb ((uchar ch <? 32) || (uchar ch >? 126)).
Proof.
  destruct (Z.eqb_spec (uchar ch) 27) as [E|_]; [|reflexivity].
  rewrite E. reflexivity.
Qed.

(** X26.  The validators agree: [msg_valid] of clientOp.c accepts a string
    exactly when it has between 1 and 1023 bytes and
    [is_ascii_printable_strict] of client.c and clientAi.c accepts it (the
    test for ESC there is covered by the test for the range 32..126). *)
Theorem validators_agree (s : list byte) :
  ClientOp.msg_valid s
  = negb (strlen s =? 0) && negb (strlen s >? 1023)
    && Client.is_ascii_printable_strict s.
Proof.
  unfold ClientOp.msg_valid, Client.is_ascii_printable_strict.
  destruct (strlen s =? 0); [reflexivity|].
  destruct (strlen s >? 1023); [reflexivity|]. cbn [orb negb andb].
  induction (c_str s) as [|ch l IH]; [reflexivity|].
  cbn [forallb]. now rewrite IH, strict_test_redundant.
Qed.

End ValidationFacts.

(** ** Records, one after the other *)

Module FramingFacts.
Import CStr Transport.

(** When the source has the bytes asked for, the loop returns them and
    leaves the bytes after them in the source. *)
Lemma full_read_loop_rest src :
  forall fuel n off got,
    (off <= n)%nat -> (length src + 2 <= fuel)%nat ->
    (n - off <= length (stream_bytes src))%nat ->
    exists src',
      full_read_loop fuel src n off got
      = Some (Z.of_nat n, got ++ firstn (n - off) (stream_bytes src), src')
      /\ stream_bytes src' = skipn (n - off) (stream_bytes src)
      /\ stream_fails src' = stream_fails src.
Proof.
  induction src as [|ev rest IH]; intros fuel n off got Hoff Hfuel Hhave;
    (destruct fuel as [|fuel]; [simpl in Hfuel; lia|]);
    cbn [full_read_loop]; destruct (Nat.ltb_spec off n) as [Hlt|Hge].
  - cbn in Hhave. lia.
  - exists []. replace (n - off)%nat with 0%nat by lia. cbn.
    rewrite app_nil_r. replace off with n by lia. auto.
  - destruct ev as [b bs| |].
    + (* a chunk is ready *)
      cbn [sys_read stream_bytes stream_fails] in *.
      set (need := (n - off)%nat) in *.
      assert (Hd : exists d, firstn need (b :: bs) = b :: d).
      { destruct need eqn:E; [lia|]. eexists. reflexivity. }
      destruct Hd as [d Hd]. rewrite Hd. cbv beta iota. rewrite <- Hd.
      rewrite firstn_app, skipn_app. rewrite length_app in Hhave.
      destruct (Nat.le_gt_cases (length (b :: bs)) need) as [Hall|Hpart].
      * (* taken whole *)
        rewrite (firstn_all2 (b :: bs) Hall).
        rewrite (skipn_all2 (b :: bs) Hall).
        cbn [requeue app].
        destruct (IH fuel n (off + length (b :: bs))%nat (got ++ b :: bs))
          as (src' & Heq & Hb & Hf); [lia | simpl in Hfuel; lia | lia |].
        exists src'. rewrite Heq.
        replace (n - (off + length (b :: bs)))%nat
          with (need - length (b :: bs))%nat in * by lia.
        split; [rewrite <- app_assoc; reflexivity|].
        split; [exact Hb|exact Hf].
      * (* taken in part: the count is reached *)
        destruct (skipn need (b :: bs)) as [|b' bs'] eqn:Hs.
        { apply (f_equal (@length _)) in Hs. rewrite length_skipn in Hs.
          cbn [length] in Hs, Hpart. lia. }
        cbn [requeue].
        assert (Hlen : length (firstn need (b :: bs)) = need)
          by (rewrite length_firstn; lia).
        destruct fuel as [|fuel]; [simpl in Hfuel; lia|].
        cbn [full_read_loop]. rewrite Hlen.
        destruct (Nat.ltb_spec (off + need) n) as [Hbad|_]; [lia|].
        replace (off + need)%nat with n by lia.
        exists (Chunk b' bs' :: rest).
        replace (need - length (b :: bs))%nat with 0%nat by lia.
        cbn [firstn skipn stream_bytes stream_fails]. rewrite app_nil_r.
        auto.
    + (* interrupted: the same read again *)
      cbn [sys_read stream_bytes stream_fails] in *.
      destruct (IH fuel n off got) as (src' & Heq & Hb & Hf);
        [lia | simpl in Hfuel; lia | lia |].
      exists src'. auto.
    + (* failed: no byte was there *)
      cbn [stream_bytes length] in Hhave. lia.
  - (* the count is reached *)
    exists (ev :: rest). replace (n - off)%nat with 0%nat by lia.
    cbn [firstn skipn]. rewrite app_nil_r. replace off with n by lia. auto.
Qed.

Lemma full_read_rest (src : source) (n : nat) :
  (n <= length (stream_bytes src))%nat ->
  exists src',
    full_read src n = Some (Z.of_nat n, firstn n (stream_bytes src), src')
    /\ stream_bytes src' = skipn n (stream_bytes src)
    /\ stream_fails src' = stream_fails src.
Proof.
  intros Hn.
  destruct (full_read_loop_rest src (length src + 2) n 0 [])
    as (src' & Heq & Hb & Hf); [lia | lia | lia |].
  rewrite Nat.sub_0_r in Heq, Hb. cbn [app] in Heq.
  exists src'. auto.
Qed.

(** X27.  The full-read primitive cuts the stream into records: when the
    socket holds [n] bytes or more before its close or failure, a full read
    of [n] returns exactly the first [n] and leaves the socket with
    exactly the bytes after them, so that the next full read of [n]
    returns the next [n] bytes -- however the two stretches are cut into
    chunks and interrupted. *)
Theorem full_read_frames (src : source) (n : nat) :
  (n + n <= length (stream_bytes src))%nat ->
  exists src1 src2,
    full_read src n = Some (Z.of_nat n, firstn n (stream_bytes src), src1)
    /\ full_read src1 n
       = Some (Z.of_nat n, firstn n (skipn n (stream_bytes src)), src2)
    /\ (forall buf, perform_full_read (Some buf) src n = full_read src n)
    /\ stream_bytes src2 = skipn (n + n) (stream_bytes src)
    /\ stream_fails src2 = stream_fails src.
Proof.
  intros Hn.
  destruct (full_read_rest src n) as (src1 & H1 & Hb1 & Hf1); [lia|].
  destruct (full_read_rest src1 n) as (src2 & H2 & Hb2 & Hf2).
  { rewrite Hb1, length_skipn. lia. }
  exists src1, src2. split; [exact H1|]. split; [now rewrite H2, Hb1|].
  split; [reflexivity|]. rewrite Hb2, Hb1, Hf2, Hf1, skipn_skipn. auto.
Qed.

Lemma full_read_frames_witness :
  exists src1 src2,
    full_read [Chunk x61 []; Eintr; Chunk x62 [x63; x64; x65]; Fail] 2
    = Some (2, [x61; x62], src1)
    /\ full_read src1 2 = Some (2, [x63; x64], src2)
    /\ stream_bytes src2 = [x65].
Proof.
  destruct (full_read_frames
              [Chunk x61 []; Eintr; Chunk x62 [x63; x64; x65]; Fail] 2)
    as (src1 & src2 & H1 & H2 & _ & H3 & _); [cbn; lia|].
  exists src1, src2. split; [exact H1|]. split; [exact H2|exact H3].
Defined.

End FramingFacts.

(** ** Records received in a row *)

Module ReceiveFacts.
Import CStr Wire Transport Display Env Client.

(** One turn of the receive thread of client.c when a whole record is in
    the socket: the record is taken, the bytes after it stay, and the
    duplicate guard decides. *)
Lemma rx_full_record c m more :
  rpc c = RxLoop ->
  length (msg (rx c)) = FRAME_SIZE -> length m = FRAME_SIZE ->
  stream_bytes (sock_in (w c)) = m ++ more ->
  exists src',
    stream_bytes src' = more
    /\ step c T_rx
       = (if has_last (rx c) && bytes_eqb m (last_msg (rx c))
          then rx_again
                 (set_rx (set_w c (with_sock_in (w c) src'))
                    {| msg := m; last_msg := last_msg (rx c);
                       has_last := has_last (rx c) |})
          else rx_show
                 (set_rx (set_w c (with_sock_in (w c) src'))
                    {| msg := m; last_msg := m; has_last := true |})).
Proof.
  intros Hpc Hlen Hm Hbytes. cbn [step]. rewrite Hpc. unfold rx_iter.
  change (perform_full_read (Some (msg (rx c))) (sock_in (w c)) FRAME_SIZE)
    with (full_read (sock_in (w c)) FRAME_SIZE).
  destruct (FramingFacts.full_read_rest (sock_in (w c)) FRAME_SIZE)
    as (src' & -> & Hb & _).
  { rewrite Hbytes, length_app. lia. }
  rewrite Hbytes in *.
  assert (Hm1 : firstn FRAME_SIZE (m ++ more) = m).
  { rewrite firstn_app, Hm, Nat.sub_diag, firstn_all2 by lia.
    cbn [firstn]. apply app_nil_r. }
  assert (Hm2 : skipn FRAME_SIZE (m ++ more) = more).
  { rewrite skipn_app, Hm, Nat.sub_diag, skipn_all2 by lia. reflexivity. }
  rewrite Hm1. rewrite Hm2 in Hb. exists src'. split; [exact Hb|].
  cbv beta iota. cbn [rx set_w].
  rewrite (ClientFacts.store_full (msg (rx c)) m) by lia.
  change (Z.of_nat FRAME_SIZE =? 0) with false.
  change (Z.of_nat FRAME_SIZE <? 0) with false. cbv beta iota.
  cbn [rx set_rx set_w has_last msg last_msg].
  destruct (has_last (rx c) && bytes_eqb m (last_msg (rx c))); reflexivity.
Qed.

Lemma add_line_fields d tb m usr txt k :
  c_str (Wire.username m) = strncpy usr 31 ->
  c_str (Wire.message m) = strncpy txt 1023 ->
  tui_add_line d tb (Wire.username m) (Wire.message m) k
  = tui_add_line d tb usr txt k.
Proof.
  intros Hu Hm. unfold tui_add_line, tui_add_line_locked, new_line.
  rewrite (SessionFacts.strncpy_field (Wire.username m) 31 usr) by exact Hu.
  rewrite (SessionFacts.strncpy_field (Wire.message m) 1023 txt) by exact Hm.
  reflexivity.
Qed.

(** X28.  client.c in TUI mode: a MESSAGE_RECV record that the server
    sends any number of times in a row is shown as one line -- the first
    copy adds it, every further copy is dropped by the duplicate guard --
    however the copies are cut into reads; the receive thread stays in its
    loop and the bytes after the copies stay in the socket. *)
Theorem repeated_record_shown_once (c : client) (ts : Z)
    (usr txt more : list byte) (k : nat) :
  rpc c = RxLoop -> g_tui_enabled c = true -> running c = true ->
  length (msg (rx c)) = FRAME_SIZE ->
  0 <= ts < 4294967296 ->
  stream_bytes (sock_in (w c))
  = concat (repeat (server_frame MESSAGE_RECV ts usr txt) (S k)) ++ more ->
  has_last (rx c) = false
  \/ last_msg (rx c) <> server_frame MESSAGE_RECV ts usr txt ->
  disp (run c (repeat T_rx (S k)))
  = tui_add_line (disp c) (fmt_time (w c) ts) usr txt MESSAGE_RECV
  /\ rpc (run c (repeat T_rx (S k))) = RxLoop
  /\ running (run c (repeat T_rx (S k))) = true
  /\ stream_bytes (sock_in (w (run c (repeat T_rx (S k))))) = more.
Proof.
  intros Hpc Htui Hrun Hlen Hts Hbytes Hnew.
  destruct (CodecFacts.record_decodes MESSAGE_RECV ts usr txt)
    as (Hl & Hty & Htm & Hu & Hm); [unfold MESSAGE_RECV; lia | exact Hts |].
  set (m := server_frame MESSAGE_RECV ts usr txt) in *.
  (* the state between two copies *)
  pose (seen := fun (c' : client) (rest : list byte) =>
    rpc c' = RxLoop /\ running c' = true
    /\ length (msg (rx c')) = FRAME_SIZE
    /\ has_last (rx c') = true /\ last_msg (rx c') = m
    /\ stream_bytes (sock_in (w c')) = rest).
  assert (Hdup : forall c' rest, seen c' (m ++ rest) ->
            seen (step c' T_rx) rest /\ disp (step c' T_rx) = disp c').
  { intros c' rest (Hp & Hr & Hle & Hh & Hlast & Hb).
    destruct (rx_full_record c' m rest Hp Hle Hl Hb) as (src' & Hb' & ->).
    rewrite Hh, Hlast.
    rewrite (proj2 (CStrFacts.bytes_eqb_eq m m) eq_refl). cbn [andb].
    unfold rx_again. cbn [running set_rx set_w]. rewrite Hr.
    split; [|reflexivity]. repeat split; try assumption. }
  assert (Hall : forall n c' rest, seen c' (concat (repeat m n) ++ rest) ->
            seen (run c' (repeat T_rx n)) rest
            /\ disp (run c' (repeat T_rx n)) = disp c').
  { induction n as [|n IH]; intros c' rest Hs; [split; [exact Hs|reflexivity]|].
    cbn [repeat concat] in Hs. rewrite <- app_assoc in Hs.
    destruct (Hdup _ _ Hs) as [Hs1 Hd1].
    cbn [repeat run fold_left]. fold (run (step c' T_rx) (repeat T_rx n)).
    destruct (IH _ _ Hs1) as [Hs2 Hd2]. split; [exact Hs2|congruence]. }
  (* the first copy *)
  cbn [repeat concat] in Hbytes. rewrite <- app_assoc in Hbytes.
  destruct (rx_full_record c m _ Hpc Hlen Hl Hbytes) as (src' & Hb' & Hstep).
  assert (Hg : has_last (rx c) && bytes_eqb m (last_msg (rx c)) = false).
  { destruct Hnew as [->|Hne]; [reflexivity|].
    apply andb_false_iff. right. apply not_true_is_false.
    intros E. apply CStrFacts.bytes_eqb_eq in E. congruence. }
  rewrite Hg in Hstep. unfold rx_show in Hstep.
  cbn [rx set_rx msg g_tui_enabled w set_w] in Hstep.
  rewrite Htui, Hty, Htm in Hstep.
  change (to_int MESSAGE_RECV =? MESSAGE_RECV) with true in Hstep.
  cbv beta iota in Hstep. unfold rx_again, add_line in Hstep.
  cbn [running set_disp set_rx set_w disp rx rpc last_msg fmt_time with_sock_in]
    in Hstep.
  rewrite Hrun in Hstep. rewrite (add_line_fields _ _ m usr txt) in Hstep
    by assumption.
  cbn [repeat run fold_left]. fold (run (step c T_rx) (repeat T_rx k)).
  destruct (Hall k (step c T_rx) more) as [(Hp & Hr & _ & _ & _ & Hb) Hd].
  { rewrite Hstep. repeat split; try assumption; try reflexivity. }
  rewrite Hd. split; [now rewrite Hstep|]. auto.
Qed.

Lemma repeated_record_shown_once_witness :
  stream_bytes (sock_in (w Samples.tui_thrice))
  = concat (repeat (server_frame MESSAGE_RECV 1700000000 (lit "bob") (lit "hello")) 3)
    ++ []
  /\ disp (run Samples.tui_thrice [T_rx; T_rx; T_rx])
     = tui_add_line (disp Samples.tui_thrice)
         (fmt_time (w Samples.tui_thrice) 1700000000)
         (lit "bob") (lit "hello") MESSAGE_RECV.
Proof.
  split; [vm_compute; reflexivity|].
  apply (repeated_record_shown_once Samples.tui_thrice 1700000000
           (lit "bob") (lit "hello") [] 2);
    [ reflexivity | reflexivity | reflexivity | reflexivity | lia
    | vm_compute; reflexivity | left; reflexivity ].
Defined.

End ReceiveFacts.

Module OpReceiveFacts.
Import CStr Wire Transport Env ClientOp.

(** X29.  clientOp.c: when the next 1064 bytes of the socket are a record
    whose type is not DISCONNECT, one turn of the receive thread takes it,
    whatever its fields hold and however it is cut into reads.  For the
    type MESSAGE_RECV it prints the time of the timestamp, the bytes of the
    user-name field before its first NUL and never more than the first 31
    of them, and the bytes of the text field before its first NUL and never
    more than the first 1023; for the type SYSTEM it prints the text in
    the same way; a record of any other type is dropped without a word.
    Nothing is written to the socket, the thread stays in its loop while
    [running] holds, and the bytes after the record stay in the socket.
    For a record that a server built from two strings, the name and the
    text printed are those strings cut to 31 and to 1023 bytes. *)
Theorem op_record_printed (c : client) (m more : list byte) :
  rpc c <> RxExited -> running c = true ->
  length m = FRAME_SIZE ->
  m_type m <> DISCONNECT ->
  stream_bytes (sock_in (w c)) = m ++ more ->
  out (w (step c T_rx))
  = out (w c)
    ++ (if m_type m =? MESSAGE_RECV
        then [OutMsg (fmt_time (w c) (ntohl (firstn 4 (skipn 4 m))))
                (firstn 31 (c_str (firstn 32 (skipn 8 m))))
                (firstn 1023 (c_str (firstn 1024 (skipn 40 m))))]
        else if m_type m =? SYSTEM
        then [OutSystem (firstn 1023 (c_str (firstn 1024 (skipn 40 m))))]
        else [])
  /\ rpc (step c T_rx) = rpc c
  /\ running (step c T_rx) = true
  /\ sock_out (w (step c T_rx)) = sock_out (w c)
  /\ stream_bytes (sock_in (w (step c T_rx))) = more
  /\ (forall ts usr txt,
        0 <= ts < 4294967296 -> m = server_frame MESSAGE_RECV ts usr txt ->
        out (w (step c T_rx))
        = out (w c)
          ++ [OutMsg (fmt_time (w c) ts) (strncpy usr 31) (strncpy txt 1023)]).
Proof.
  intros Hpc Hrun Hl Hnd Hbytes.
  assert (Hmain :
    out (w (step c T_rx))
    = out (w c)
      ++ (if m_type m =? MESSAGE_RECV
          then [OutMsg (fmt_time (w c) (ntohl (firstn 4 (skipn 4 m))))
                  (firstn 31 (c_str (firstn 32 (skipn 8 m))))
                  (firstn 1023 (c_str (firstn 1024 (skipn 40 m))))]
          else if m_type m =? SYSTEM
          then [OutSystem (firstn 1023 (c_str (firstn 1024 (skipn 40 m))))]
          else [])
    /\ rpc (step c T_rx) = rpc c
    /\ running (step c T_rx) = true
    /\ sock_out (w (step c T_rx)) = sock_out (w c)
    /\ stream_bytes (sock_in (w (step c T_rx))) = more).
  { rewrite (OpSessionFacts.step_rx c Hpc). unfold rx_iter.
    destruct (FramingFacts.full_read_rest (sock_in (w c)) FRAME_SIZE)
      as (src' & -> & Hb & _).
    { rewrite Hbytes, length_app. lia. }
    rewrite Hbytes in *.
    assert (Hm1 : firstn FRAME_SIZE (m ++ more) = m).
    { rewrite firstn_app, Hl, Nat.sub_diag, firstn_all2 by lia.
      cbn [firstn]. apply app_nil_r. }
    assert (Hm2 : skipn FRAME_SIZE (m ++ more) = more).
    { rewrite skipn_app, Hl, Nat.sub_diag, skipn_all2 by lia. reflexivity. }
    rewrite Hm1. rewrite Hm2 in Hb. cbv beta iota.
    change (Z.of_nat FRAME_SIZE <? 0) with false.
    change (Z.of_nat FRAME_SIZE =? 0) with false.
    change (Z.of_nat FRAME_SIZE =? Z.of_nat FRAME_SIZE) with true.
    cbv beta iota. cbn [negb]. cbv beta iota.
    unfold rx_again, print.
    destruct (m_type m =? MESSAGE_RECV);
      [|destruct (m_type m =? SYSTEM);
        [|destruct (Z.eqb_spec (m_type m) DISCONNECT) as [E|_]; [contradiction|]]];
      cbn [running set_w w out with_out with_sock_in rpc sock_out sock_in fmt_time];
      rewrite Hrun; cbn [running set_w w out with_out with_sock_in rpc sock_out
                         sock_in fmt_time];
      rewrite ?app_nil_r; repeat split; first [exact Hb|exact Hrun]. }
  destruct Hmain as (Ho & H2 & H3 & H4 & H5).
  split; [exact Ho|]. split; [exact H2|]. split; [exact H3|].
  split; [exact H4|]. split; [exact H5|].
  intros ts usr txt Hts ->. rewrite Ho.
  destruct (CodecFacts.record_decodes MESSAGE_RECV ts usr txt)
    as (_ & Hty & Htm & Hu & Hm); [unfold MESSAGE_RECV; lia | exact Hts |].
  rewrite Hty. change (MESSAGE_RECV =? MESSAGE_RECV) with true. cbv beta iota.
  unfold timeStamp, field in Htm. rewrite Htm. do 3 f_equal.
  - apply (SessionFacts.strncpy_field
             (Wire.username (server_frame MESSAGE_RECV ts usr txt)) 31 usr Hu).
  - apply (SessionFacts.strncpy_field
             (Wire.message (server_frame MESSAGE_RECV ts usr txt)) 1023 txt Hm).
Qed.

(** A user-name field without a NUL: 31 of its bytes are printed, and
    nothing of the text field after it. *)
Lemma op_record_printed_witness :
  length (Samples.raw_frame MESSAGE_RECV) = FRAME_SIZE
  /\ out (w (step Samples.op_receiving_raw T_rx))
     = out (w Samples.op_receiving_raw)
       ++ [OutMsg (fmt_time (w Samples.op_receiving_raw) 1700000000)
             (repeat x75 31) (lit "hello")]
  /\ stream_bytes (sock_in (w (step Samples.op_receiving_raw T_rx)))
     = Samples.raw_disconnect.
Proof.
  split; [reflexivity|].
  destruct (op_record_printed Samples.op_receiving_raw
              (Samples.raw_frame MESSAGE_RECV) Samples.raw_disconnect)
    as (H1 & _ & _ & _ & H2 & _);
    [discriminate | reflexivity | reflexivity | vm_compute; discriminate
    | vm_compute; reflexivity |].
  split; [|exact H2].
  rewrite H1. vm_compute. reflexivity.
Defined.

End OpReceiveFacts.

(** ** Where the lines of the display come from *)

Module EchoFacts.
Import CStr Wire Transport Display Env Client Echo.

Lemma in_add_line_locked l lines tb usr txt k :
  In l (tui_add_line_locked lines tb usr txt k) ->
  In l lines \/ l = new_line tb usr txt k.
Proof.
  unfold tui_add_line_locked. destruct (_ <? _)%nat; intros H;
    apply in_app_or in H; destruct H as [H|[H|[]]]; auto.
  left. rewrite <- (firstn_skipn 1 lines). apply in_or_app. right.
  rewrite <- (firstn_skipn (TUI_MAX_LINES - 1) (skipn 1 lines)).
  apply in_or_app. now left.
Qed.

(** A literal among the client's texts, by a search of the list. *)
Lemma client_text_lit t :
  existsb (bytes_eqb t) client_texts = true -> client_text (strncpy t 1023).
Proof.
  intros H. apply existsb_exists in H. destruct H as (x & Hin & E).
  apply CStrFacts.bytes_eqb_eq in E. subst x. exists t. auto.
Qed.

Lemma client_text_quote pick :
  client_text
    (strncpy (nth (pick mod length gravemind_quotes) gravemind_quotes []) 1023).
Proof.
  eexists. split; [|reflexivity]. unfold client_texts.
  apply in_or_app. right. apply nth_In. apply Nat.mod_upper_bound. discriminate.
Qed.

Section Lines.

(** The kind of text that a step may add, the client's own texts among
    them, and the display that the step started from. *)
Variable P : list byte -> Prop.
Hypothesis client_text_P : forall t, client_text t -> P t.
Variable d0 : display.

Lemma adds_add d tb usr txt k :
  adds_only P d0 d -> P (strncpy txt 1023) ->
  adds_only P d0 (tui_add_line d tb usr txt k).
Proof.
  intros Hd Ht l Hl. cbn [tui_add_line g_lines] in Hl.
  apply in_add_line_locked in Hl. destruct Hl as [Hl| ->]; [now apply Hd|].
  right. exact Ht.
Qed.

Lemma adds_dirty d : adds_only P d0 d -> adds_only P d0 (tui_set_dirty d).
Proof. intros H. exact H. Qed.

Lemma adds_clear d : adds_only P d0 d -> adds_only P d0 (clear_dirty d).
Proof. intros H. exact H. Qed.

Lemma adds_scroll d s : adds_only P d0 d -> adds_only P d0 (set_scroll d s).
Proof. intros H. exact H. Qed.

(** The display of a state built by the setters. *)
Ltac echo_solve :=
  cbn [disp add_line dirty print set_disp set_running set_shutdown_requested
       set_g_ui_mode set_g_show_start_menu set_ed set_rx set_pc set_rpc set_w
       set_input set_hist set_hist_idx tui_input_clear tui_input_set negb];
  repeat match goal with
    | |- adds_only _ _ (tui_add_line _ _ _ _ _) =>
        apply adds_add;
        [|first [ assumption
                | apply client_text_P, client_text_lit; vm_compute; reflexivity
                | apply client_text_P, client_text_quote ]]
    | |- adds_only _ _ (tui_set_dirty _) => apply adds_dirty
    | |- adds_only _ _ (clear_dirty _) => apply adds_clear
    | |- adds_only _ _ (set_scroll _ _) => apply adds_scroll
    | |- _ => assumption
    end.

Lemma run_local_command_adds c s :
  adds_only P d0 (disp c) -> adds_only P d0 (disp (run_local_command c s)).
Proof. intros H. unfold run_local_command. ClientFacts.split_tests; echo_solve. Qed.

Lemma on_enter_adds c :
  adds_only P d0 (disp c) -> adds_only P d0 (disp (on_enter c)).
Proof.
  intros H. unfold on_enter.
  destruct (g_input_len (ed c) =? 0); [echo_solve|].
  destruct (is_local_command (g_input (ed c))).
  - echo_solve. now apply run_local_command_adds.
  - unfold sys_write. ClientFacts.split_tests;
      repeat match goal with
        | |- context [pop ?l] => destruct (pop l) as [[[|]|] ?]; cbv beta iota
        end;
      echo_solve.
Qed.

Lemma on_up_adds c : adds_only P d0 (disp c) -> adds_only P d0 (disp (on_up c)).
Proof. intros H. unfold on_up. ClientFacts.split_tests; echo_solve. Qed.

Lemma on_down_adds c :
  adds_only P d0 (disp c) -> adds_only P d0 (disp (on_down c)).
Proof. intros H. unfold on_down. ClientFacts.split_tests; echo_solve. Qed.

Lemma on_escape_adds c :
  adds_only P d0 (disp c) -> adds_only P d0 (disp (on_escape c)).
Proof.
  intros Hok. unfold on_escape.
  destruct (read_key c) as [k1 c1] eqn:E1.
  assert (Hc1 : disp c1 = disp c)
    by (change c1 with (snd (k1, c1)); rewrite <- E1;
        apply BoundsFacts.disp_read_key).
  rewrite <- Hc1 in Hok. destruct k1 as [s1|]; [|exact Hok].
  destruct (read_key c1) as [k2 c2] eqn:E2.
  assert (Hc2 : disp c2 = disp c1)
    by (change c2 with (snd (k2, c2)); rewrite <- E2;
        apply BoundsFacts.disp_read_key).
  rewrite <- Hc2 in Hok. destruct k2 as [s2|]; [|exact Hok].
  ClientFacts.split_tests; try assumption;
    [now apply on_up_adds|now apply on_down_adds].
Qed.

Lemma on_key_adds c k :
  adds_only P d0 (disp c) -> adds_only P d0 (disp (on_key c k)).
Proof.
  intros H. unfold on_key.
  destruct (_ || _); [now apply on_enter_adds|].
  destruct (_ || _); [destruct (_ >? _); echo_solve|].
  destruct (uchar k =? 27); [now apply on_escape_adds|].
  ClientFacts.split_tests; echo_solve.
Qed.

Lemma ui_iter_adds c :
  adds_only P d0 (disp c) -> adds_only P d0 (disp (ui_iter c)).
Proof.
  intros H. unfold ui_iter.
  destruct (negb (running c)); [now rewrite BoundsFacts.main_cleanup_disp|].
  set (c0 := if g_tui_dirty (disp c) then _ else c).
  assert (H0 : adds_only P d0 (disp c0))
    by (subst c0; destruct (g_tui_dirty _); echo_solve).
  clearbody c0.
  destruct (read_key c0) as [k1 c1] eqn:E1.
  assert (Hc1 : disp c1 = disp c0)
    by (change c1 with (snd (k1, c1)); rewrite <- E1;
        apply BoundsFacts.disp_read_key).
  rewrite <- Hc1 in H0. destruct k1 as [k1|]; [now apply on_key_adds|exact H0].
Qed.

Lemma boot_lines_adds c :
  adds_only P d0 (disp c) -> adds_only P d0 (disp (boot_lines c)).
Proof. intros H. unfold boot_lines. destruct (g_ui_mode c); echo_solve. Qed.

Lemma leave_menu_adds c :
  adds_only P d0 (disp c) -> adds_only P d0 (disp (leave_menu c)).
Proof.
  intros H. unfold leave_menu.
  destruct (negb (running c)); [now rewrite BoundsFacts.main_cleanup_disp|].
  echo_solve. now apply boot_lines_adds.
Qed.

Lemma menu_iter_adds c :
  adds_only P d0 (disp c) -> adds_only P d0 (disp (menu_iter c)).
Proof.
  intros H. unfold menu_iter.
  destruct (negb _); [now apply leave_menu_adds|].
  destruct (read_key c) as [k1 c1] eqn:E1.
  assert (Hc1 : disp c1 = disp c)
    by (change c1 with (snd (k1, c1)); rewrite <- E1;
        apply BoundsFacts.disp_read_key).
  rewrite <- Hc1 in H. destruct k1 as [k1|]; [|exact H].
  ClientFacts.split_tests; try exact H; apply leave_menu_adds; echo_solve.
Qed.

Lemma line_iter_adds c :
  adds_only P d0 (disp c) -> adds_only P d0 (disp (line_iter c)).
Proof.
  intros H. unfold line_iter.
  destruct (pop (stdin_in (w c))) as [[[l|]|] rest]; cbv beta iota.
  - destruct (is_local_command (chomp l)).
    + destruct (negb _); [|destruct (running _)];
        rewrite ?BoundsFacts.main_cleanup_disp;
        apply run_local_command_adds; echo_solve.
    + unfold sys_write. ClientFacts.split_tests;
        repeat match goal with
          | |- context [pop ?l] => destruct (pop l); cbv beta iota
          end;
        ClientFacts.split_tests; rewrite ?BoundsFacts.main_cleanup_disp;
        echo_solve.
  - ClientFacts.split_tests; rewrite ?BoundsFacts.main_cleanup_disp; echo_solve.
  - rewrite BoundsFacts.main_cleanup_disp. echo_solve.
Qed.

Lemma rx_start_adds c :
  adds_only P d0 (disp c) -> adds_only P d0 (disp (rx_start c)).
Proof.
  intros H. unfold rx_start, rx_again. ClientFacts.split_tests; echo_solve.
Qed.

Lemma quote_iter_adds c now pick :
  adds_only P d0 (disp c) -> adds_only P d0 (disp (quote_iter c now pick)).
Proof.
  intros H. unfold quote_iter. destruct (negb _); [exact H|].
  destruct (g_ui_mode c); [exact H|]. destruct (_ && _); echo_solve.
Qed.

(** A record that passed the duplicate guard: its text may be shown. *)
Lemma rx_show_adds c :
  adds_only P d0 (disp c) ->
  P (strncpy (Wire.message (msg (rx c))) 1023) ->
  adds_only P d0 (disp (rx_show c)).
Proof.
  intros H Hm. unfold rx_show, rx_again. ClientFacts.split_tests; echo_solve.
Qed.

End Lines.

Lemma adds_refl P d : adds_only P d d.
Proof. intros l Hl. now left. Qed.

(** Every thread but the receive thread adds the client's own texts
    only. *)
Lemma own_step_adds c t :
  t <> T_rx -> adds_only client_text (disp c) (disp (step c t)).
Proof.
  intros Ht.
  pose proof (adds_refl client_text (disp c)) as H.
  assert (HP : forall x, client_text x -> client_text x) by auto.
  destruct t; cbn [step]; [|congruence| |].
  - destruct (pc c); [| | |exact H].
    + now apply menu_iter_adds.
    + now apply ui_iter_adds.
    + now apply line_iter_adds.
  - unfold handle_signal. exact H.
  - now apply quote_iter_adds.
Qed.

(** The receive thread adds its own notices, or the text of the record
    that it has just read from the socket. *)
Lemma rx_step_adds c :
  adds_only
    (fun t =>
       client_text t
       \/ (rpc c = RxLoop
           /\ exists r data src',
                perform_full_read (Some (msg (rx c))) (sock_in (w c)) FRAME_SIZE
                = Some (r, data, src')
                /\ 0 < r
                /\ t = strncpy (Wire.message (store (msg (rx c)) data)) 1023))
    (disp c) (disp (step c T_rx)).
Proof.
  set (P := fun t => _ \/ _).
  pose proof (adds_refl P (disp c)) as H.
  assert (HP : forall x, client_text x -> P x) by (intros x Hx; now left).
  cbn [step]. destruct (rpc c) eqn:Hpc; [| |exact H].
  - now apply rx_start_adds.
  - unfold rx_iter.
    destruct (perform_full_read _ _ _) as [[[r data] src']|] eqn:E; [|exact H].
    cbv beta iota.
    destruct (Z.eqb_spec r 0) as [|Hr0].
    { destruct (g_tui_enabled _); cbn [disp set_rpc set_running dirty add_line
                                       print set_disp set_w set_rx].
      - apply adds_dirty, adds_add; [exact H|].
        apply HP, client_text_lit. vm_compute. reflexivity.
      - exact H. }
    destruct (Z.ltb_spec r 0) as [|Hr1].
    { destruct (g_tui_enabled _); cbn [disp set_rpc set_running dirty add_line
                                       print set_disp set_w set_rx].
      - apply adds_dirty, adds_add; [exact H|].
        apply HP, client_text_lit. vm_compute. reflexivity.
      - exact H. }
    destruct (_ && _).
    { unfold rx_again. ClientFacts.split_tests; exact H. }
    apply rx_show_adds; [exact H|].
    cbn [rx set_rx msg set_w]. right. split; [reflexivity|].
    exists r, data, src'. split; [reflexivity|]. split; [lia|reflexivity].
Qed.




End EchoFacts.
